(** * Epson S1D135xx primitives (epson/epson-s1d135xx.c)

    A shallow embedding of the common S1D135xx driver primitives of the
    Plastic Logic MSP430 EPD project, and the properties of its wire
    protocol: command framing, HRDY polling, power states, init code
    loading and display updates.

    The driver talks to the outside world only through GPIO calls, SPI
    byte transfers, millisecond delays, the log and the FAT file layer.
    Every such call is recorded, in order, as an [event]; the values the
    outside world hands back (pin levels, bytes clocked in, file results)
    are drawn one after the other from an [oracle]. *)

From Stdlib Require Import ZArith List String Bool Lia.
Import ListNotations.
Local Open Scope Z_scope.

(** ** Platform and device data *)

(** What the headers that are not part of this translation unit fix:
    the byte order of the host, the "no pin" GPIO identifier of
    <pl/gpio.h> and the register numbers of epson-s1d135xx.h.  They are
    kept abstract: no property below depends on their values. *)
Record platform : Type := {
  host_big_endian : bool;
  PL_GPIO_NONE : Z;
  S1D135XX_REG_SOFTWARE_RESET : Z;
  S1D135XX_REG_SYSTEM_STATUS : Z;
  S1D135XX_REG_SEQ_AUTOBOOT_CMD : Z
}.

(** Modelled from the spec: [enum pl_epdc_power_state] is declared in
    <pl/epdc.h>, which is not among the sources.  The driver indexes its
    command table [pwr_cmds] (RUN, STBY, SLEEP) with it and singles out
    OFF before the lookup, so Run, Standby and Sleep are the indices 0,
    1 and 2 and Off has no entry. *)
Inductive pl_epdc_power_state : Type :=
| PL_EPDC_RUN
| PL_EPDC_STANDBY
| PL_EPDC_SLEEP
| PL_EPDC_OFF.

Definition power_state_index (st : pl_epdc_power_state) : nat :=
  match st with
  | PL_EPDC_RUN => 0
  | PL_EPDC_STANDBY => 1
  | PL_EPDC_SLEEP => 2
  | PL_EPDC_OFF => 3
  end.

(** [struct s1d135xx_data]: the pins the driver uses, [p->data->...]. *)
Record s1d135xx_data : Type := {
  reset : Z;
  cs0 : Z;
  hrdy : Z;
  hdc : Z
}.

(** Modelled from the spec: [struct s1d135xx] is declared in
    epson-s1d135xx.h, which is not among the sources.  The fields the C
    file reads are [data], [hrdy_mask] and [hrdy_result]; the
    [power_state] field is the "currently believed power state" that the
    data model of the specification gives to the device context. *)
Record s1d135xx : Type := {
  data : s1d135xx_data;
  hrdy_mask : Z;
  hrdy_result : Z;
  power_state : pl_epdc_power_state
}.

(** [struct pl_area] of <pl/types.h>. *)
Record pl_area : Type := {
  left : Z;
  top : Z;
  width : Z;
  height : Z
}.

(** ** Constants of the C file *)

Definition S1D135XX_WF_MODE (wf : Z) : Z := Z.land (Z.shiftl wf 8) 0x0F00.
Definition S1D135XX_XMASK : Z := 0x01FF.
Definition S1D135XX_YMASK : Z := 0x03FF.
Definition S1D135XX_HRDY_TIMEOUT : nat := 3000.
Definition S1D135XX_INIT_CODE_CHECKSUM_OK : Z := Z.shiftl 1 15.

Definition S1D135XX_CMD_INIT_SET : Z := 0x00.
Definition S1D135XX_CMD_RUN : Z := 0x02.
Definition S1D135XX_CMD_STBY : Z := 0x04.
Definition S1D135XX_CMD_SLEEP : Z := 0x05.
Definition S1D135XX_CMD_INIT_STBY : Z := 0x06.
Definition S1D135XX_CMD_READ_REG : Z := 0x10.
Definition S1D135XX_CMD_WRITE_REG : Z := 0x11.
Definition S1D135XX_CMD_WAIT_DSPE_TRG : Z := 0x28.
Definition S1D135XX_CMD_WAIT_DSPE_FREND : Z := 0x29.
Definition S1D135XX_CMD_UPDATE_FULL : Z := 0x33.
Definition S1D135XX_CMD_UPDATE_FULL_AREA : Z := 0x34.
Definition S1D135XX_CMD_EPD_GDRV_CLR : Z := 0x37.

(** [FR_OK] of the FAT file layer. *)
Definition FR_OK : Z := 0.

Definition init_code_path : string := "bin/Ecode.bin".

(** ** 16-bit words and their bytes in memory *)

(** Conversion to [uint16_t]. *)
Definition u16 (x : Z) : Z := x mod 65536.

(** The two bytes of a [uint16_t] object, lowest address first, on a
    host of the given byte order: what [(uint8_t * )&v] points to. *)
Definition bytes_of_u16 (big : bool) (v : Z) : list Z :=
  if big then [v / 256; v mod 256] else [v mod 256; v / 256].

(** The [uint16_t] object that two bytes stored at its address make. *)
Definition u16_of_bytes (big : bool) (buf : list Z) : Z :=
  match buf with
  | [b0; b1] => if big then b0 * 256 + b1 else b1 * 256 + b0
  | _ => 0
  end.

Definition bswap16 (v : Z) : Z := (v mod 256) * 256 + v / 256.

(** Modelled from the spec: [htobe16] is a macro of <pl/endian.h>, which
    is not among the sources.  It converts a word of the host to
    big-endian byte order: the identity on a big-endian host, a byte
    swap on a little-endian one. *)
Definition htobe16 (big : bool) (v : Z) : Z := if big then v else bswap16 v.

(** Modelled from the spec: [be16toh] is a macro of <pl/endian.h>, which
    is not among the sources.  It converts a big-endian word to the byte
    order of the host. *)
Definition be16toh (big : bool) (v : Z) : Z := if big then v else bswap16 v.

(** ** The outside world *)

Inductive event : Type :=
| GpioSet (pin level : Z)
| GpioGet (pin level : Z)
| SpiWrite (buf : list Z)
| SpiRead (buf : list Z)
| Mdelay (ms : Z)
| Log (msg : string)
| FOpen (path : string) (res : Z)
| TransferFile (stat : Z)
| FClose.

(** The answers of the outside world, in the order they are asked for. *)
Definition oracle : Type := nat -> Z.

(** What a call can change: the device structure behind the pointer [p]
    and the number of answers consumed so far. *)
Record state : Type := {
  dev : s1d135xx;
  tick : nat
}.

Record outcome (A : Type) : Type := {
  value : A;
  after : state;
  emitted : list event
}.
Arguments value {A} _.
Arguments after {A} _.
Arguments emitted {A} _.

Definition M (A : Type) : Type := oracle -> state -> outcome A.

Definition ret {A} (a : A) : M A :=
  fun _ s => {| value := a; after := s; emitted := [] |}.

Definition bind {A B} (m : M A) (f : A -> M B) : M B :=
  fun o s =>
    let r1 := m o s in
    let r2 := f (value r1) o (after r1) in
    {| value := value r2; after := after r2;
       emitted := emitted r1 ++ emitted r2 |}.

(** An outcome with some events emitted before it. *)
Definition prepend {A} (tr : list event) (r : outcome A) : outcome A :=
  {| value := value r; after := after r; emitted := tr ++ emitted r |}.

Declare Scope io_scope.
Delimit Scope io_scope with io.
Notation "x <- m ;; k" := (bind m (fun x => k))
  (at level 61, m at next level, right associativity) : io_scope.
Notation "m ;; k" := (bind m (fun _ => k))
  (at level 61, right associativity) : io_scope.
Local Open Scope io_scope.

Definition emit (e : event) : M unit :=
  fun _ s => {| value := tt; after := s; emitted := [e] |}.

(** One answer of the outside world. *)
Definition ask : M Z :=
  fun o s => {| value := o (tick s);
                after := {| dev := dev s; tick := S (tick s) |};
                emitted := [] |}.

Fixpoint ask_bytes (n : nat) : M (list Z) :=
  match n with
  | O => ret []
  | S n' => b <- ask ;; bs <- ask_bytes n' ;; ret (b mod 256 :: bs)
  end.

(** [p->...]: the device structure. *)
Definition get_dev : M s1d135xx :=
  fun _ s => {| value := dev s; after := s; emitted := [] |}.

Definition gpio_set (pin level : Z) : M unit := emit (GpioSet pin level).
Definition gpio_get (pin : Z) : M Z :=
  v <- ask ;; emit (GpioGet pin v) ;; ret v.
Definition mdelay (ms : Z) : M unit := emit (Mdelay ms).
Definition LOG (msg : string) : M unit := emit (Log msg).
Definition spi_write_bytes (buf : list Z) : M unit := emit (SpiWrite buf).
Definition spi_read_bytes (size : nat) : M (list Z) :=
  buf <- ask_bytes size ;; emit (SpiRead buf) ;; ret buf.
Definition f_open (path : string) : M Z :=
  r <- ask ;; emit (FOpen path r) ;; ret r.
Definition transfer_file : M Z :=
  r <- ask ;; emit (TransferFile r) ;; ret r.
Definition f_close : M unit := emit FClose.

(** ** The driver *)

Section Driver.

Variable pf : platform.

(** *** private functions *)

Definition set_cs (st : Z) : M unit :=
  p <- get_dev ;; gpio_set (cs0 (data p)) st.

Definition set_hdc (st : Z) : M unit :=
  p <- get_dev ;;
  if hdc (data p) =? PL_GPIO_NONE pf then ret tt
  else gpio_set (hdc (data p)) st.

Definition send_param (param : Z) : M unit :=
  let param := u16 param in
  let param := htobe16 (host_big_endian pf) param in
  spi_write_bytes (bytes_of_u16 (host_big_endian pf) param).

Fixpoint send_params (params : list Z) : M unit :=
  match params with
  | [] => ret tt
  | x :: rest => send_param x ;; send_params rest
  end.

Definition send_cmd (cmd : Z) : M unit :=
  let cmd := u16 cmd in
  let cmd := htobe16 (host_big_endian pf) cmd in
  spi_write_bytes (bytes_of_u16 (host_big_endian pf) cmd).

(** *** register access *)

Definition s1d135xx_cmd (cmd : Z) (params : list Z) : M unit :=
  set_cs 0 ;;
  send_cmd cmd ;;
  send_params params ;;
  set_cs 1.

Definition s1d135xx_read_reg (reg : Z) : M Z :=
  set_cs 0 ;;
  send_cmd S1D135XX_CMD_READ_REG ;;
  send_param reg ;;
  val <- spi_read_bytes 2 ;;
  val <- spi_read_bytes 2 ;;
  set_cs 1 ;;
  ret (be16toh (host_big_endian pf) (u16_of_bytes (host_big_endian pf) val)).

Definition s1d135xx_write_reg (reg val : Z) : M unit :=
  let params := [reg; val] in
  set_cs 0 ;;
  send_cmd S1D135XX_CMD_WRITE_REG ;;
  send_params params ;;
  set_cs 1.

(** *** HRDY *)

Definition get_hrdy : M Z :=
  p <- get_dev ;;
  if negb (hrdy (data p) =? PL_GPIO_NONE pf) then gpio_get (hrdy (data p))
  else
    status <- s1d135xx_read_reg (S1D135XX_REG_SYSTEM_STATUS pf) ;;
    ret (if Z.land status (hrdy_mask p) =? hrdy_result p then 1 else 0).

(** [while (!get_hrdy(p) && --timeout) mdelay(1);] entered with the
    counter at [S t]; the value is the counter when the loop is left. *)
Fixpoint hrdy_poll (t : nat) : M nat :=
  r <- get_hrdy ;;
  if negb (r =? 0) then ret (S t)
  else
    match t with
    | O => ret O
    | S t' => mdelay 1 ;; hrdy_poll t'
    end.

Definition s1d135xx_wait_idle : M Z :=
  timeout <- hrdy_poll (Nat.pred S1D135XX_HRDY_TIMEOUT) ;;
  match timeout with
  | O => LOG "HRDY timeout" ;; ret (-1)
  | S _ => ret 0
  end.

(** *** public functions *)

Definition s1d135xx_hard_reset : M unit :=
  p <- get_dev ;;
  if reset (data p) =? PL_GPIO_NONE pf then LOG "Warning: no hard reset"
  else
    gpio_set (reset (data p)) 0 ;;
    mdelay 4 ;;
    gpio_set (reset (data p)) 1 ;;
    mdelay 10.

Definition s1d135xx_soft_reset : M Z :=
  s1d135xx_write_reg (S1D135XX_REG_SOFTWARE_RESET pf) 0 ;;
  s1d135xx_wait_idle.

Definition s1d135xx_load_init_code : M Z :=
  r <- f_open init_code_path ;;
  if negb (r =? FR_OK) then ret (-1)
  else
    w <- s1d135xx_wait_idle ;;
    if negb (w =? 0) then ret (-1)
    else
      set_cs 0 ;;
      send_cmd S1D135XX_CMD_INIT_SET ;;
      stat <- transfer_file ;;
      set_cs 1 ;;
      f_close ;;
      w <- s1d135xx_wait_idle ;;
      if negb (w =? 0) then ret (-1)
      else if negb (stat =? 0) then
        LOG "Failed to transfer init code file" ;; ret (-1)
      else
        checksum <- s1d135xx_read_reg (S1D135XX_REG_SEQ_AUTOBOOT_CMD pf) ;;
        if Z.land checksum S1D135XX_INIT_CODE_CHECKSUM_OK =? 0 then
          LOG "Init code checksum error" ;; ret (-1)
        else
          set_cs 0 ;;
          send_cmd S1D135XX_CMD_INIT_STBY ;;
          set_cs 1 ;;
          mdelay 100 ;;
          s1d135xx_wait_idle.

Definition pwr_cmds : list Z :=
  [S1D135XX_CMD_RUN; S1D135XX_CMD_STBY; S1D135XX_CMD_SLEEP].

Definition s1d135xx_set_power_state (st : pl_epdc_power_state) : M Z :=
  match st with
  | PL_EPDC_OFF => LOG "Warning: OFF mode not supported" ;; ret 0
  | _ =>
    w <- s1d135xx_wait_idle ;;
    if negb (w =? 0) then ret (-1)
    else
      set_cs 0 ;;
      send_cmd (nth (power_state_index st) pwr_cmds 0) ;;
      set_cs 1 ;;
      s1d135xx_wait_idle
  end.

Definition s1d135xx_init_gate_drv : M Z :=
  r <- s1d135xx_set_power_state PL_EPDC_RUN ;;
  if negb (r =? 0) then ret (-1)
  else
    set_cs 0 ;;
    send_cmd S1D135XX_CMD_EPD_GDRV_CLR ;;
    set_cs 1 ;;
    s1d135xx_wait_idle.

Definition s1d135xx_wait_dspe_trig : M Z :=
  set_cs 0 ;;
  send_cmd S1D135XX_CMD_WAIT_DSPE_TRG ;;
  set_cs 1 ;;
  s1d135xx_wait_idle.

Definition s1d135xx_update (wfid : Z) : M Z :=
  set_cs 0 ;;
  send_cmd S1D135XX_CMD_UPDATE_FULL ;;
  send_param (S1D135XX_WF_MODE wfid) ;;
  set_cs 1 ;;
  w <- s1d135xx_wait_idle ;;
  if negb (w =? 0) then ret (-1)
  else s1d135xx_wait_dspe_trig.

Definition s1d135xx_update_area (wfid : Z) (area : pl_area) : M Z :=
  let params :=
    [S1D135XX_WF_MODE wfid; Z.land (left area) S1D135XX_XMASK;
     Z.land (top area) S1D135XX_YMASK; Z.land (width area) S1D135XX_XMASK;
     Z.land (height area) S1D135XX_YMASK] in
  set_cs 0 ;;
  send_cmd S1D135XX_CMD_UPDATE_FULL_AREA ;;
  send_params params ;;
  set_cs 1 ;;
  w <- s1d135xx_wait_idle ;;
  if negb (w =? 0) then ret (-1)
  else s1d135xx_wait_dspe_trig.

Definition s1d135xx_wait_update_end : M Z :=
  set_cs 0 ;;
  send_cmd S1D135XX_CMD_WAIT_DSPE_FREND ;;
  set_cs 1 ;;
  s1d135xx_wait_idle.

End Driver.

(** ** The public operations as one type *)

Inductive operation : Type :=
| OpHardReset
| OpSoftReset
| OpLoadInitCode
| OpInitGateDrv
| OpWaitDspeTrig
| OpUpdate (wfid : Z)
| OpUpdateArea (wfid : Z) (area : pl_area)
| OpWaitUpdateEnd
| OpWaitIdle
| OpSetPowerState (st : pl_epdc_power_state)
| OpCmd (cmd : Z) (params : list Z)
| OpReadReg (reg : Z)
| OpWriteReg (reg val : Z).

(** A [void] function reports 0. *)
Definition run_operation (pf : platform) (op : operation) : M Z :=
  match op with
  | OpHardReset => s1d135xx_hard_reset pf ;; ret 0
  | OpSoftReset => s1d135xx_soft_reset pf
  | OpLoadInitCode => s1d135xx_load_init_code pf
  | OpInitGateDrv => s1d135xx_init_gate_drv pf
  | OpWaitDspeTrig => s1d135xx_wait_dspe_trig pf
  | OpUpdate wfid => s1d135xx_update pf wfid
  | OpUpdateArea wfid area => s1d135xx_update_area pf wfid area
  | OpWaitUpdateEnd => s1d135xx_wait_update_end pf
  | OpWaitIdle => s1d135xx_wait_idle pf
  | OpSetPowerState st => s1d135xx_set_power_state pf st
  | OpCmd cmd params => s1d135xx_cmd pf cmd params ;; ret 0
  | OpReadReg reg => s1d135xx_read_reg pf reg
  | OpWriteReg reg val => s1d135xx_write_reg pf reg val ;; ret 0
  end.

(** ** Observations on a trace *)

(** A 16-bit word on the wire: two bytes, most significant first. *)
Definition wire (v : Z) : list Z := [u16 v / 256; u16 v mod 256].

(** The word that two bytes on the wire stand for. *)
Definition be_word (buf : list Z) : Z :=
  match buf with
  | [b0; b1] => b0 * 256 + b1
  | _ => 0
  end.

(** A command frame: chip select asserted (driven low), the command
    word, the parameter words, chip select deasserted. *)
Definition frame (cs cmd : Z) (params : list Z) : list event :=
  GpioSet cs 0 :: SpiWrite (wire cmd)
    :: map (fun x => SpiWrite (wire x)) params ++ [GpioSet cs 1].

(** The levels driven on pin [cs], in order. *)
Fixpoint cs_levels (cs : Z) (tr : list event) : list Z :=
  match tr with
  | [] => []
  | GpioSet pin level :: tr' =>
      if pin =? cs then level :: cs_levels cs tr' else cs_levels cs tr'
  | _ :: tr' => cs_levels cs tr'
  end.

Definition cs_asserts (cs : Z) (tr : list event) : nat :=
  List.length (filter (fun l => l =? 0) (cs_levels cs tr)).

Definition cs_deasserts (cs : Z) (tr : list event) : nat :=
  List.length (filter (fun l => negb (l =? 0)) (cs_levels cs tr)).

(** The level of the chip-select line after a trace, from level [init]. *)
Definition cs_line (cs init : Z) (tr : list event) : Z :=
  last (cs_levels cs tr) init.

(** The command words of a trace: the first word written after each
    assertion of chip select.  [sel] tells that chip select has just been
    asserted and the command word is still to come. *)
Fixpoint commands (cs : Z) (sel : bool) (tr : list event) : list Z :=
  match tr with
  | [] => []
  | GpioSet pin level :: tr' =>
      if pin =? cs then commands cs (level =? 0) tr'
      else commands cs sel tr'
  | SpiWrite buf :: tr' =>
      if sel then be_word buf :: commands cs false tr'
      else commands cs false tr'
  | _ :: tr' => commands cs sel tr'
  end.

(** The delays of a trace, in milliseconds. *)
Fixpoint delays (tr : list event) : list Z :=
  match tr with
  | [] => []
  | Mdelay ms :: tr' => ms :: delays tr'
  | _ :: tr' => delays tr'
  end.

(** The GPIO calls of a trace. *)
Definition is_gpio (e : event) : bool :=
  match e with
  | GpioSet _ _ | GpioGet _ _ => true
  | _ => false
  end.

(** Events that do not touch the bus: neither a pin is driven nor a
    byte moved. *)
Definition off_bus (e : event) : bool :=
  match e with
  | GpioSet _ _ | SpiWrite _ | SpiRead _ | TransferFile _ => false
  | _ => true
  end.

(** The readiness check number [k] (from 0) of a wait that starts in
    state [s]: the level of the HRDY pin if there is one, otherwise
    [(status & mask) == expected] on the second word read back from the
    status register.  A pin check takes one answer of the outside world,
    a register check four bytes. *)
Definition hrdy_stride (pf : platform) (p : s1d135xx) : nat :=
  if negb (hrdy (data p) =? PL_GPIO_NONE pf) then 1 else 4.

Definition ready_check (pf : platform) (o : oracle) (s : state) (k : nat)
  : bool :=
  let t := (tick s + k * hrdy_stride pf (dev s))%nat in
  if negb (hrdy (data (dev s)) =? PL_GPIO_NONE pf) then negb (o t =? 0)
  else
    Z.land (be_word [o (t + 2)%nat mod 256; o (t + 3)%nat mod 256])
      (hrdy_mask (dev s)) =? hrdy_result (dev s).

(** The state after [k] readiness checks. *)
Definition checked (pf : platform) (s : state) (k : nat) : state :=
  {| dev := dev s; tick := (tick s + k * hrdy_stride pf (dev s))%nat |}.

(** What readiness check number [k] puts on the trace: one read of the
    HRDY pin if there is one, otherwise one READ_REG frame for the status
    register with the two words read back. *)
Definition check_trace (pf : platform) (o : oracle) (s : state) (k : nat)
  : list event :=
  let t := (tick s + k * hrdy_stride pf (dev s))%nat in
  if negb (hrdy (data (dev s)) =? PL_GPIO_NONE pf)
  then [GpioGet (hrdy (data (dev s))) (o t)]
  else
    [GpioSet (cs0 (data (dev s))) 0;
     SpiWrite (wire S1D135XX_CMD_READ_REG);
     SpiWrite (wire (S1D135XX_REG_SYSTEM_STATUS pf));
     SpiRead [o t mod 256; o (t + 1)%nat mod 256];
     SpiRead [o (t + 2)%nat mod 256; o (t + 3)%nat mod 256];
     GpioSet (cs0 (data (dev s))) 1].

(** The checks [i] to [i + n] of a wait, with a delay of 1 ms between
    one check and the next. *)
Fixpoint poll_trace (pf : platform) (o : oracle) (s : state) (i n : nat)
  : list event :=
  match n with
  | O => check_trace pf o s i
  | S n' => check_trace pf o s i ++ Mdelay 1 :: poll_trace pf o s (S i) n'
  end.

(** The tail that [s1d135xx_update] and [s1d135xx_update_area] share:
    wait until idle, then the trigger handshake. *)
Definition handshake (pf : platform) : M Z :=
  w <- s1d135xx_wait_idle pf ;;
  if negb (w =? 0) then ret (-1)
  else s1d135xx_wait_dspe_trig pf.

(** Levels that come in pairs: asserted (0), then deasserted (1). *)
Inductive balanced : list Z -> Prop :=
| balanced_nil : balanced []
| balanced_window l : balanced l -> balanced (0 :: 1 :: l).

(** A trace that leaves chip select deasserted and whose command words
    are [cmds]: whatever follows it, its commands come first. *)
Definition issues (cs : Z) (tr : list event) (cmds : list Z) : Prop :=
  forall rest,
    commands cs false (tr ++ rest) = cmds ++ commands cs false rest.

(** A trace whose only commands are register reads. *)
Definition polls_only (cs : Z) (tr : list event) : Prop :=
  exists n, issues cs tr (repeat S1D135XX_CMD_READ_REG n).

(** The commands that are not register reads. *)
Definition without_polls (cmds : list Z) : list Z :=
  filter (fun c => negb (c =? S1D135XX_CMD_READ_REG)) cmds.

(** The stages of [s1d135xx_load_init_code], each from the state the one
    before leaves: opening the file, the first wait, the transfer of the
    file, the second wait, the read of the checksum register and the
    last wait. *)
Section LoadStages.

Variables (pf : platform) (o : oracle) (s : state).

Definition load_open : outcome Z := f_open init_code_path o s.
Definition load_wait1 : outcome Z :=
  s1d135xx_wait_idle pf o (after load_open).
Definition load_transfer : outcome Z := transfer_file o (after load_wait1).
Definition load_wait2 : outcome Z :=
  s1d135xx_wait_idle pf o (after load_transfer).
Definition load_checksum : outcome Z :=
  s1d135xx_read_reg pf (S1D135XX_REG_SEQ_AUTOBOOT_CMD pf) o
    (after load_wait2).
Definition load_wait3 : outcome Z :=
  s1d135xx_wait_idle pf o (after load_checksum).

(** What is on the trace once the init code has been sent and the
    second wait is over. *)
Definition load_sent : list event :=
  emitted load_open ++ emitted load_wait1
    ++ [GpioSet (cs0 (data (dev s))) 0;
        SpiWrite (wire S1D135XX_CMD_INIT_SET)]
    ++ emitted load_transfer
    ++ [GpioSet (cs0 (data (dev s))) 1; FClose]
    ++ emitted load_wait2.

End LoadStages.

(** [update_full] followed immediately by [wait_update_end]. *)
Definition update_then_wait_end (pf : platform) (wfid : Z) : M (Z * Z) :=
  r1 <- s1d135xx_update pf wfid ;;
  r2 <- s1d135xx_wait_update_end pf ;;
  ret (r1, r2).

(** ** Concrete platform and devices, for the examples *)

Definition msp430 : platform :=
  {| host_big_endian := false;
     PL_GPIO_NONE := 65535;
     S1D135XX_REG_SOFTWARE_RESET := 0x0008;
     S1D135XX_REG_SYSTEM_STATUS := 0x000A;
     S1D135XX_REG_SEQ_AUTOBOOT_CMD := 0x02A8 |}.

(** A device with a dedicated HRDY pin. *)
Definition dev_pin : s1d135xx :=
  {| data := {| reset := 1; cs0 := 2; hrdy := 3; hdc := 4 |};
     hrdy_mask := 0; hrdy_result := 0;
     power_state := PL_EPDC_SLEEP |}.

(** A device without one: readiness is bit 13 of the status register. *)
Definition dev_reg : s1d135xx :=
  {| data := {| reset := 65535; cs0 := 2; hrdy := 65535; hdc := 65535 |};
     hrdy_mask := 0x2000; hrdy_result := 0x2000;
     power_state := PL_EPDC_SLEEP |}.

Definition fresh (d : s1d135xx) : state := {| dev := d; tick := 0 |}.

(** The same board with a host of the other byte order. *)
Definition big_endian_host : platform :=
  {| host_big_endian := true;
     PL_GPIO_NONE := 65535;
     S1D135XX_REG_SOFTWARE_RESET := 0x0008;
     S1D135XX_REG_SYSTEM_STATUS := 0x000A;
     S1D135XX_REG_SEQ_AUTOBOOT_CMD := 0x02A8 |}.

(** For [dev_reg]: the status register reads 0x0000 at the first check
    and 0x2000 at the second. *)
Definition oracle_ready_second : oracle :=
  fun n => match n with 6%nat => 0x20 | _ => 0 end.

(** The chip answers a register read with 0x0000, then 0x1234. *)
Definition oracle_reads_1234 : oracle :=
  fun n => match n with 2%nat => 0x12 | 3%nat => 0x34 | _ => 0 end.

(** For [dev_pin]: the file opens and transfers, HRDY is high at every
    check, and the checksum register reads 0x8001. *)
Definition oracle_checksum_ok : oracle :=
  fun n =>
    match n with
    | 0%nat | 2%nat => 0
    | 6%nat => 0x80
    | _ => 1
    end.

(** For [dev_pin]: the file opens, HRDY is high once, then the transfer
    fails and HRDY stays low. *)
Definition oracle_transfer_fails : oracle :=
  fun n =>
    match n with
    | 0%nat => 0
    | 1%nat => 1
    | 2%nat => 1
    | _ => 0
    end.

(** The same, but the checksum register reads 0x0101. *)
Definition oracle_checksum_bad : oracle :=
  fun n =>
    match n with
    | 0%nat | 2%nat => 0
    | _ => 1
    end.

(** ** Further observations on a trace *)

(** The time a trace spends in delays, in milliseconds. *)
Definition total_delay (tr : list event) : Z :=
  fold_right Z.add 0 (delays tr).

(** The longest time each operation can spend in delays, in
    milliseconds: 2999 for every wait it makes, and its fixed delays. *)
Definition delay_bound (op : operation) : Z :=
  match op with
  | OpHardReset => 14
  | OpSoftReset => 2999
  | OpLoadInitCode => 3 * 2999 + 100
  | OpInitGateDrv => 3 * 2999
  | OpWaitDspeTrig => 2999
  | OpUpdate _ => 2 * 2999
  | OpUpdateArea _ _ => 2 * 2999
  | OpWaitUpdateEnd => 2999
  | OpWaitIdle => 2999
  | OpSetPowerState _ => 2 * 2999
  | OpCmd _ _ => 0
  | OpReadReg _ => 0
  | OpWriteReg _ _ => 0
  end.

(** The pieces a trace of the driver is made of, for the device [d]. *)
Inductive block (pf : platform) (d : s1d135xx) : list event -> Prop :=
| blk_frame cmd params : block pf d (frame (cs0 (data d)) cmd params)
| blk_read reg b0 b1 b2 b3 :
    0 <= b0 < 256 -> 0 <= b1 < 256 -> 0 <= b2 < 256 -> 0 <= b3 < 256 ->
    block pf d
      [GpioSet (cs0 (data d)) 0; SpiWrite (wire S1D135XX_CMD_READ_REG);
       SpiWrite (wire reg); SpiRead [b0; b1]; SpiRead [b2; b3];
       GpioSet (cs0 (data d)) 1]
| blk_transfer stat :
    block pf d
      [GpioSet (cs0 (data d)) 0; SpiWrite (wire S1D135XX_CMD_INIT_SET);
       TransferFile stat; GpioSet (cs0 (data d)) 1]
| blk_hrdy level :
    hrdy (data d) <> PL_GPIO_NONE pf ->
    block pf d [GpioGet (hrdy (data d)) level]
| blk_reset :
    reset (data d) <> PL_GPIO_NONE pf ->
    block pf d
      [GpioSet (reset (data d)) 0; Mdelay 4;
       GpioSet (reset (data d)) 1; Mdelay 10]
| blk_delay ms : ms = 1 \/ ms = 100 -> block pf d [Mdelay ms]
| blk_log msg : block pf d [Log msg]
| blk_open res : block pf d [FOpen init_code_path res]
| blk_close : block pf d [FClose].

(** A sequence of such pieces. *)
Inductive driver_trace (pf : platform) (d : s1d135xx) : list event -> Prop :=
| dt_nil : driver_trace pf d []
| dt_block b tr :
    block pf d b -> driver_trace pf d tr -> driver_trace pf d (b ++ tr).

(** What a single event of the driver may be: only the chip-select and
    reset pins are driven, and only to 0 or 1; only the HRDY pin is read;
    every write and read of the driver's own is of two bytes; the delays
    are those of the C file.  The transfer of the init code file, the
    closing of the file and the log are not constrained. *)
Definition allowed (pf : platform) (d : s1d135xx) (e : event) : Prop :=
  match e with
  | GpioSet pin level =>
      (pin = cs0 (data d)
       \/ (pin = reset (data d) /\ reset (data d) <> PL_GPIO_NONE pf))
      /\ (level = 0 \/ level = 1)
  | GpioGet pin _ => pin = hrdy (data d) /\ hrdy (data d) <> PL_GPIO_NONE pf
  | SpiWrite buf | SpiRead buf =>
      List.length buf = 2%nat /\ Forall (fun b => 0 <= b < 256) buf
  | Mdelay ms => ms = 1 \/ ms = 4 \/ ms = 10 \/ ms = 100
  | FOpen path _ => path = init_code_path
  | _ => True
  end.

(** Going through a trace with the state of chip select: [sel] tells
    that it is asserted.  The result is the state at the end, or [None]
    if chip select is asserted twice in a row, deasserted while it is not
    asserted, or if bytes move on the bus while it is not asserted. *)
Fixpoint window_scan (cs : Z) (sel : bool) (tr : list event) : option bool :=
  match tr with
  | [] => Some sel
  | GpioSet pin level :: tr' =>
      if pin =? cs then
        if level =? 0 then (if sel then None else window_scan cs true tr')
        else (if sel then window_scan cs false tr' else None)
      else window_scan cs sel tr'
  | SpiWrite _ :: tr' | SpiRead _ :: tr' | TransferFile _ :: tr' =>
      if sel then window_scan cs sel tr' else None
  | _ :: tr' => window_scan cs sel tr'
  end.

(** How often a trace closes the init code file. *)
Definition is_fclose (e : event) : bool :=
  match e with
  | FClose => true
  | _ => false
  end.

Definition file_closes (tr : list event) : nat :=
  List.length (filter is_fclose tr).

(** The command of [pwr_cmds] for a power state that has one. *)
Definition power_command (st : pl_epdc_power_state) : Z :=
  match st with
  | PL_EPDC_RUN => S1D135XX_CMD_RUN
  | PL_EPDC_STANDBY => S1D135XX_CMD_STBY
  | PL_EPDC_SLEEP => S1D135XX_CMD_SLEEP
  | PL_EPDC_OFF => 0
  end.

(** * Probing the hardware (probe.c)

    The probe functions call into the display, PMIC and file layers and
    decide from what these return.  Each call is an event with its
    arguments and its result; the results come from an [oracle], the
    structures the calls fill in are given as they are after the call.
    [abort_msg] ends the run. *)

Module Probe.

(** [enum i2c_mode_id], [enum hv_pmic_id] and [enum epdc_ref] of
    <pl/hwinfo.h>, with a case for any value that is none of those
    named in probe.c. *)
Inductive i2c_mode_id : Type :=
| I2C_MODE_NONE
| I2C_MODE_HOST
| I2C_MODE_DISP
| I2C_MODE_S1D13524
| I2C_MODE_SC18IS6XX
| I2C_MODE_other (n : Z).

Inductive hv_pmic_id : Type :=
| HV_PMIC_NONE
| HV_PMIC_MAX17135
| HV_PMIC_TPS65185
| HV_PMIC_other (n : Z).

Inductive epdc_ref_id : Type :=
| EPDC_NONE
| EPDC_S1D13524
| EPDC_S1D13541
| EPDC_other (n : Z).

(** [enum epson_epdc_ref] of <epson/epson-epdc.h>. *)
Inductive epson_epdc_ref : Type :=
| EPSON_EPDC_S1D13524
| EPSON_EPDC_S1D13541.

(** The fields of [struct pl_hwinfo] that probe.c reads, [board.] left
    out of their names. *)
Record pl_hwinfo : Type := {
  board_type : string;
  i2c_mode : i2c_mode_id;
  hv_pmic : hv_pmic_id;
  epdc_ref : epdc_ref_id
}.

(** What [probe_epdc] asserts of [struct pl_epdc]: a flag for each
    function pointer and table that is not NULL, and the resolution. *)
Record pl_epdc : Type := {
  clear_init : bool;
  load_wflib : bool;
  update : bool;
  wait_update_end : bool;
  set_power : bool;
  set_temp_mode : bool;
  update_temp : bool;
  fill : bool;
  load_image : bool;
  set_epd_power : bool;
  wf_table : bool;
  xres : Z;
  yres : Z
}.

(** The fields of [struct pl_platform] that probe.c reads or writes.
    [i2c] is the bus the platform uses, a pointer; [vcom] is
    [dispinfo->info.vcom]. *)
Record pl_platform : Type := {
  hwinfo : pl_hwinfo;
  i2c : Z;
  vcom : Z;
  epdc : pl_epdc
}.

Definition I2C_PMIC_ADDR_TPS65185 : Z := 0x68.
Definition I2C_PMIC_ADDR_MAX17135 : Z := 0x48.
Definition ROOT_SD_PATH : string := "0:".

(** The display data configuration of config.h: which of the four
    [CONFIG_DISP_DATA_...] is set. *)
Inductive disp_data_config : Type :=
| CONFIG_DISP_DATA_EEPROM_ONLY
| CONFIG_DISP_DATA_SD_ONLY
| CONFIG_DISP_DATA_EEPROM_SD
| CONFIG_DISP_DATA_SD_EEPROM.

(** The calls that leave probe.c, with the arguments that matter and the
    value returned. *)
Inductive call : Type :=
| Log (msg : string)
| pl_hwinfo_init (res : Z)
| epson_i2c_init (bus : Z) (ref : epson_epdc_ref) (res : Z)
| pl_epdpsu_epdc_init (res : Z)
| pl_epdpsu_gpio_init (res : Z)
| vcom_init
| max17135_init (bus addr res : Z)
| max17135_configure (res : Z)
| max17135_set_vcom_voltage (mv res : Z)
| tps65185_init (bus addr res : Z)
| tps65185_set_vcom_voltage (mv res : Z)
| epson_epdc_init (ref : epson_epdc_ref) (res : Z)
| pl_epdc_stub_init (res : Z)
| pl_dispinfo_init_eeprom (res : Z)
| pl_wflib_init_eeprom (res : Z)
| pl_dispinfo_init_fatfs (res : Z)
| pl_wflib_init_fatfs (res : Z)
| join_path (dir name : string) (res : Z)
| f_chdir (res : Z).

Record pstate : Type := {
  plat : pl_platform;
  asked : nat
}.

(** A run returns a value in a state, or is aborted. *)
Inductive result (A : Type) : Type :=
| Done (a : A) (p : pstate) (tr : list call)
| Abort (msg : string) (tr : list call).
Arguments Done {A} _ _ _.
Arguments Abort {A} _ _.

Definition PM (A : Type) : Type := oracle -> pstate -> result A.

Definition pret {A} (a : A) : PM A := fun _ p => Done a p [].

Definition pbind {A B} (m : PM A) (f : A -> PM B) : PM B :=
  fun o p =>
    match m o p with
    | Done a p1 t1 =>
        match f a o p1 with
        | Done b p2 t2 => Done b p2 (t1 ++ t2)
        | Abort msg t2 => Abort msg (t1 ++ t2)
        end
    | Abort msg t1 => Abort msg t1
    end.

Declare Scope probe_scope.
Delimit Scope probe_scope with probe.
Notation "x <- m ;; k" := (pbind m (fun x => k))
  (at level 61, m at next level, right associativity) : probe_scope.
Notation "m ;; k" := (pbind m (fun _ => k))
  (at level 61, right associativity) : probe_scope.
Local Open Scope probe_scope.

(** A call that returns nothing. *)
Definition does (c : call) : PM unit := fun _ p => Done tt p [c].

(** A call that returns a status. *)
Definition calls (c : Z -> call) : PM Z :=
  fun o p =>
    Done (o (asked p)) {| plat := plat p; asked := S (asked p) |}
      [c (o (asked p))].

Definition abort_msg {A} (msg : string) : PM A := fun _ _ => Abort msg [].

Definition get_plat : PM pl_platform := fun _ p => Done (plat p) p [].

Definition set_hwinfo (h : pl_hwinfo) : PM unit :=
  fun _ p =>
    Done tt {| plat := {| hwinfo := h; i2c := i2c (plat p);
                          vcom := vcom (plat p); epdc := epdc (plat p) |};
               asked := asked p |} [].

Definition set_i2c (bus : Z) : PM unit :=
  fun _ p =>
    Done tt {| plat := {| hwinfo := hwinfo (plat p); i2c := bus;
                          vcom := vcom (plat p); epdc := epdc (plat p) |};
               asked := asked p |} [].

Definition set_epdc (e : pl_epdc) : PM unit :=
  fun _ p =>
    Done tt {| plat := {| hwinfo := hwinfo (plat p); i2c := i2c (plat p);
                          vcom := vcom (plat p); epdc := e |};
               asked := asked p |} [].

(** [assert(c)]. *)
Definition assert (c : bool) : PM unit :=
  if c then pret tt else abort_msg "Assertion failed".

(** [a || b] on two calls: [b] is made only if [a] returns 0, and the
    value is 0 or 1. *)
Definition or_else (a b : PM Z) : PM Z :=
  x <- a ;;
  if negb (x =? 0) then pret 1
  else y <- b ;; pret (if negb (y =? 0) then 1 else 0).

(** [probe_hwinfo], which exists with [CONFIG_HWINFO_EEPROM];
    [with_default] is [CONFIG_HWINFO_DEFAULT].  [hwinfo_eeprom] is the
    structure as [pl_hwinfo_init] leaves it. *)
Definition probe_hwinfo (with_default : bool)
    (hwinfo_eeprom hwinfo_default : pl_hwinfo) : PM Z :=
  if with_default then
    r <- calls pl_hwinfo_init ;;
    (if negb (r =? 0) then
       does (Log "WARNING: EEPROM failed, using default HW info") ;;
       set_hwinfo hwinfo_default
     else set_hwinfo hwinfo_eeprom) ;;
    pret 0
  else
    r <- calls pl_hwinfo_init ;;
    if negb (r =? 0) then pret (-1)
    else set_hwinfo hwinfo_eeprom ;; pret 0.

Definition probe_i2c (host_i2c disp_i2c : Z) : PM Z :=
  p <- get_plat ;;
  stat <-
    match i2c_mode (hwinfo p) with
    | I2C_MODE_HOST =>
        does (Log "I2C: Host") ;;
        set_i2c host_i2c ;;
        pret 0
    | I2C_MODE_DISP =>
        does (Log "I2C: S1D13541") ;;
        stat <- calls (epson_i2c_init disp_i2c EPSON_EPDC_S1D13541) ;;
        set_i2c disp_i2c ;;
        pret stat
    | I2C_MODE_S1D13524 =>
        does (Log "I2C: S1D13524") ;;
        stat <- calls (epson_i2c_init disp_i2c EPSON_EPDC_S1D13524) ;;
        set_i2c disp_i2c ;;
        pret stat
    | I2C_MODE_SC18IS6XX =>
        does (Log "I2C: not supported") ;;
        pret (-1)
    | I2C_MODE_NONE | I2C_MODE_other _ => abort_msg "Invalid I2C mode"
    end ;;
  pret stat.

(** [panel_type] is [dispinfo->info.panel_type] as the init calls leave
    it. *)
Definition probe_dispinfo (cfg : disp_data_config) (panel_type : string)
  : PM Z :=
  stat <-
    match cfg with
    | CONFIG_DISP_DATA_EEPROM_ONLY =>
        or_else (calls pl_dispinfo_init_eeprom) (calls pl_wflib_init_eeprom)
    | CONFIG_DISP_DATA_SD_ONLY =>
        or_else (calls pl_dispinfo_init_fatfs) (calls pl_wflib_init_fatfs)
    | CONFIG_DISP_DATA_EEPROM_SD =>
        r <- calls pl_dispinfo_init_eeprom ;;
        if negb (r =? 0) then
          or_else (calls pl_dispinfo_init_fatfs) (calls pl_wflib_init_fatfs)
        else calls pl_wflib_init_eeprom
    | CONFIG_DISP_DATA_SD_EEPROM =>
        r <- calls pl_dispinfo_init_fatfs ;;
        if negb (r =? 0) then
          or_else (calls pl_dispinfo_init_eeprom)
            (calls pl_wflib_init_eeprom)
        else calls pl_wflib_init_fatfs
    end ;;
  if negb (stat =? 0) then pret (-1)
  else
    j <- calls (join_path ROOT_SD_PATH panel_type) ;;
    if negb (j =? 0) then pret (-1)
    else
      c <- calls f_chdir ;;
      if negb (c =? FR_OK) then pret (-1)
      else pret 0.

Definition probe_hvpmic : PM Z :=
  p <- get_plat ;;
  let hwinfo := hwinfo p in
  stat <-
    (if String.eqb (board_type hwinfo) "Raven" then
       does (Log "EPD PSU: EPDC") ;;
       calls pl_epdpsu_epdc_init
     else
       does (Log "EPD PSU: GPIO") ;;
       calls pl_epdpsu_gpio_init) ;;
  if negb (stat =? 0) then
    does (Log "Failed to initialise EPD PSU") ;;
    pret (-1)
  else
    does vcom_init ;;
    stat <-
      match hv_pmic hwinfo with
      | HV_PMIC_NONE =>
          does (Log "HV-PMIC: None") ;;
          pret 0
      | HV_PMIC_MAX17135 =>
          does (Log "HV-PMIC: MAX17135") ;;
          stat <- calls (max17135_init (i2c p) I2C_PMIC_ADDR_MAX17135) ;;
          stat <- (if stat =? 0 then calls max17135_configure
                   else pret stat) ;;
          stat <- (if stat =? 0
                   then calls (max17135_set_vcom_voltage (vcom p))
                   else pret stat) ;;
          pret stat
      | HV_PMIC_TPS65185 =>
          does (Log "HV-PMIC: TPS65185") ;;
          stat <- calls (tps65185_init (i2c p) I2C_PMIC_ADDR_TPS65185) ;;
          stat <- (if stat =? 0
                   then calls (tps65185_set_vcom_voltage (vcom p))
                   else pret stat) ;;
          pret stat
      | HV_PMIC_other _ => abort_msg "Invalid HV-PMIC id"
      end ;;
    pret stat.

(** [stub] is [PL_EPDC_STUB]; [epdc_filled] is [plat->epdc] as the init
    call leaves it. *)
Definition probe_epdc (stub : bool) (epdc_filled : pl_epdc) : PM Z :=
  p <- get_plat ;;
  stat <-
    match epdc_ref (hwinfo p) with
    | EPDC_S1D13524 =>
        does (Log "EPDC: S1D13524") ;;
        stat <- calls (epson_epdc_init EPSON_EPDC_S1D13524) ;;
        set_epdc epdc_filled ;;
        pret stat
    | EPDC_S1D13541 =>
        does (Log "EPDC: S1D13541") ;;
        stat <- calls (epson_epdc_init EPSON_EPDC_S1D13541) ;;
        set_epdc epdc_filled ;;
        pret stat
    | EPDC_NONE =>
        if stub then
          does (Log "EPDC: Stub") ;;
          stat <- calls pl_epdc_stub_init ;;
          set_epdc epdc_filled ;;
          pret stat
        else abort_msg "Invalid EPDC identifier"
    | EPDC_other _ => abort_msg "Invalid EPDC identifier"
    end ;;
  if negb (stat =? 0) then pret (-1)
  else
    e <- (p <- get_plat ;; pret (epdc p)) ;;
    assert (clear_init e) ;;
    assert (load_wflib e) ;;
    assert (update e) ;;
    assert (wait_update_end e) ;;
    assert (set_power e) ;;
    assert (set_temp_mode e) ;;
    assert (update_temp e) ;;
    assert (fill e) ;;
    assert (load_image e) ;;
    assert (set_epd_power e) ;;
    assert (wf_table e) ;;
    assert (negb (xres e =? 0)) ;;
    assert (negb (yres e =? 0)) ;;
    pret stat.

(** The status a call returned, if it returns one. *)
Definition returned (c : call) : option Z :=
  match c with
  | Log _ | vcom_init => None
  | pl_hwinfo_init r | epson_i2c_init _ _ r | pl_epdpsu_epdc_init r
  | pl_epdpsu_gpio_init r | max17135_init _ _ r | max17135_configure r
  | max17135_set_vcom_voltage _ r | tps65185_init _ _ r
  | tps65185_set_vcom_voltage _ r | epson_epdc_init _ r
  | pl_epdc_stub_init r | pl_dispinfo_init_eeprom r
  | pl_wflib_init_eeprom r | pl_dispinfo_init_fatfs r
  | pl_wflib_init_fatfs r | join_path _ _ r | f_chdir r => Some r
  end.

(** The statuses returned along a trace, in order. *)
Fixpoint statuses (tr : list call) : list Z :=
  match tr with
  | [] => []
  | c :: tr' =>
      match returned c with
      | Some r => r :: statuses tr'
      | None => statuses tr'
      end
  end.








(** A board to run the probe functions on: a Raven with the S1D13541,
    its I2C bus and a TPS65185, the EPDC not yet filled in. *)
Definition no_epdc : pl_epdc :=
  {| clear_init := false; load_wflib := false; update := false;
     wait_update_end := false; set_power := false; set_temp_mode := false;
     update_temp := false; fill := false; load_image := false;
     set_epd_power := false; wf_table := false; xres := 0; yres := 0 |}.

Definition full_epdc : pl_epdc :=
  {| clear_init := true; load_wflib := true; update := true;
     wait_update_end := true; set_power := true; set_temp_mode := true;
     update_temp := true; fill := true; load_image := true;
     set_epd_power := true; wf_table := true; xres := 400; yres := 240 |}.

Definition raven : pl_hwinfo :=
  {| board_type := "Raven"; i2c_mode := I2C_MODE_DISP;
     hv_pmic := HV_PMIC_TPS65185; epdc_ref := EPDC_S1D13541 |}.

Definition at_reset (h : pl_hwinfo) : pstate :=
  {| plat := {| hwinfo := h; i2c := 0; vcom := 4000; epdc := no_epdc |};
     asked := 0 |}.

(** Every call succeeds; every call but the [n]th succeeds. *)
Definition all_ok : oracle := fun _ => 0.
Definition fails_at (n : nat) (r : Z) : oracle :=
  fun k => if Nat.eqb k n then r else 0.

End Probe.

(** * Properties *)

(** ** Running the monad *)

Lemma prepend_nil {A} (r : outcome A) : prepend [] r = r.
Proof. destruct r; reflexivity. Qed.

Lemma prepend_prepend {A} (t1 t2 : list event) (r : outcome A) :
  prepend t1 (prepend t2 r) = prepend (t1 ++ t2) r.
Proof. unfold prepend; simpl. now rewrite app_assoc. Qed.

Lemma run_bind {A B} (m : M A) (f : A -> M B) o s :
  bind m f o s
  = prepend (emitted (m o s)) (f (value (m o s)) o (after (m o s))).
Proof. reflexivity. Qed.

(** A step that consumes no answer and leaves the state alone. *)
Lemma bind_quiet {A B} (m : M A) (f : A -> M B) o s a tr :
  m o s = {| value := a; after := s; emitted := tr |} ->
  bind m f o s = prepend tr (f a o s).
Proof. intros E. rewrite run_bind, E. reflexivity. Qed.

Lemma u16_range v : 0 <= u16 v < 65536.
Proof. unfold u16. apply Z.mod_pos_bound. lia. Qed.

Lemma u16_small v : 0 <= v < 65536 -> u16 v = v.
Proof. intros H. unfold u16. now apply Z.mod_small. Qed.

Lemma bswap16_bytes v :
  0 <= v < 65536 ->
  bswap16 v mod 256 = v / 256 /\ bswap16 v / 256 = v mod 256.
Proof.
  intros H. unfold bswap16.
  assert (0 <= v mod 256 < 256) by (apply Z.mod_pos_bound; lia).
  assert (0 <= v / 256 < 256)
    by (split; [apply Z.div_pos; lia | apply Z.div_lt_upper_bound; lia]).
  split.
  - rewrite Z.add_comm, Z.mod_add by lia. apply Z.mod_small; lia.
  - rewrite Z.add_comm, Z.div_add by lia. rewrite Z.div_small by lia. lia.
Qed.

Lemma bswap16_involutive v : 0 <= v < 65536 -> bswap16 (bswap16 v) = v.
Proof.
  intros H. destruct (bswap16_bytes v H) as [E1 E2].
  unfold bswap16 at 1. rewrite E1, E2.
  rewrite (Z.div_mod v 256) at 3 by lia. lia.
Qed.

(** The bytes that leave the host are the wire form of the word,
    whatever the byte order of the host. *)
Lemma host_to_wire big v :
  bytes_of_u16 big (htobe16 big (u16 v)) = wire v.
Proof.
  unfold bytes_of_u16, htobe16, wire. destruct big; [reflexivity|].
  destruct (bswap16_bytes (u16 v) (u16_range v)) as [-> ->]. reflexivity.
Qed.

Lemma be_word_wire v : be_word (wire v) = u16 v.
Proof.
  unfold be_word, wire. rewrite (Z.div_mod (u16 v) 256) at 3 by lia. lia.
Qed.

Lemma run_send_cmd pf cmd o s :
  send_cmd pf cmd o s =
  {| value := tt; after := s; emitted := [SpiWrite (wire cmd)] |}.
Proof. unfold send_cmd, spi_write_bytes, emit. now rewrite host_to_wire. Qed.

Lemma run_send_param pf x o s :
  send_param pf x o s =
  {| value := tt; after := s; emitted := [SpiWrite (wire x)] |}.
Proof. unfold send_param, spi_write_bytes, emit. now rewrite host_to_wire. Qed.

Lemma run_send_params pf params o s :
  send_params pf params o s =
  {| value := tt; after := s;
     emitted := map (fun x => SpiWrite (wire x)) params |}.
Proof.
  induction params as [|x rest IH]; [reflexivity|].
  simpl send_params.
  rewrite (bind_quiet _ _ _ _ _ _ (run_send_param pf x o s)), IH.
  reflexivity.
Qed.

Lemma run_set_cs st o s :
  set_cs st o s =
  {| value := tt; after := s;
     emitted := [GpioSet (cs0 (data (dev s))) st] |}.
Proof. reflexivity. Qed.

Lemma value_mk {A} (a : A) s e :
  value {| value := a; after := s; emitted := e |} = a.
Proof. reflexivity. Qed.

Lemma after_mk {A} (a : A) s e :
  after {| value := a; after := s; emitted := e |} = s.
Proof. reflexivity. Qed.

Lemma emitted_mk {A} (a : A) s e :
  emitted {| value := a; after := s; emitted := e |} = e.
Proof. reflexivity. Qed.

Lemma value_prepend {A} tr (r : outcome A) : value (prepend tr r) = value r.
Proof. reflexivity. Qed.

Lemma after_prepend {A} tr (r : outcome A) : after (prepend tr r) = after r.
Proof. reflexivity. Qed.

Lemma emitted_prepend {A} tr (r : outcome A) :
  emitted (prepend tr r) = tr ++ emitted r.
Proof. reflexivity. Qed.

Lemma run_ret {A} (a : A) o s :
  ret a o s = {| value := a; after := s; emitted := [] |}.
Proof. reflexivity. Qed.

(** Projections by rewriting: a wait is never unfolded. *)
Ltac proj :=
  rewrite ?run_ret;
  rewrite ?value_prepend, ?after_prepend, ?emitted_prepend,
    ?value_mk, ?after_mk, ?emitted_mk.

Lemma run_mdelay ms o s :
  mdelay ms o s = {| value := tt; after := s; emitted := [Mdelay ms] |}.
Proof. reflexivity. Qed.

Lemma run_LOG msg o s :
  LOG msg o s = {| value := tt; after := s; emitted := [Log msg] |}.
Proof. reflexivity. Qed.

Lemma run_f_close o s :
  f_close o s = {| value := tt; after := s; emitted := [FClose] |}.
Proof. reflexivity. Qed.

Lemma run_gpio_set pin level o s :
  gpio_set pin level o s =
  {| value := tt; after := s; emitted := [GpioSet pin level] |}.
Proof. reflexivity. Qed.

Lemma run_get_dev o s :
  get_dev o s = {| value := dev s; after := s; emitted := [] |}.
Proof. reflexivity. Qed.

(** Peel the quiet steps off the front of a sequence. *)
Ltac quiet_step :=
  first
    [ rewrite (bind_quiet _ _ _ _ _ _ (run_set_cs _ _ _))
    | rewrite (bind_quiet _ _ _ _ _ _ (run_send_cmd _ _ _ _))
    | rewrite (bind_quiet _ _ _ _ _ _ (run_send_param _ _ _ _))
    | rewrite (bind_quiet _ _ _ _ _ _ (run_send_params _ _ _ _))
    | rewrite (bind_quiet _ _ _ _ _ _ (run_mdelay _ _ _))
    | rewrite (bind_quiet _ _ _ _ _ _ (run_LOG _ _ _))
    | rewrite (bind_quiet _ _ _ _ _ _ (run_f_close _ _))
    | rewrite (bind_quiet _ _ _ _ _ _ (run_gpio_set _ _ _ _))
    | rewrite (bind_quiet _ _ _ _ _ _ (run_get_dev _ _)) ];
  cbv beta.

Ltac quiet_steps := repeat quiet_step; rewrite ?prepend_prepend, ?prepend_nil.

Lemma wire_to_host big b0 b1 :
  0 <= b0 < 256 -> 0 <= b1 < 256 ->
  be16toh big (u16_of_bytes big [b0; b1]) = be_word [b0; b1].
Proof.
  intros H0 H1. unfold be16toh, u16_of_bytes, be_word.
  destruct big; [reflexivity|]. unfold bswap16.
  rewrite (Z.add_comm (b1 * 256)), Z.mod_add, Z.div_add by lia.
  rewrite Z.mod_small, Z.div_small by lia. lia.
Qed.

Lemma run_read_reg pf reg o s :
  s1d135xx_read_reg pf reg o s =
  {| value := be_word [o (2 + tick s)%nat mod 256; o (3 + tick s)%nat mod 256];
     after := {| dev := dev s; tick := (4 + tick s)%nat |};
     emitted :=
       [GpioSet (cs0 (data (dev s))) 0;
        SpiWrite (wire S1D135XX_CMD_READ_REG); SpiWrite (wire reg);
        SpiRead [o (tick s) mod 256; o (1 + tick s)%nat mod 256];
        SpiRead [o (2 + tick s)%nat mod 256; o (3 + tick s)%nat mod 256];
        GpioSet (cs0 (data (dev s))) 1] |}.
Proof.
  unfold s1d135xx_read_reg. quiet_steps.
  unfold prepend, bind; cbn -[be16toh u16_of_bytes be_word Z.modulo Z.div].
  rewrite wire_to_host by (apply Z.mod_pos_bound; lia).
  reflexivity.
Qed.

Lemma run_wait_dspe_trig pf o s :
  s1d135xx_wait_dspe_trig pf o s =
  prepend (frame (cs0 (data (dev s))) S1D135XX_CMD_WAIT_DSPE_TRG [])
    (s1d135xx_wait_idle pf o s).
Proof.
  unfold s1d135xx_wait_dspe_trig. quiet_steps. reflexivity.
Qed.


(** ** The readiness check *)

Lemma run_get_hrdy_pin pf o s :
  (hrdy (data (dev s)) =? PL_GPIO_NONE pf) = false ->
  get_hrdy pf o s =
  {| value := o (tick s);
     after := {| dev := dev s; tick := (1 + tick s)%nat |};
     emitted := [GpioGet (hrdy (data (dev s))) (o (tick s))] |}.
Proof.
  intros E. unfold get_hrdy.
  rewrite (bind_quiet _ _ _ _ _ _ (run_get_dev _ _)), E. reflexivity.
Qed.

Lemma run_get_hrdy_reg pf o s :
  (hrdy (data (dev s)) =? PL_GPIO_NONE pf) = true ->
  get_hrdy pf o s =
  let r := s1d135xx_read_reg pf (S1D135XX_REG_SYSTEM_STATUS pf) o s in
  {| value :=
       if Z.land (value r) (hrdy_mask (dev s)) =? hrdy_result (dev s)
       then 1 else 0;
     after := after r;
     emitted := emitted r |}.
Proof.
  intros E. unfold get_hrdy.
  rewrite (bind_quiet _ _ _ _ _ _ (run_get_dev _ _)), E.
  cbv beta. cbn [negb]. rewrite prepend_nil, run_bind, run_read_reg.
  reflexivity.
Qed.

Lemma get_hrdy_dev pf o s : dev (after (get_hrdy pf o s)) = dev s.
Proof.
  destruct (hrdy (data (dev s)) =? PL_GPIO_NONE pf) eqn:E.
  - rewrite run_get_hrdy_reg, run_read_reg by exact E. reflexivity.
  - rewrite run_get_hrdy_pin by exact E. reflexivity.
Qed.

Lemma checked_dev pf s k : dev (checked pf s k) = dev s.
Proof. reflexivity. Qed.

Lemma checked_0 pf s : checked pf s 0 = s.
Proof.
  destruct s as [d t]. unfold checked; simpl. f_equal. lia.
Qed.

(** Check number [k] is what [get_hrdy] computes after [k] checks, and it
    takes the wait to the state after [k + 1] checks without a delay. *)
Lemma get_hrdy_checked pf o s k :
  negb (value (get_hrdy pf o (checked pf s k)) =? 0) = ready_check pf o s k
  /\ after (get_hrdy pf o (checked pf s k)) = checked pf s (S k)
  /\ delays (emitted (get_hrdy pf o (checked pf s k))) = [].
Proof.
  unfold ready_check.
  destruct (hrdy (data (dev s)) =? PL_GPIO_NONE pf) eqn:E; cbn [negb].
  - assert (Hs : hrdy_stride pf (dev s) = 4%nat)
      by (unfold hrdy_stride; now rewrite E).
    rewrite run_get_hrdy_reg, run_read_reg by exact E.
    unfold checked. rewrite !Hs.
    cbn -[be_word Z.modulo Z.land Nat.mul Nat.add].
    replace (2 + (tick s + k * 4))%nat with (tick s + k * 4 + 2)%nat by lia.
    replace (3 + (tick s + k * 4))%nat with (tick s + k * 4 + 3)%nat by lia.
    repeat split.
    + now destruct (_ =? hrdy_result (dev s)).
    + f_equal. lia.
  - assert (Hs : hrdy_stride pf (dev s) = 1%nat)
      by (unfold hrdy_stride; now rewrite E).
    rewrite run_get_hrdy_pin by exact E.
    unfold checked. rewrite !Hs.
    cbn -[Nat.mul Nat.add].
    repeat split. f_equal. lia.
Qed.

(** ** The polling loop *)

Lemma hrdy_poll_unfold pf t o s :
  hrdy_poll pf t o s =
  let r := get_hrdy pf o s in
  if negb (value r =? 0)
  then {| value := S t; after := after r; emitted := emitted r |}
  else
    match t with
    | O => {| value := O; after := after r; emitted := emitted r |}
    | S t' => prepend (emitted r ++ [Mdelay 1]) (hrdy_poll pf t' o (after r))
    end.
Proof.
  destruct t; simpl hrdy_poll; rewrite run_bind; cbv zeta;
    destruct (negb (value (get_hrdy pf o s) =? 0)).
  - unfold prepend, ret; simpl. now rewrite app_nil_r.
  - unfold prepend, ret; simpl. now rewrite app_nil_r.
  - unfold prepend, ret; simpl. now rewrite app_nil_r.
  - rewrite (bind_quiet _ _ _ _ _ _ (run_mdelay _ _ _)).
    rewrite prepend_prepend. reflexivity.
Qed.

Lemma run_wait_idle pf o s :
  s1d135xx_wait_idle pf o s =
  let r := hrdy_poll pf (Nat.pred S1D135XX_HRDY_TIMEOUT) o s in
  match value r with
  | O => {| value := -1; after := after r;
            emitted := emitted r ++ [Log "HRDY timeout"] |}
  | S _ => {| value := 0; after := after r; emitted := emitted r |}
  end.
Proof.
  unfold s1d135xx_wait_idle. rewrite run_bind. cbv zeta.
  generalize (hrdy_poll pf (Nat.pred S1D135XX_HRDY_TIMEOUT) o s).
  intros [[|v] a e]; unfold prepend, bind, ret, LOG, emit;
    cbn [value after emitted]; [reflexivity|].
  now rewrite app_nil_r.
Qed.

Lemma delays_app t1 t2 : delays (t1 ++ t2) = delays t1 ++ delays t2.
Proof.
  induction t1 as [|e t1 IH]; [reflexivity|].
  destruct e; simpl; rewrite IH; reflexivity.
Qed.

Lemma repeat_snoc {A} (x : A) n : repeat x n ++ [x] = x :: repeat x n.
Proof. induction n; simpl; [reflexivity|]. now rewrite IHn. Qed.

Section Wait.

Variables (pf : platform) (o : oracle) (s : state).

(** Ready at check [k] and not before: the loop leaves with the counter
    above zero after [k] delays. *)
Lemma hrdy_poll_ready k :
  forall t i, (k <= t)%nat ->
  (forall j, (j < k)%nat -> ready_check pf o s (i + j) = false) ->
  ready_check pf o s (i + k) = true ->
  let r := hrdy_poll pf t o (checked pf s i) in
  value r = S (t - k) /\ after r = checked pf s (S (i + k))
  /\ delays (emitted r) = repeat 1 k.
Proof.
  induction k as [|k IH]; intros t i Hk Hnot Hrdy r; subst r;
    rewrite hrdy_poll_unfold; cbv zeta;
    destruct (get_hrdy_checked pf o s i) as (Ev & Ea & Ed).
  - rewrite Nat.add_0_r in Hrdy. rewrite Ev, Hrdy.
    cbn [value after emitted repeat].
    rewrite Ea, Ed, Nat.sub_0_r, Nat.add_0_r. auto.
  - rewrite Ev, <- (Nat.add_0_r i), (Hnot 0%nat) by lia.
    destruct t as [|t]; [lia|].
    rewrite Nat.add_0_r, Ea.
    destruct (IH t (S i)) as (Iv & Ia & Id).
    + lia.
    + intros j Hj. replace (S i + j)%nat with (i + S j)%nat by lia.
      apply Hnot. lia.
    + replace (S i + k)%nat with (i + S k)%nat by lia. exact Hrdy.
    + unfold prepend; cbn [value after emitted].
      rewrite Iv, Ia, !delays_app, Ed, Id.
      replace (S i + k)%nat with (i + S k)%nat by lia. auto.
Qed.

(** Never ready in [t + 1] checks: the loop leaves with the counter at
    zero after [t] delays. *)
Lemma hrdy_poll_never t :
  forall i,
  (forall j, (j <= t)%nat -> ready_check pf o s (i + j) = false) ->
  let r := hrdy_poll pf t o (checked pf s i) in
  value r = O /\ after r = checked pf s (S (i + t))
  /\ delays (emitted r) = repeat 1 t.
Proof.
  induction t as [|t IH]; intros i Hnot r; subst r;
    rewrite hrdy_poll_unfold; cbv zeta;
    destruct (get_hrdy_checked pf o s i) as (Ev & Ea & Ed);
    rewrite Ev, <- (Nat.add_0_r i), (Hnot 0%nat) by lia;
    rewrite Nat.add_0_r.
  - cbn [value after emitted repeat]. rewrite Ea, Ed. auto.
  - rewrite Ea. destruct (IH (S i)) as (Iv & Ia & Id).
    + intros j Hj. replace (S i + j)%nat with (i + S j)%nat by lia.
      apply Hnot. lia.
    + unfold prepend; cbn [value after emitted].
      rewrite Iv, Ia, !delays_app, Ed, Id.
      replace (S i + t)%nat with (i + S t)%nat by lia. auto.
Qed.

End Wait.

Lemma hrdy_timeout_succ :
  S1D135XX_HRDY_TIMEOUT = S (Nat.pred S1D135XX_HRDY_TIMEOUT).
Proof. reflexivity. Qed.

(** The first check that holds among [n], if there is one. *)
Lemma ready_search (f : nat -> bool) (n : nat) :
  (exists k, (k < n)%nat /\ (forall j, (j < k)%nat -> f j = false)
             /\ f k = true)
  \/ (forall j, (j < n)%nat -> f j = false).
Proof.
  induction n as [|n [(k & Hk & Hb & Ht)|Hn]].
  - right. intros j Hj. lia.
  - left. exists k. repeat split; auto.
  - destruct (f n) eqn:E.
    + left. exists n. repeat split; auto.
    + right. intros j Hj.
      destruct (Nat.eq_dec j n) as [->|Hne]; [exact E|apply Hn; lia].
Qed.

(** ** What the polling loop puts on the trace *)

(** Check number [k] is one read of the HRDY pin, or one read of the
    status register. *)
Lemma get_hrdy_trace pf o s k :
  emitted (get_hrdy pf o (checked pf s k)) = check_trace pf o s k.
Proof.
  unfold check_trace.
  destruct (hrdy (data (dev s)) =? PL_GPIO_NONE pf) eqn:E; cbn [negb].
  - assert (Hs : hrdy_stride pf (dev s) = 4%nat)
      by (unfold hrdy_stride; now rewrite E).
    rewrite run_get_hrdy_reg, run_read_reg by exact E.
    unfold checked. rewrite !Hs.
    cbn -[wire Z.modulo Nat.mul Nat.add].
    replace (1 + (tick s + k * 4))%nat with (tick s + k * 4 + 1)%nat by lia.
    replace (2 + (tick s + k * 4))%nat with (tick s + k * 4 + 2)%nat by lia.
    replace (3 + (tick s + k * 4))%nat with (tick s + k * 4 + 3)%nat by lia.
    reflexivity.
  - assert (Hs : hrdy_stride pf (dev s) = 1%nat)
      by (unfold hrdy_stride; now rewrite E).
    rewrite run_get_hrdy_pin by exact E.
    unfold checked. rewrite !Hs. reflexivity.
Qed.

(** What a check reads, and what its verdict is. *)
Lemma check_trace_verdict pf o s k :
  if negb (hrdy (data (dev s)) =? PL_GPIO_NONE pf)
  then exists level,
         check_trace pf o s k = [GpioGet (hrdy (data (dev s))) level]
         /\ ready_check pf o s k = negb (level =? 0)
  else exists w1 w2,
         check_trace pf o s k
         = [GpioSet (cs0 (data (dev s))) 0;
            SpiWrite [0x00; 0x10];
            SpiWrite (wire (S1D135XX_REG_SYSTEM_STATUS pf));
            SpiRead w1; SpiRead w2;
            GpioSet (cs0 (data (dev s))) 1]
         /\ ready_check pf o s k
            = (Z.land (be_word w2) (hrdy_mask (dev s))
               =? hrdy_result (dev s)).
Proof.
  unfold check_trace, ready_check.
  destruct (hrdy (data (dev s)) =? PL_GPIO_NONE pf); cbn [negb].
  - eexists. eexists. split; reflexivity.
  - eexists. split; reflexivity.
Qed.

Section WaitTrace.

Variables (pf : platform) (o : oracle) (s : state).

Lemma hrdy_poll_ready_trace k :
  forall t i, (k <= t)%nat ->
  (forall j, (j < k)%nat -> ready_check pf o s (i + j) = false) ->
  ready_check pf o s (i + k) = true ->
  emitted (hrdy_poll pf t o (checked pf s i)) = poll_trace pf o s i k.
Proof.
  induction k as [|k IH]; intros t i Hk Hnot Hrdy;
    rewrite hrdy_poll_unfold; cbv zeta;
    destruct (get_hrdy_checked pf o s i) as (Ev & Ea & _);
    pose proof (get_hrdy_trace pf o s i) as Et.
  - rewrite Nat.add_0_r in Hrdy. rewrite Ev, Hrdy, emitted_mk. exact Et.
  - assert (H0 : ready_check pf o s i = false).
    { rewrite <- (Nat.add_0_r i). apply Hnot. lia. }
    rewrite Ev, H0. destruct t as [|t]; [lia|].
    rewrite Ea, emitted_prepend, Et, (IH t (S i)).
    + cbn [poll_trace]. now rewrite <- app_assoc.
    + lia.
    + intros j Hj. replace (S i + j)%nat with (i + S j)%nat by lia.
      apply Hnot. lia.
    + replace (S i + k)%nat with (i + S k)%nat by lia. exact Hrdy.
Qed.

Lemma hrdy_poll_never_trace t :
  forall i,
  (forall j, (j <= t)%nat -> ready_check pf o s (i + j) = false) ->
  emitted (hrdy_poll pf t o (checked pf s i)) = poll_trace pf o s i t.
Proof.
  induction t as [|t IH]; intros i Hnot;
    rewrite hrdy_poll_unfold; cbv zeta;
    destruct (get_hrdy_checked pf o s i) as (Ev & Ea & _);
    pose proof (get_hrdy_trace pf o s i) as Et;
    assert (H0 : ready_check pf o s i = false)
      by (rewrite <- (Nat.add_0_r i); apply Hnot; lia);
    rewrite Ev, H0.
  - rewrite emitted_mk. exact Et.
  - rewrite Ea, emitted_prepend, Et, (IH (S i)).
    + cbn [poll_trace]. now rewrite <- app_assoc.
    + intros j Hj. replace (S i + j)%nat with (i + S j)%nat by lia.
      apply Hnot. lia.
Qed.

(** The first check that holds is number [k]: 0, after [k + 1] checks
    and [k] delays. *)
Lemma wait_idle_first_ready k :
  (k < S1D135XX_HRDY_TIMEOUT)%nat ->
  (forall j, (j < k)%nat -> ready_check pf o s j = false) ->
  ready_check pf o s k = true ->
  value (s1d135xx_wait_idle pf o s) = 0
  /\ after (s1d135xx_wait_idle pf o s) = checked pf s (S k)
  /\ emitted (s1d135xx_wait_idle pf o s) = poll_trace pf o s 0 k
  /\ delays (emitted (s1d135xx_wait_idle pf o s)) = repeat 1 k.
Proof.
  intros Hk Hnot Hrdy. rewrite run_wait_idle. cbv zeta.
  assert (Hle : (k <= Nat.pred S1D135XX_HRDY_TIMEOUT)%nat)
    by (now apply Nat.lt_succ_r; rewrite <- hrdy_timeout_succ).
  destruct (hrdy_poll_ready pf o s k (Nat.pred S1D135XX_HRDY_TIMEOUT) 0%nat
              Hle Hnot Hrdy) as (Ev & Ea & Ed).
  pose proof (hrdy_poll_ready_trace k (Nat.pred S1D135XX_HRDY_TIMEOUT)
                0%nat Hle Hnot Hrdy) as Et.
  rewrite checked_0 in Ev, Ea, Ed, Et. revert Ev Ea Ed Et.
  generalize (hrdy_poll pf (Nat.pred S1D135XX_HRDY_TIMEOUT) o s).
  intros r Ev Ea Ed Et. rewrite Ev. cbn [value after emitted].
  rewrite Ea, Ed, Et. auto.
Qed.

(** No check holds: -1, after all the checks, and the timeout is
    logged. *)
Lemma wait_idle_never_ready :
  (forall j, (j < S1D135XX_HRDY_TIMEOUT)%nat ->
     ready_check pf o s j = false) ->
  value (s1d135xx_wait_idle pf o s) = -1
  /\ after (s1d135xx_wait_idle pf o s) = checked pf s S1D135XX_HRDY_TIMEOUT
  /\ emitted (s1d135xx_wait_idle pf o s)
     = poll_trace pf o s 0 (Nat.pred S1D135XX_HRDY_TIMEOUT)
         ++ [Log "HRDY timeout"]
  /\ delays (emitted (s1d135xx_wait_idle pf o s))
     = repeat 1 (Nat.pred S1D135XX_HRDY_TIMEOUT)
  /\ last (emitted (s1d135xx_wait_idle pf o s)) (Mdelay 0)
     = Log "HRDY timeout".
Proof.
  intros Hnot. rewrite run_wait_idle. cbv zeta.
  assert (Hall : forall j, (j <= Nat.pred S1D135XX_HRDY_TIMEOUT)%nat ->
                   ready_check pf o s (0 + j) = false).
  { intros j Hj. apply Hnot. rewrite hrdy_timeout_succ.
    now apply Nat.lt_succ_r. }
  destruct (hrdy_poll_never pf o s (Nat.pred S1D135XX_HRDY_TIMEOUT) 0%nat
              Hall) as (Ev & Ea & Ed).
  pose proof (hrdy_poll_never_trace (Nat.pred S1D135XX_HRDY_TIMEOUT) 0%nat
                Hall) as Et.
  rewrite checked_0 in Ev, Ea, Ed, Et. revert Ev Ea Ed Et.
  generalize (hrdy_poll pf (Nat.pred S1D135XX_HRDY_TIMEOUT) o s).
  intros r Ev Ea Ed Et. rewrite Ev. cbn [value after emitted].
  rewrite Ea, delays_app, Ed, last_last, app_nil_r, Et.
  cbn [Nat.add]. rewrite <- hrdy_timeout_succ. auto.
Qed.

(** A wait that fails has made every check. *)
Lemma wait_idle_failed :
  value (s1d135xx_wait_idle pf o s) <> 0 ->
  emitted (s1d135xx_wait_idle pf o s)
  = poll_trace pf o s 0 (Nat.pred S1D135XX_HRDY_TIMEOUT)
      ++ [Log "HRDY timeout"].
Proof.
  intros Hf.
  destruct (ready_search (ready_check pf o s) S1D135XX_HRDY_TIMEOUT)
    as [(k & Hk & Hb & Ht)|Hn].
  - destruct (wait_idle_first_ready k Hk Hb Ht) as (Ev & _).
    now rewrite Ev in Hf.
  - now destruct (wait_idle_never_ready Hn) as (_ & _ & Et & _).
Qed.

End WaitTrace.

(** C1. [s1d135xx_wait_idle] returns 0 as soon as the readiness check
    holds: if check number [k] (below the bound of 3000) is the first one
    that holds, the call returns 0 after exactly [k + 1] checks and [k]
    delays of 1 ms, so at once and without any delay when [k = 0].  If
    none of the 3000 checks holds, it returns -1 after 3000 checks and
    2999 delays of 1 ms, and logs the HRDY timeout.  Each check is one
    read of the HRDY pin if the device has one, and holds when the level
    is not 0; otherwise it is one READ_REG frame for the status register
    S1D135XX_REG_SYSTEM_STATUS, and holds when the second word read
    back, masked with [hrdy_mask], equals [hrdy_result]. *)
Theorem wait_idle_ready_or_timeout (pf : platform) (o : oracle) (s : state) :
  (forall k, (k < 3000)%nat ->
     (forall j, (j < k)%nat -> ready_check pf o s j = false) ->
     ready_check pf o s k = true ->
     value (s1d135xx_wait_idle pf o s) = 0
     /\ after (s1d135xx_wait_idle pf o s) = checked pf s (S k)
     /\ emitted (s1d135xx_wait_idle pf o s) = poll_trace pf o s 0 k
     /\ delays (emitted (s1d135xx_wait_idle pf o s)) = repeat 1 k)
  /\ ((forall j, (j < 3000)%nat -> ready_check pf o s j = false) ->
      value (s1d135xx_wait_idle pf o s) = -1
      /\ after (s1d135xx_wait_idle pf o s) = checked pf s 3000
      /\ emitted (s1d135xx_wait_idle pf o s)
         = poll_trace pf o s 0 2999 ++ [Log "HRDY timeout"]
      /\ delays (emitted (s1d135xx_wait_idle pf o s)) = repeat 1 2999
      /\ last (emitted (s1d135xx_wait_idle pf o s)) (Mdelay 0)
         = Log "HRDY timeout")
  /\ S1D135XX_HRDY_TIMEOUT = 3000%nat
  /\ (forall k,
        if negb (hrdy (data (dev s)) =? PL_GPIO_NONE pf)
        then exists level,
               check_trace pf o s k = [GpioGet (hrdy (data (dev s))) level]
               /\ ready_check pf o s k = negb (level =? 0)
        else exists w1 w2,
               check_trace pf o s k
               = [GpioSet (cs0 (data (dev s))) 0;
                  SpiWrite [0x00; 0x10];
                  SpiWrite (wire (S1D135XX_REG_SYSTEM_STATUS pf));
                  SpiRead w1; SpiRead w2;
                  GpioSet (cs0 (data (dev s))) 1]
               /\ ready_check pf o s k
                  = (Z.land (be_word w2) (hrdy_mask (dev s))
                     =? hrdy_result (dev s))).
Proof.
  split; [|split; [|split]].
  - intros k Hk Hnot Hrdy. exact (wait_idle_first_ready pf o s k Hk Hnot Hrdy).
  - intros Hnot. exact (wait_idle_never_ready pf o s Hnot).
  - reflexivity.
  - apply check_trace_verdict.
Qed.

Lemma wait_idle_ready_or_timeout_witness :
  value (s1d135xx_wait_idle msp430
           (fun n => if (n <? 2)%nat then 0 else 1) (fresh dev_pin)) = 0
  /\ value (s1d135xx_wait_idle msp430 (fun _ => 0) (fresh dev_pin)) = -1
  /\ emitted (s1d135xx_wait_idle msp430 oracle_ready_second (fresh dev_reg))
     = [GpioSet 2 0; SpiWrite [0x00; 0x10]; SpiWrite [0x00; 0x0A];
        SpiRead [0; 0]; SpiRead [0; 0]; GpioSet 2 1;
        Mdelay 1;
        GpioSet 2 0; SpiWrite [0x00; 0x10]; SpiWrite [0x00; 0x0A];
        SpiRead [0; 0]; SpiRead [0x20; 0]; GpioSet 2 1]
  /\ value (s1d135xx_wait_idle msp430 (fun _ => 0) (fresh dev_reg)) = -1.
Proof.
  split; [|split; [|split]].
  - apply (proj1 (wait_idle_ready_or_timeout msp430
                    (fun n => if (n <? 2)%nat then 0 else 1)
                    (fresh dev_pin)) 2%nat).
    + apply Nat.ltb_lt. vm_compute. reflexivity.
    + intros [|[|j]] Hj; [reflexivity|reflexivity|lia].
    + reflexivity.
  - apply (proj1 (proj2 (wait_idle_ready_or_timeout msp430 (fun _ => 0)
                           (fresh dev_pin)))).
    intros j Hj. reflexivity.
  - destruct (proj1 (wait_idle_ready_or_timeout msp430 oracle_ready_second
                       (fresh dev_reg)) 1%nat) as (_ & _ & Et & _).
    + apply Nat.ltb_lt. vm_compute. reflexivity.
    + intros [|j] Hj; [reflexivity|lia].
    + reflexivity.
    + rewrite Et. vm_compute. reflexivity.
  - apply (proj1 (proj2 (wait_idle_ready_or_timeout msp430 (fun _ => 0)
                           (fresh dev_reg)))).
    intros j Hj. reflexivity.
Defined.

(** ** What every wait preserves *)

Section Invariant.

Variables (pf : platform) (o : oracle) (d : s1d135xx).
Variable P : list event -> Prop.
Hypothesis P_nil : P [].
Hypothesis P_app : forall t1 t2, P t1 -> P t2 -> P (t1 ++ t2).
Hypothesis P_delay : P [Mdelay 1].
Hypothesis P_log : P [Log "HRDY timeout"].
Hypothesis P_check : forall s, dev s = d -> P (emitted (get_hrdy pf o s)).

Lemma hrdy_poll_inv t :
  forall s, dev s = d ->
  P (emitted (hrdy_poll pf t o s)) /\ dev (after (hrdy_poll pf t o s)) = d.
Proof.
  induction t as [|t IH]; intros s Hs; rewrite hrdy_poll_unfold; cbv zeta;
    pose proof (P_check s Hs) as Hc;
    pose proof (get_hrdy_dev pf o s) as Hd; rewrite Hs in Hd;
    destruct (negb (value (get_hrdy pf o s) =? 0));
    cbn [value after emitted prepend]; auto.
  destruct (IH (after (get_hrdy pf o s)) Hd) as [IP Id].
  split; [|exact Id].
  apply P_app; [apply P_app|]; assumption.
Qed.

Lemma wait_idle_inv s :
  dev s = d ->
  P (emitted (s1d135xx_wait_idle pf o s))
  /\ dev (after (s1d135xx_wait_idle pf o s)) = d.
Proof.
  intros Hs. rewrite run_wait_idle. cbv zeta.
  destruct (hrdy_poll_inv (Nat.pred S1D135XX_HRDY_TIMEOUT) s Hs) as [HP Hd].
  revert HP Hd.
  generalize (hrdy_poll pf (Nat.pred S1D135XX_HRDY_TIMEOUT) o s).
  intros [[|v] a e]; cbn [value after emitted]; auto.
Qed.

End Invariant.

Lemma wait_idle_dev pf o s :
  dev (after (s1d135xx_wait_idle pf o s)) = dev s.
Proof.
  apply (wait_idle_inv pf o (dev s) (fun _ => True)); auto.
Qed.

Lemma wait_idle_value pf o s :
  value (s1d135xx_wait_idle pf o s) = 0
  \/ value (s1d135xx_wait_idle pf o s) = -1.
Proof.
  rewrite run_wait_idle. cbv zeta.
  generalize (hrdy_poll pf (Nat.pred S1D135XX_HRDY_TIMEOUT) o s).
  intros [[|v] a e]; cbn [value]; auto.
Qed.

(** ** Chip-select windows *)

Lemma balanced_app l1 l2 : balanced l1 -> balanced l2 -> balanced (l1 ++ l2).
Proof.
  induction 1 as [|l1 H1 IH]; intros H2; [exact H2|].
  simpl. constructor. now apply IH.
Qed.

Lemma balanced_counts l :
  balanced l ->
  List.length (filter (fun x => x =? 0) l)
  = List.length (filter (fun x => negb (x =? 0)) l).
Proof. induction 1; simpl; congruence. Qed.

Lemma balanced_last l init : balanced l -> init = 1 \/ l <> [] ->
  last l init = 1.
Proof.
  induction 1 as [|l H IH]; intros Hi.
  - destruct Hi as [->|Hi]; [reflexivity|congruence].
  - destruct l as [|x l']; [reflexivity|].
    change (last (0 :: 1 :: x :: l') init) with (last (x :: l') init).
    apply IH. right; discriminate.
Qed.

Lemma cs_levels_app cs t1 t2 :
  cs_levels cs (t1 ++ t2) = cs_levels cs t1 ++ cs_levels cs t2.
Proof.
  induction t1 as [|e t1 IH]; [reflexivity|].
  destruct e; simpl; rewrite ?IH; try reflexivity.
  destruct (pin =? cs); simpl; now rewrite ?IH.
Qed.

Lemma cs_levels_words cs (ws : list Z) :
  cs_levels cs (map (fun x => SpiWrite (wire x)) ws) = [].
Proof. induction ws; simpl; auto. Qed.

Lemma cs_levels_frame cs cmd params :
  cs_levels cs (frame cs cmd params) = [0; 1].
Proof.
  unfold frame. cbn [cs_levels]. rewrite Z.eqb_refl, cs_levels_app.
  rewrite cs_levels_words. simpl. now rewrite Z.eqb_refl.
Qed.

Lemma get_hrdy_balanced pf o s :
  balanced (cs_levels (cs0 (data (dev s))) (emitted (get_hrdy pf o s))).
Proof.
  destruct (hrdy (data (dev s)) =? PL_GPIO_NONE pf) eqn:E.
  - rewrite run_get_hrdy_reg, run_read_reg by exact E.
    cbn [emitted cs_levels]. rewrite Z.eqb_refl. repeat constructor.
  - rewrite run_get_hrdy_pin by exact E. constructor.
Qed.

Lemma wait_idle_balanced pf o s :
  balanced (cs_levels (cs0 (data (dev s)))
              (emitted (s1d135xx_wait_idle pf o s))).
Proof.
  apply (wait_idle_inv pf o (dev s)
           (fun tr => balanced (cs_levels (cs0 (data (dev s))) tr)));
    try constructor; auto.
  - intros t1 t2 H1 H2. rewrite cs_levels_app. now apply balanced_app.
  - intros s' Hs'. rewrite <- Hs'. apply get_hrdy_balanced.
Qed.

(** ** Command words *)

Lemma commands_words cs (ws : list Z) rest :
  commands cs false (map (fun x => SpiWrite (wire x)) ws ++ rest)
  = commands cs false rest.
Proof. induction ws; simpl; auto. Qed.

Lemma commands_frame cs sel cmd params rest :
  commands cs sel (frame cs cmd params ++ rest)
  = u16 cmd :: commands cs false rest.
Proof.
  unfold frame. cbn [commands app]. rewrite Z.eqb_refl.
  cbn [Z.eqb commands]. rewrite be_word_wire. f_equal.
  rewrite <- app_assoc, commands_words. simpl. now rewrite Z.eqb_refl.
Qed.

Lemma commands_off_bus cs sel tr rest :
  forallb off_bus tr = true ->
  commands cs sel (tr ++ rest) = commands cs sel rest.
Proof.
  induction tr as [|e tr IH]; [reflexivity|].
  simpl forallb. intros H. apply andb_prop in H. destruct H as [He Ht].
  destruct e; try discriminate; simpl; auto.
Qed.

Lemma issues_all cs tr cmds : issues cs tr cmds -> commands cs false tr = cmds.
Proof.
  intros H. specialize (H []). now rewrite !app_nil_r in H.
Qed.

Lemma issues_nil cs : issues cs [] [].
Proof. intros rest. reflexivity. Qed.

Lemma issues_app cs t1 t2 l1 l2 :
  issues cs t1 l1 -> issues cs t2 l2 -> issues cs (t1 ++ t2) (l1 ++ l2).
Proof.
  intros H1 H2 rest. now rewrite <- !app_assoc, H1, H2.
Qed.

Lemma issues_off_bus cs tr : forallb off_bus tr = true -> issues cs tr [].
Proof. intros H rest. now apply commands_off_bus. Qed.

Lemma issues_frame cs cmd params : issues cs (frame cs cmd params) [u16 cmd].
Proof. intros rest. apply commands_frame. Qed.

Lemma polls_only_nil cs : polls_only cs [].
Proof. exists 0%nat. apply issues_nil. Qed.

Lemma polls_only_app cs t1 t2 :
  polls_only cs t1 -> polls_only cs t2 -> polls_only cs (t1 ++ t2).
Proof.
  intros [n1 H1] [n2 H2]. exists (n1 + n2)%nat.
  rewrite repeat_app. now apply issues_app.
Qed.

Lemma polls_only_off_bus cs tr :
  forallb off_bus tr = true -> polls_only cs tr.
Proof. intros H. exists 0%nat. now apply issues_off_bus. Qed.

Lemma read_reg_issues pf reg o s :
  issues (cs0 (data (dev s))) (emitted (s1d135xx_read_reg pf reg o s))
    [S1D135XX_CMD_READ_REG].
Proof.
  rewrite run_read_reg, emitted_mk. intros rest. cbn [commands app].
  rewrite !Z.eqb_refl. reflexivity.
Qed.

Lemma get_hrdy_polls_only pf o s :
  polls_only (cs0 (data (dev s))) (emitted (get_hrdy pf o s)).
Proof.
  destruct (hrdy (data (dev s)) =? PL_GPIO_NONE pf) eqn:E.
  - rewrite run_get_hrdy_reg by exact E. cbv zeta. rewrite emitted_mk.
    exists 1%nat. apply read_reg_issues.
  - rewrite run_get_hrdy_pin by exact E.
    now apply polls_only_off_bus.
Qed.

Lemma wait_idle_polls_only pf o s :
  polls_only (cs0 (data (dev s))) (emitted (s1d135xx_wait_idle pf o s)).
Proof.
  apply (wait_idle_inv pf o (dev s) (polls_only (cs0 (data (dev s)))));
    auto using polls_only_nil, polls_only_app, polls_only_off_bus.
  intros s' Hs'. rewrite <- Hs'. apply get_hrdy_polls_only.
Qed.

Lemma without_polls_app l1 l2 :
  without_polls (l1 ++ l2) = without_polls l1 ++ without_polls l2.
Proof. apply filter_app. Qed.

Lemma without_polls_repeat n :
  without_polls (repeat S1D135XX_CMD_READ_REG n) = [].
Proof. induction n; [reflexivity|exact IHn]. Qed.

(** With a dedicated HRDY pin a wait stays off the bus. *)
Lemma wait_idle_off_bus pf o s :
  (hrdy (data (dev s)) =? PL_GPIO_NONE pf) = false ->
  forallb off_bus (emitted (s1d135xx_wait_idle pf o s)) = true.
Proof.
  intros E.
  apply (wait_idle_inv pf o (dev s) (fun tr => forallb off_bus tr = true));
    auto.
  - intros t1 t2 H1 H2. rewrite forallb_app, H1, H2. reflexivity.
  - intros s' Hs'. rewrite run_get_hrdy_pin by (now rewrite Hs').
    reflexivity.
Qed.

(** The commands of the checks of a wait: none with a dedicated HRDY pin,
    one READ_REG for every check without. *)
Lemma check_trace_issues pf o s k :
  issues (cs0 (data (dev s))) (check_trace pf o s k)
    (if negb (hrdy (data (dev s)) =? PL_GPIO_NONE pf) then []
     else [S1D135XX_CMD_READ_REG]).
Proof.
  unfold check_trace.
  destruct (hrdy (data (dev s)) =? PL_GPIO_NONE pf); cbn [negb].
  - intros rest. cbn [commands app]. rewrite !Z.eqb_refl. reflexivity.
  - now apply issues_off_bus.
Qed.

Lemma poll_trace_issues pf o s n :
  forall i,
  issues (cs0 (data (dev s))) (poll_trace pf o s i n)
    (if negb (hrdy (data (dev s)) =? PL_GPIO_NONE pf) then []
     else repeat S1D135XX_CMD_READ_REG (S n)).
Proof.
  induction n as [|n IH]; intros i; cbn [poll_trace].
  - pose proof (check_trace_issues pf o s i) as H.
    destruct (negb (hrdy (data (dev s)) =? PL_GPIO_NONE pf)); exact H.
  - pose proof (issues_app _ _ _ _ _ (check_trace_issues pf o s i)
                  (issues_app _ _ _ _ _
                     (issues_off_bus (cs0 (data (dev s))) [Mdelay 1] eq_refl)
                     (IH (S i)))) as H.
    destruct (negb (hrdy (data (dev s)) =? PL_GPIO_NONE pf)); exact H.
Qed.

(** ** The operations, step by step *)

Lemma outcome_ext {A} (r1 r2 : outcome A) :
  value r1 = value r2 -> after r1 = after r2 -> emitted r1 = emitted r2 ->
  r1 = r2.
Proof. destruct r1, r2; simpl; intros; subst; reflexivity. Qed.

(** Reflexivity on terms that are the same already: nothing is unfolded. *)
Ltac same := lazymatch goal with |- ?x = ?y => constr_eq x y; reflexivity end.

(** Traces as right-nested lists. *)
Ltac trace_norm :=
  unfold frame; rewrite ?prepend_prepend; rewrite <- ?app_assoc;
  cbn [app map].

Lemma run_cmd pf cmd params o s :
  s1d135xx_cmd pf cmd params o s =
  {| value := tt; after := s;
     emitted := frame (cs0 (data (dev s))) cmd params |}.
Proof.
  unfold s1d135xx_cmd. quiet_steps. rewrite run_set_cs.
  unfold prepend, frame; cbn [value after emitted app].
  reflexivity.
Qed.

Lemma run_write_reg pf reg val o s :
  s1d135xx_write_reg pf reg val o s =
  {| value := tt; after := s;
     emitted := frame (cs0 (data (dev s))) S1D135XX_CMD_WRITE_REG [reg; val] |}.
Proof. unfold s1d135xx_write_reg. quiet_steps. reflexivity. Qed.

Lemma run_hard_reset pf o s :
  s1d135xx_hard_reset pf o s =
  {| value := tt; after := s;
     emitted :=
       if reset (data (dev s)) =? PL_GPIO_NONE pf
       then [Log "Warning: no hard reset"]
       else [GpioSet (reset (data (dev s))) 0; Mdelay 4;
             GpioSet (reset (data (dev s))) 1; Mdelay 10] |}.
Proof.
  unfold s1d135xx_hard_reset.
  rewrite (bind_quiet _ _ _ _ _ _ (run_get_dev _ _)).
  destruct (reset (data (dev s)) =? PL_GPIO_NONE pf); reflexivity.
Qed.

Lemma run_soft_reset pf o s :
  s1d135xx_soft_reset pf o s =
  prepend (frame (cs0 (data (dev s))) S1D135XX_CMD_WRITE_REG
             [S1D135XX_REG_SOFTWARE_RESET pf; 0])
    (s1d135xx_wait_idle pf o s).
Proof.
  unfold s1d135xx_soft_reset.
  now rewrite (bind_quiet _ _ _ _ _ _ (run_write_reg _ _ _ _ _)).
Qed.

Lemma run_wait_update_end pf o s :
  s1d135xx_wait_update_end pf o s =
  prepend (frame (cs0 (data (dev s))) S1D135XX_CMD_WAIT_DSPE_FREND [])
    (s1d135xx_wait_idle pf o s).
Proof. unfold s1d135xx_wait_update_end. quiet_steps. reflexivity. Qed.

Lemma run_handshake pf o s :
  handshake pf o s =
  let w := s1d135xx_wait_idle pf o s in
  prepend (emitted w)
    (if negb (value w =? 0) then ret (-1) o (after w)
     else s1d135xx_wait_dspe_trig pf o (after w)).
Proof.
  unfold handshake. rewrite run_bind. cbv zeta.
  now destruct (negb (value (s1d135xx_wait_idle pf o s) =? 0)).
Qed.

Lemma run_update pf wfid o s :
  s1d135xx_update pf wfid o s =
  prepend (frame (cs0 (data (dev s))) S1D135XX_CMD_UPDATE_FULL
             [S1D135XX_WF_MODE wfid])
    (handshake pf o s).
Proof. unfold s1d135xx_update. quiet_steps. reflexivity. Qed.

Lemma run_update_area pf wfid area o s :
  s1d135xx_update_area pf wfid area o s =
  prepend (frame (cs0 (data (dev s))) S1D135XX_CMD_UPDATE_FULL_AREA
             [S1D135XX_WF_MODE wfid;
              Z.land (left area) S1D135XX_XMASK;
              Z.land (top area) S1D135XX_YMASK;
              Z.land (width area) S1D135XX_XMASK;
              Z.land (height area) S1D135XX_YMASK])
    (handshake pf o s).
Proof. unfold s1d135xx_update_area. quiet_steps. reflexivity. Qed.

Lemma run_set_power_state pf st o s :
  s1d135xx_set_power_state pf st o s =
  match st with
  | PL_EPDC_OFF =>
      {| value := 0; after := s;
         emitted := [Log "Warning: OFF mode not supported"] |}
  | _ =>
      let w := s1d135xx_wait_idle pf o s in
      prepend (emitted w)
        (if negb (value w =? 0) then ret (-1) o (after w)
         else prepend (frame (cs0 (data (dev s)))
                         (nth (power_state_index st) pwr_cmds 0) [])
                (s1d135xx_wait_idle pf o (after w)))
  end.
Proof.
  destruct st; cbn [s1d135xx_set_power_state];
    [| | |reflexivity];
    rewrite run_bind; cbv zeta beta;
    (destruct (negb (value (s1d135xx_wait_idle pf o s) =? 0));
     [reflexivity|]);
    quiet_steps; rewrite wait_idle_dev; trace_norm; reflexivity.
Qed.

Lemma run_f_open path o s :
  f_open path o s =
  {| value := o (tick s);
     after := {| dev := dev s; tick := S (tick s) |};
     emitted := [FOpen path (o (tick s))] |}.
Proof. reflexivity. Qed.

Lemma run_transfer_file o s :
  transfer_file o s =
  {| value := o (tick s);
     after := {| dev := dev s; tick := S (tick s) |};
     emitted := [TransferFile (o (tick s))] |}.
Proof. reflexivity. Qed.

Lemma transfer_file_dev o s : dev (after (transfer_file o s)) = dev s.
Proof. reflexivity. Qed.

Lemma read_reg_dev pf reg o s :
  dev (after (s1d135xx_read_reg pf reg o s)) = dev s.
Proof. rewrite run_read_reg. reflexivity. Qed.

Lemma set_power_state_dev pf st o s :
  dev (after (s1d135xx_set_power_state pf st o s)) = dev s.
Proof.
  rewrite run_set_power_state.
  destruct st; [| | |reflexivity]; cbv zeta;
    (destruct (negb (value (s1d135xx_wait_idle pf o s) =? 0));
     proj; now rewrite !wait_idle_dev).
Qed.

Lemma run_init_gate_drv pf o s :
  s1d135xx_init_gate_drv pf o s =
  let r := s1d135xx_set_power_state pf PL_EPDC_RUN o s in
  prepend (emitted r)
    (if negb (value r =? 0) then ret (-1) o (after r)
     else prepend (frame (cs0 (data (dev s))) S1D135XX_CMD_EPD_GDRV_CLR [])
            (s1d135xx_wait_idle pf o (after r))).
Proof.
  unfold s1d135xx_init_gate_drv. rewrite run_bind. cbv zeta beta.
  destruct (negb (value (s1d135xx_set_power_state pf PL_EPDC_RUN o s) =? 0));
    [reflexivity|].
  quiet_steps. rewrite set_power_state_dev. trace_norm. reflexivity.
Qed.

Section LoadInitCode.

Variables (pf : platform) (o : oracle) (s : state).

Local Abbreviation cs := (cs0 (data (dev s))).
Local Abbreviation F := (load_open o s).
Local Abbreviation W1 := (load_wait1 pf o s).
Local Abbreviation T := (load_transfer pf o s).
Local Abbreviation W2 := (load_wait2 pf o s).
Local Abbreviation C := (load_checksum pf o s).
Local Abbreviation W3 := (load_wait3 pf o s).

Lemma load_stages_dev :
  dev (after W1) = dev s /\ dev (after T) = dev s
  /\ dev (after W2) = dev s /\ dev (after C) = dev s
  /\ dev (after W3) = dev s.
Proof.
  assert (D1 : dev (after W1) = dev s)
    by (unfold load_wait1; rewrite wait_idle_dev; reflexivity).
  assert (DT : dev (after T) = dev s)
    by (unfold load_transfer; rewrite transfer_file_dev; exact D1).
  assert (D2 : dev (after W2) = dev s)
    by (unfold load_wait2; rewrite wait_idle_dev; exact DT).
  assert (DC : dev (after C) = dev s)
    by (unfold load_checksum; rewrite read_reg_dev; exact D2).
  repeat split; try assumption.
  unfold load_wait3. rewrite wait_idle_dev. exact DC.
Qed.

Lemma run_load_init_code :
  s1d135xx_load_init_code pf o s =
  if negb (value F =? FR_OK) then
    {| value := -1; after := after F; emitted := emitted F |}
  else if negb (value W1 =? 0) then
    {| value := -1; after := after W1; emitted := emitted F ++ emitted W1 |}
  else if negb (value W2 =? 0) then
    {| value := -1; after := after W2; emitted := load_sent pf o s |}
  else if negb (value T =? 0) then
    {| value := -1; after := after W2;
       emitted := load_sent pf o s
                    ++ [Log "Failed to transfer init code file"] |}
  else if Z.land (value C) S1D135XX_INIT_CODE_CHECKSUM_OK =? 0 then
    {| value := -1; after := after C;
       emitted := load_sent pf o s ++ emitted C
                    ++ [Log "Init code checksum error"] |}
  else
    {| value := value W3; after := after W3;
       emitted := load_sent pf o s ++ emitted C
                    ++ frame cs S1D135XX_CMD_INIT_STBY [] ++ [Mdelay 100]
                    ++ emitted W3 |}.
Proof.
  destruct load_stages_dev as (D1 & DT & D2 & DC & _).
  unfold s1d135xx_load_init_code.
  rewrite run_bind. fold F. cbv beta.
  destruct (negb (value F =? FR_OK)).
  { apply outcome_ext; proj; rewrite ?app_nil_r; same. }
  rewrite run_bind. fold W1. cbv beta.
  destruct (negb (value W1 =? 0)).
  { apply outcome_ext; proj; rewrite ?app_nil_r; same. }
  quiet_steps. rewrite run_bind. fold T. cbv beta.
  quiet_steps. rewrite run_bind. fold W2. cbv beta.
  rewrite !D1, ?DT.
  destruct (negb (value W2 =? 0)).
  { apply outcome_ext; proj; [same|same|].
    unfold load_sent. trace_norm. rewrite ?app_nil_r. same. }
  destruct (negb (value T =? 0)).
  { rewrite (bind_quiet _ _ _ _ _ _ (run_LOG _ _ _)).
    apply outcome_ext; proj; [same|same|].
    unfold load_sent. trace_norm. rewrite ?app_nil_r. same. }
  rewrite run_bind. fold C. cbv beta.
  destruct (Z.land (value C) S1D135XX_INIT_CODE_CHECKSUM_OK =? 0).
  { rewrite (bind_quiet _ _ _ _ _ _ (run_LOG _ _ _)).
    apply outcome_ext; proj; [same|same|].
    unfold load_sent. trace_norm. rewrite ?app_nil_r. same. }
  quiet_steps. fold W3. rewrite DC.
  apply outcome_ext; proj; [same|same|].
  unfold load_sent. trace_norm. same.
Qed.

End LoadInitCode.

(** ** Byte order *)

(** C8. A 16-bit command or parameter word leaves the host as exactly two
    bytes, the most significant first, whatever the byte order of the
    host; and the two bytes, read back into a word of the host and
    converted from big-endian as [s1d135xx_read_reg] does, give the word
    again: when the chip answers a register read with these two bytes as
    its second word, [s1d135xx_read_reg] returns the word. *)
Theorem wire_round_trip (pf : platform) (v : Z) (o : oracle) (s : state) :
  0 <= v < 65536 ->
  emitted (send_cmd pf v o s) = [SpiWrite [v / 256; v mod 256]]
  /\ emitted (send_param pf v o s) = [SpiWrite [v / 256; v mod 256]]
  /\ bytes_of_u16 (host_big_endian pf) (htobe16 (host_big_endian pf) v)
     = [v / 256; v mod 256]
  /\ be16toh (host_big_endian pf)
       (u16_of_bytes (host_big_endian pf)
          (bytes_of_u16 (host_big_endian pf)
             (htobe16 (host_big_endian pf) v))) = v
  /\ be16toh (host_big_endian pf) (htobe16 (host_big_endian pf) v) = v
  /\ (forall reg,
        o (2 + tick s)%nat mod 256 = v / 256 ->
        o (3 + tick s)%nat mod 256 = v mod 256 ->
        value (s1d135xx_read_reg pf reg o s) = v
        /\ exists first,
             emitted (s1d135xx_read_reg pf reg o s)
             = [GpioSet (cs0 (data (dev s))) 0;
                SpiWrite [0x00; 0x10]; SpiWrite (wire reg);
                SpiRead first; SpiRead [v / 256; v mod 256];
                GpioSet (cs0 (data (dev s))) 1]).
Proof.
  intros Hv.
  assert (Hhi : 0 <= v / 256 < 256)
    by (split; [apply Z.div_pos; lia | apply Z.div_lt_upper_bound; lia]).
  assert (Hlo : 0 <= v mod 256 < 256) by (apply Z.mod_pos_bound; lia).
  assert (Hw : bytes_of_u16 (host_big_endian pf)
                 (htobe16 (host_big_endian pf) v) = [v / 256; v mod 256]).
  { rewrite <- (u16_small v Hv) at 1. rewrite host_to_wire.
    unfold wire. now rewrite (u16_small v Hv). }
  rewrite run_send_cmd, run_send_param. unfold wire at 1 2.
  rewrite (u16_small v Hv), Hw.
  split; [reflexivity|]. split; [reflexivity|]. split; [reflexivity|].
  split; [|split].
  - rewrite wire_to_host by assumption. unfold be_word.
    rewrite (Z.div_mod v 256) at 3 by lia. lia.
  - unfold be16toh, htobe16. destruct (host_big_endian pf); [reflexivity|].
    now apply bswap16_involutive.
  - intros reg H2 H3. rewrite run_read_reg, value_mk, emitted_mk, H2, H3.
    split.
    + unfold be_word. rewrite (Z.div_mod v 256) at 3 by lia. lia.
    + eexists. reflexivity.
Qed.

Lemma wire_round_trip_witness :
  emitted (send_cmd msp430 0x1234 oracle_reads_1234 (fresh dev_pin))
  = [SpiWrite [0x12; 0x34]]
  /\ be16toh false
       (u16_of_bytes false (bytes_of_u16 false (htobe16 false 0x1234)))
     = 0x1234
  /\ value (s1d135xx_read_reg msp430 0x000A oracle_reads_1234
              (fresh dev_pin)) = 0x1234
  /\ emitted (send_param big_endian_host 0x1234 oracle_reads_1234
                (fresh dev_pin))
     = [SpiWrite [0x12; 0x34]]
  /\ value (s1d135xx_read_reg big_endian_host 0x000A oracle_reads_1234
              (fresh dev_pin)) = 0x1234.
Proof.
  destruct (wire_round_trip msp430 0x1234 oracle_reads_1234 (fresh dev_pin))
    as (H1 & _ & _ & H4 & _ & H6); [lia|].
  destruct (wire_round_trip big_endian_host 0x1234 oracle_reads_1234
              (fresh dev_pin))
    as (_ & B2 & _ & _ & _ & B6); [lia|].
  destruct (H6 0x000A) as (Hr & _); [reflexivity|reflexivity|].
  destruct (B6 0x000A) as (Br & _); [reflexivity|reflexivity|].
  split; [exact H1|]. split; [exact H4|]. split; [exact Hr|].
  split; [exact B2|exact Br].
Defined.

(** ** Register read *)

(** C6. [s1d135xx_read_reg] frames the READ_REG command with the register
    number as its parameter, then reads exactly two 16-bit words inside
    the same chip-select window; the value returned is the second word,
    most significant byte first, and the first word plays no part in
    it. *)
Theorem read_reg_second_word (pf : platform) (reg : Z) (o : oracle)
    (s : state) :
  let cs := cs0 (data (dev s)) in
  let b := fun i => o (tick s + i)%nat mod 256 in
  emitted (s1d135xx_read_reg pf reg o s)
  = [GpioSet cs 0; SpiWrite (wire S1D135XX_CMD_READ_REG); SpiWrite (wire reg);
     SpiRead [b 0%nat; b 1%nat]; SpiRead [b 2%nat; b 3%nat]; GpioSet cs 1]
  /\ value (s1d135xx_read_reg pf reg o s) = b 2%nat * 256 + b 3%nat
  /\ after (s1d135xx_read_reg pf reg o s)
     = {| dev := dev s; tick := (tick s + 4)%nat |}.
Proof.
  intros cs b. subst b. rewrite run_read_reg. cbv beta.
  cbn [value after emitted be_word].
  rewrite Nat.add_0_r.
  replace (tick s + 1)%nat with (1 + tick s)%nat by lia.
  replace (tick s + 2)%nat with (2 + tick s)%nat by lia.
  replace (tick s + 3)%nat with (3 + tick s)%nat by lia.
  replace (tick s + 4)%nat with (4 + tick s)%nat by lia.
  auto.
Qed.

(** ** Hard reset *)

(** C7. Without a reset pin [s1d135xx_hard_reset] returns after a warning
    in the log and no GPIO call at all.  With a reset pin it drives the
    pin low, waits 4 ms, drives it high and waits 10 ms, and that is all:
    no answer of the outside world is asked for, so no readiness check
    follows. *)
Theorem hard_reset_sequence (pf : platform) (o : oracle) (s : state) :
  let r := s1d135xx_hard_reset pf o s in
  let pin := reset (data (dev s)) in
  after r = s
  /\ (pin = PL_GPIO_NONE pf ->
      emitted r = [Log "Warning: no hard reset"]
      /\ filter is_gpio (emitted r) = [])
  /\ (pin <> PL_GPIO_NONE pf ->
      emitted r = [GpioSet pin 0; Mdelay 4; GpioSet pin 1; Mdelay 10]).
Proof.
  intros r pin. subst r pin. rewrite run_hard_reset.
  cbn [value after emitted]. split; [reflexivity|]. split; intros H.
  - apply Z.eqb_eq in H. rewrite H. auto.
  - apply Z.eqb_neq in H. rewrite H. reflexivity.
Qed.

Lemma hard_reset_sequence_witness :
  emitted (s1d135xx_hard_reset msp430 (fun _ => 0) (fresh dev_reg))
  = [Log "Warning: no hard reset"]
  /\ emitted (s1d135xx_hard_reset msp430 (fun _ => 0) (fresh dev_pin))
     = [GpioSet 1 0; Mdelay 4; GpioSet 1 1; Mdelay 10].
Proof.
  split.
  - apply (hard_reset_sequence msp430 (fun _ => 0) (fresh dev_reg)).
    reflexivity.
  - apply (hard_reset_sequence msp430 (fun _ => 0) (fresh dev_pin)).
    discriminate.
Defined.

(** ** Waveform mode *)

Lemma wf_mode_mod16 wf : S1D135XX_WF_MODE wf = (wf mod 16) * 256.
Proof.
  unfold S1D135XX_WF_MODE.
  change 0x0F00 with (Z.shiftl 15 8).
  rewrite <- Z.shiftl_land.
  change 15 with (Z.ones 4). rewrite Z.land_ones by lia.
  rewrite Z.shiftl_mul_pow2 by lia. reflexivity.
Qed.

(** C10. The waveform parameter that [s1d135xx_update] and
    [s1d135xx_update_area] transmit is [(wfid << 8) & 0x0F00], also when
    the shift wraps around in 16 bits: its low byte is zero and only the
    low four bits of the waveform id count, so [wfid] and [wfid + 16]
    give the same parameter and the same transmission. *)
Theorem wf_mode_low_four_bits (pf : platform) (wfid : Z) (area : pl_area)
    (o : oracle) (s : state) :
  S1D135XX_WF_MODE wfid = Z.land (u16 (Z.shiftl wfid 8)) 0x0F00
  /\ S1D135XX_WF_MODE wfid = (wfid mod 16) * 256
  /\ S1D135XX_WF_MODE wfid mod 256 = 0
  /\ wire (S1D135XX_WF_MODE wfid) = [wfid mod 16; 0]
  /\ S1D135XX_WF_MODE (wfid + 16) = S1D135XX_WF_MODE wfid
  /\ emitted (s1d135xx_update pf wfid o s)
     = [GpioSet (cs0 (data (dev s))) 0;
        SpiWrite (wire S1D135XX_CMD_UPDATE_FULL);
        SpiWrite (wire (S1D135XX_WF_MODE wfid));
        GpioSet (cs0 (data (dev s))) 1] ++ emitted (handshake pf o s)
  /\ firstn 3 (emitted (s1d135xx_update_area pf wfid area o s))
     = [GpioSet (cs0 (data (dev s))) 0;
        SpiWrite (wire S1D135XX_CMD_UPDATE_FULL_AREA);
        SpiWrite (wire (S1D135XX_WF_MODE wfid))]
  /\ s1d135xx_update pf (wfid + 16) o s = s1d135xx_update pf wfid o s
  /\ s1d135xx_update_area pf (wfid + 16) area o s
     = s1d135xx_update_area pf wfid area o s.
Proof.
  assert (Hr : 0 <= wfid mod 16 < 16) by (apply Z.mod_pos_bound; lia).
  assert (H16 : S1D135XX_WF_MODE (wfid + 16) = S1D135XX_WF_MODE wfid).
  { rewrite !wf_mode_mod16. f_equal.
    replace (wfid + 16) with (wfid + 1 * 16) by lia.
    now rewrite Z.mod_add by lia. }
  split; [|split; [|split; [|split; [|split; [|split; [|split; [|split]]]]]]].
  - unfold S1D135XX_WF_MODE, u16.
    change 65536 with (2 ^ 16). rewrite <- Z.land_ones by lia.
    rewrite <- Z.land_assoc. reflexivity.
  - apply wf_mode_mod16.
  - rewrite wf_mode_mod16. apply Z.mod_mul. lia.
  - unfold wire, u16. rewrite wf_mode_mod16.
    rewrite (Z.mod_small (wfid mod 16 * 256)) by lia.
    rewrite Z.div_mul, Z.mod_mul by lia. reflexivity.
  - exact H16.
  - rewrite run_update, emitted_prepend. unfold frame.
    cbn [map app]. same.
  - rewrite run_update_area, emitted_prepend. unfold frame.
    cbn [map app firstn]. same.
  - unfold s1d135xx_update. now rewrite H16.
  - unfold s1d135xx_update_area. now rewrite H16.
Qed.

(** ** Area update *)

Lemma land_mask_mod x n : 0 <= n -> Z.land x (Z.ones n) = x mod 2 ^ n.
Proof. intros Hn. now apply Z.land_ones. Qed.

(** C2. [s1d135xx_update_area] sends, in one chip-select window, the
    UPDATE_FULL_AREA command and then exactly five parameter words: the
    waveform mode, left and width reduced to 9 bits, top and height
    reduced to 10 bits.  Whatever the area, the frame is sent: nothing is
    rejected.  For waveform 2 and the area (1000, 10, 50, 60) the
    parameters are 0x0200, 488, 10, 50 and 60. *)
Theorem update_area_masks (pf : platform) (wfid : Z) (area : pl_area)
    (o : oracle) (s : state) :
  let cs := cs0 (data (dev s)) in
  emitted (s1d135xx_update_area pf wfid area o s)
  = frame cs S1D135XX_CMD_UPDATE_FULL_AREA
      [S1D135XX_WF_MODE wfid;
       Z.land (left area) 0x1FF; Z.land (top area) 0x3FF;
       Z.land (width area) 0x1FF; Z.land (height area) 0x3FF]
    ++ emitted (handshake pf o s)
  /\ Z.land (left area) 0x1FF = left area mod 2 ^ 9
  /\ Z.land (top area) 0x3FF = top area mod 2 ^ 10
  /\ Z.land (width area) 0x1FF = width area mod 2 ^ 9
  /\ Z.land (height area) 0x3FF = height area mod 2 ^ 10
  /\ emitted (s1d135xx_update_area pf 2
                {| left := 1000; top := 10; width := 50; height := 60 |} o s)
     = frame cs S1D135XX_CMD_UPDATE_FULL_AREA [0x0200; 488; 10; 50; 60]
       ++ emitted (handshake pf o s)
  /\ map wire [0x0200; 488; 10; 50; 60]
     = [[2; 0]; [1; 232]; [0; 10]; [0; 50]; [0; 60]].
Proof.
  intros cs. subst cs. rewrite !run_update_area, !emitted_prepend.
  repeat split.
  - apply (land_mask_mod _ 9). lia.
  - apply (land_mask_mod _ 10). lia.
  - apply (land_mask_mod _ 9). lia.
  - apply (land_mask_mod _ 10). lia.
Qed.

(** ** Power states *)

(** C3. [s1d135xx_set_power_state] with Standby waits until idle, then
    sends the one-word command 0x04 in a chip-select window of its own,
    waits again and returns what that last wait returns.  If the first
    wait fails it returns -1 and sends no command of its own: the trace
    is that of the failed wait, its 3000 readiness checks and the timeout
    in the log.  With a dedicated HRDY pin these checks are reads of the
    pin and nothing reaches the bus; without one they are 3000 READ_REG
    frames for the status register.  In no case, and for no requested
    state, does it write to the device structure: the remembered power
    state is the same after the call as before. *)
Theorem set_power_state_standby (pf : platform) (o : oracle) (s : state) :
  let cs := cs0 (data (dev s)) in
  let w1 := s1d135xx_wait_idle pf o s in
  let w2 := s1d135xx_wait_idle pf o (after w1) in
  let r := s1d135xx_set_power_state pf PL_EPDC_STANDBY o s in
  (forall st, dev (after (s1d135xx_set_power_state pf st o s)) = dev s)
  /\ power_state (dev (after r)) = power_state (dev s)
  /\ (value w1 = 0 ->
      emitted r = emitted w1 ++ frame cs 0x04 [] ++ emitted w2
      /\ value r = value w2 /\ after r = after w2)
  /\ (value w1 <> 0 ->
      value r = -1 /\ emitted r = emitted w1
      /\ emitted r = poll_trace pf o s 0 2999 ++ [Log "HRDY timeout"]
      /\ (hrdy (data (dev s)) <> PL_GPIO_NONE pf ->
          forallb off_bus (emitted r) = true)
      /\ (hrdy (data (dev s)) = PL_GPIO_NONE pf ->
          commands cs false (emitted r) = repeat 0x10 3000)).
Proof.
  intros cs w1 w2 r. subst cs r.
  split; [intros st; apply set_power_state_dev|].
  split; [now rewrite set_power_state_dev|].
  rewrite run_set_power_state. cbv zeta. fold w1. fold w2.
  split; intros H.
  - rewrite H. cbn [Z.eqb negb]. proj. repeat split.
  - pose proof (wait_idle_failed pf o s H) as Et. fold w1 in Et.
    apply Z.eqb_neq in H. rewrite H. cbn [negb]. proj.
    rewrite app_nil_r.
    split; [same|]. split; [same|]. split; [exact Et|]. split.
    + intros Hp. apply wait_idle_off_bus. now apply Z.eqb_neq.
    + intros Hp. rewrite Et.
      pose proof (issues_all _ _ _
                    (issues_app _ _ _ _ _
                       (poll_trace_issues pf o s
                          (Nat.pred S1D135XX_HRDY_TIMEOUT) 0%nat)
                       (issues_off_bus (cs0 (data (dev s)))
                          [Log "HRDY timeout"] eq_refl))) as Hc.
      rewrite Hp, Z.eqb_refl in Hc. cbn [negb] in Hc.
      rewrite app_nil_r in Hc. exact Hc.
Qed.

Lemma set_power_state_standby_witness :
  emitted (s1d135xx_set_power_state msp430 PL_EPDC_STANDBY (fun _ => 1)
             (fresh dev_pin))
  = [GpioGet 3 1; GpioSet 2 0; SpiWrite [0; 4]; GpioSet 2 1; GpioGet 3 1]
  /\ value (s1d135xx_set_power_state msp430 PL_EPDC_STANDBY (fun _ => 0)
              (fresh dev_pin)) = -1
  /\ forallb off_bus
       (emitted (s1d135xx_set_power_state msp430 PL_EPDC_STANDBY
                   (fun _ => 0) (fresh dev_pin))) = true
  /\ commands 2 false
       (emitted (s1d135xx_set_power_state msp430 PL_EPDC_STANDBY
                   (fun _ => 0) (fresh dev_reg)))
     = repeat 0x10 3000.
Proof.
  split; [|split; [|split]].
  - destruct (set_power_state_standby msp430 (fun _ => 1) (fresh dev_pin))
      as (_ & _ & H & _).
    destruct H as (He & _); [vm_compute; reflexivity|].
    rewrite He. vm_compute. reflexivity.
  - destruct (set_power_state_standby msp430 (fun _ => 0) (fresh dev_pin))
      as (_ & _ & _ & H).
    destruct H as (Hv & _); [vm_compute; discriminate|].
    exact Hv.
  - destruct (set_power_state_standby msp430 (fun _ => 0) (fresh dev_pin))
      as (_ & _ & _ & H).
    destruct H as (_ & _ & _ & Hb & _); [vm_compute; discriminate|].
    apply Hb. vm_compute. discriminate.
  - destruct (set_power_state_standby msp430 (fun _ => 0) (fresh dev_reg))
      as (_ & _ & _ & H).
    destruct H as (_ & _ & _ & _ & Hc); [vm_compute; discriminate|].
    apply Hc. reflexivity.
Defined.

(** A device remembered as asleep, with its HRDY pin always high: the
    call for Standby succeeds and sends 0x04, and the device is still
    remembered as asleep. *)
Lemma set_power_state_standby_not_remembered :
  let r := s1d135xx_set_power_state msp430 PL_EPDC_STANDBY (fun _ => 1)
             (fresh dev_pin) in
  value r = 0
  /\ commands 2 false (emitted r) = [0x04]
  /\ power_state (dev (after r)) = PL_EPDC_SLEEP
  /\ power_state (dev (after r)) <> PL_EPDC_STANDBY.
Proof. vm_compute. repeat split. discriminate. Qed.

(** ** Loading the init code *)

Lemma checksum_ok_bit c :
  (Z.land c S1D135XX_INIT_CODE_CHECKSUM_OK =? 0) = negb (Z.testbit c 15).
Proof.
  change S1D135XX_INIT_CODE_CHECKSUM_OK with (2 ^ 15).
  destruct (Z.testbit c 15) eqn:E; cbn [negb].
  - apply Z.eqb_neq. intros H.
    assert (Hb : Z.testbit (Z.land c (2 ^ 15)) 15 = true)
      by (rewrite Z.land_spec, E, Z.pow2_bits_true by lia; reflexivity).
    rewrite H, Z.bits_0 in Hb. discriminate.
  - apply Z.eqb_eq. apply Z.bits_inj'. intros n Hn.
    rewrite Z.land_spec, Z.bits_0.
    destruct (Z.eq_dec n 15) as [->|Hne].
    + now rewrite E.
    + rewrite Z.pow2_bits_false by lia. apply andb_false_r.
Qed.

(** The window in which the init code is sent. *)
Lemma issues_transfer_window cs cmd stat tail cmds :
  issues cs tail cmds ->
  issues cs ([GpioSet cs 0; SpiWrite (wire cmd)] ++ [TransferFile stat]
               ++ [GpioSet cs 1; FClose] ++ tail) (u16 cmd :: cmds).
Proof.
  intros H rest. cbn [app commands]. rewrite !Z.eqb_refl.
  cbn [Z.eqb commands]. rewrite be_word_wire. f_equal. apply H.
Qed.

Section LoadInitCodeCommands.

Variables (pf : platform) (o : oracle) (s : state).

Local Abbreviation cs := (cs0 (data (dev s))).

Lemma load_wait_polls :
  polls_only cs (emitted (load_wait1 pf o s))
  /\ polls_only cs (emitted (load_wait2 pf o s))
  /\ polls_only cs (emitted (load_wait3 pf o s)).
Proof.
  destruct (load_stages_dev pf o s) as (D1 & DT & D2 & DC & D3).
  pose proof (wait_idle_polls_only pf o (after (load_open o s))) as P1.
  pose proof (wait_idle_polls_only pf o (after (load_transfer pf o s))) as P2.
  pose proof (wait_idle_polls_only pf o (after (load_checksum pf o s))) as P3.
  rewrite DT in P2. rewrite DC in P3. auto.
Qed.

Lemma load_sent_issues :
  exists n1 n2,
    issues cs (load_sent pf o s)
      (repeat S1D135XX_CMD_READ_REG n1
         ++ S1D135XX_CMD_INIT_SET :: repeat S1D135XX_CMD_READ_REG n2).
Proof.
  destruct load_wait_polls as ([n1 P1] & [n2 P2] & _).
  exists n1, n2. unfold load_sent.
  apply (issues_app _ _ _ []); [now apply issues_off_bus|].
  apply issues_app; [exact P1|].
  unfold load_transfer at 1. rewrite run_transfer_file, emitted_mk.
  apply (issues_transfer_window cs S1D135XX_CMD_INIT_SET). exact P2.
Qed.

Lemma load_checksum_issues :
  issues cs (emitted (load_checksum pf o s)) [S1D135XX_CMD_READ_REG].
Proof.
  destruct (load_stages_dev pf o s) as (_ & _ & D2 & _).
  pose proof (read_reg_issues pf (S1D135XX_REG_SEQ_AUTOBOOT_CMD pf) o
                (after (load_wait2 pf o s))) as H.
  now rewrite D2 in H.
Qed.

End LoadInitCodeCommands.

Lemma in_repeat_eq {A} (x y : A) n : In x (repeat y n) -> x = y.
Proof. intros H. exact (repeat_spec n y x H). Qed.

(** C4. When the file opens, the first wait, the transfer and the wait
    after it all succeed, [s1d135xx_load_init_code] reads the
    SEQ_AUTOBOOT_CMD register.  With bit 15 of the value clear it logs
    the checksum error and returns -1, and INIT_STBY is not among the
    commands sent.  With bit 15 set it sends INIT_STBY in a chip-select
    window of its own, waits 100 ms, waits until idle once more and
    returns what that wait returns. *)
Theorem load_init_code_checksum (pf : platform) (o : oracle) (s : state) :
  let cs := cs0 (data (dev s)) in
  let r := s1d135xx_load_init_code pf o s in
  let c := load_checksum pf o s in
  let w3 := load_wait3 pf o s in
  value (load_open o s) = FR_OK ->
  value (load_wait1 pf o s) = 0 ->
  value (load_transfer pf o s) = 0 ->
  value (load_wait2 pf o s) = 0 ->
  (Z.testbit (value c) 15 = false ->
     value r = -1
     /\ emitted r
        = load_sent pf o s ++ emitted c ++ [Log "Init code checksum error"]
     /\ ~ In S1D135XX_CMD_INIT_STBY (commands cs false (emitted r)))
  /\ (Z.testbit (value c) 15 = true ->
      value r = value w3 /\ after r = after w3
      /\ emitted r
         = load_sent pf o s ++ emitted c
             ++ frame cs S1D135XX_CMD_INIT_STBY [] ++ [Mdelay 100]
             ++ emitted w3
      /\ without_polls (commands cs false (emitted r))
         = [S1D135XX_CMD_INIT_SET; S1D135XX_CMD_INIT_STBY]).
Proof.
  intros cs r c w3 HF H1 HT H2. subst cs r c w3.
  rewrite run_load_init_code, HF, H1, HT, H2, checksum_ok_bit.
  cbn [Z.eqb negb FR_OK].
  destruct (load_sent_issues pf o s) as (n1 & n2 & Hs).
  pose proof (load_checksum_issues pf o s) as Hc.
  split; intros Hb; rewrite Hb; cbn [negb]; proj.
  - repeat split.
    rewrite (issues_all _ _ _
               (issues_app _ _ _ _ _ Hs
                  (issues_app _ _ _ _ _ Hc
                     (issues_off_bus _ [Log _] eq_refl)))).
    intros Hin. rewrite <- app_assoc in Hin.
    apply in_app_or in Hin. destruct Hin as [Hin|Hin].
    { apply in_repeat_eq in Hin. discriminate. }
    destruct Hin as [Hin|Hin]; [discriminate|].
    apply in_app_or in Hin. destruct Hin as [Hin|Hin].
    { apply in_repeat_eq in Hin. discriminate. }
    destruct Hin as [Hin|[]]. discriminate.
  - destruct (load_wait_polls pf o s) as (_ & _ & [n3 P3]).
    repeat split.
    rewrite (issues_all _ _ _
               (issues_app _ _ _ _ _ Hs
                  (issues_app _ _ _ _ _ Hc
                     (issues_app _ _ _ _ _
                        (issues_frame _ S1D135XX_CMD_INIT_STBY [])
                        (issues_app _ _ _ _ _
                           (issues_off_bus _ [Mdelay 100] eq_refl) P3))))).
    rewrite !without_polls_app.
    change (S1D135XX_CMD_INIT_SET :: repeat S1D135XX_CMD_READ_REG n2)
      with ([S1D135XX_CMD_INIT_SET] ++ repeat S1D135XX_CMD_READ_REG n2).
    rewrite !without_polls_app, !without_polls_repeat. reflexivity.
Qed.

Lemma load_init_code_checksum_witness :
  value (s1d135xx_load_init_code msp430 oracle_checksum_ok (fresh dev_pin))
  = 0
  /\ value (s1d135xx_load_init_code msp430 oracle_checksum_bad
              (fresh dev_pin)) = -1.
Proof.
  split.
  - destruct (load_init_code_checksum msp430 oracle_checksum_ok
                (fresh dev_pin)) as [_ H];
      [vm_compute; reflexivity ..|].
    destruct H as (Hv & _); [vm_compute; reflexivity|].
    rewrite Hv. vm_compute. reflexivity.
  - destruct (load_init_code_checksum msp430 oracle_checksum_bad
                (fresh dev_pin)) as [H _];
      [vm_compute; reflexivity ..|].
    destruct H as (Hv & _); [vm_compute; reflexivity|].
    exact Hv.
Defined.

(** ** Full update, then the end of the update *)

Lemma run_update_ok pf wfid o s :
  value (s1d135xx_wait_idle pf o s) = 0 ->
  s1d135xx_update pf wfid o s =
  prepend (frame (cs0 (data (dev s))) S1D135XX_CMD_UPDATE_FULL
             [S1D135XX_WF_MODE wfid]
           ++ emitted (s1d135xx_wait_idle pf o s)
           ++ frame (cs0 (data (dev s))) S1D135XX_CMD_WAIT_DSPE_TRG [])
    (s1d135xx_wait_idle pf o (after (s1d135xx_wait_idle pf o s))).
Proof.
  intros H. rewrite run_update, run_handshake. cbv zeta.
  rewrite H. cbn [Z.eqb negb].
  rewrite run_wait_dspe_trig, wait_idle_dev, !prepend_prepend.
  now rewrite <- app_assoc.
Qed.

Lemma update_value_failed pf wfid o s :
  value (s1d135xx_wait_idle pf o s) <> 0 ->
  value (s1d135xx_update pf wfid o s) = -1.
Proof.
  intros H. rewrite run_update, run_handshake. cbv zeta.
  apply Z.eqb_neq in H. rewrite H. cbn [negb]. proj. same.
Qed.

(** C5. When [s1d135xx_update] succeeds, the update followed at once by
    [s1d135xx_wait_update_end] puts on the bus the frames of UPDATE_FULL
    (0x33), WAIT_DSPE_TRG (0x28) and WAIT_DSPE_FREND (0x29), in this
    order, each in a chip-select window of its own and each followed by a
    wait.  With a dedicated HRDY pin these three are the only commands.
    Without one every wait polls the status register, so READ_REG
    commands come in between: the commands other than these polls are the
    three, in this order. *)
Theorem update_then_wait_end_commands (pf : platform) (wfid : Z)
    (o : oracle) (s : state) :
  let cs := cs0 (data (dev s)) in
  let w1 := s1d135xx_wait_idle pf o s in
  let w2 := s1d135xx_wait_idle pf o (after w1) in
  let w3 := s1d135xx_wait_idle pf o (after w2) in
  let tr := emitted (update_then_wait_end pf wfid o s) in
  value (s1d135xx_update pf wfid o s) = 0 ->
  tr = frame cs S1D135XX_CMD_UPDATE_FULL [S1D135XX_WF_MODE wfid]
         ++ emitted w1
         ++ frame cs S1D135XX_CMD_WAIT_DSPE_TRG [] ++ emitted w2
         ++ frame cs S1D135XX_CMD_WAIT_DSPE_FREND [] ++ emitted w3
  /\ without_polls (commands cs false tr) = [0x33; 0x28; 0x29]
  /\ (hrdy (data (dev s)) <> PL_GPIO_NONE pf ->
      commands cs false tr = [0x33; 0x28; 0x29]).
Proof.
  intros cs w1 w2 w3 tr Hok. subst tr.
  assert (H1 : value w1 = 0).
  { destruct (Z.eq_dec (value w1) 0) as [E|E]; [exact E|].
    rewrite (update_value_failed pf wfid o s E) in Hok. discriminate. }
  assert (D1 : dev (after w1) = dev s) by apply wait_idle_dev.
  assert (D2 : dev (after w2) = dev s)
    by (unfold w2; rewrite wait_idle_dev; exact D1).
  assert (Htr : emitted (update_then_wait_end pf wfid o s)
    = frame cs S1D135XX_CMD_UPDATE_FULL [S1D135XX_WF_MODE wfid]
         ++ emitted w1
         ++ frame cs S1D135XX_CMD_WAIT_DSPE_TRG [] ++ emitted w2
         ++ frame cs S1D135XX_CMD_WAIT_DSPE_FREND [] ++ emitted w3).
  { unfold update_then_wait_end. rewrite run_bind, (run_update_ok _ _ _ _ H1).
    fold w1. fold w2. proj. rewrite run_bind, run_wait_update_end. proj.
    fold w3. rewrite D2. fold cs. rewrite app_nil_r, <- !app_assoc. same. }
  rewrite Htr. split; [same|].
  pose proof (wait_idle_polls_only pf o s) as [n1 P1].
  pose proof (wait_idle_polls_only pf o (after w1)) as [n2 P2].
  pose proof (wait_idle_polls_only pf o (after w2)) as [n3 P3].
  rewrite D1 in P2. rewrite D2 in P3. fold cs w1 in P1. fold cs w2 in P2.
  fold cs w3 in P3.
  split.
  - rewrite (issues_all _ _ _
      (issues_app _ _ _ _ _ (issues_frame cs S1D135XX_CMD_UPDATE_FULL _)
      (issues_app _ _ _ _ _ P1
      (issues_app _ _ _ _ _ (issues_frame cs S1D135XX_CMD_WAIT_DSPE_TRG _)
      (issues_app _ _ _ _ _ P2
      (issues_app _ _ _ _ _ (issues_frame cs S1D135XX_CMD_WAIT_DSPE_FREND _)
         P3)))))).
    rewrite !without_polls_app, !without_polls_repeat. reflexivity.
  - intros Hpin. apply Z.eqb_neq in Hpin.
    pose proof (wait_idle_off_bus pf o s Hpin) as B1.
    pose proof (wait_idle_off_bus pf o (after w1)) as B2.
    pose proof (wait_idle_off_bus pf o (after w2)) as B3.
    rewrite D1 in B2. rewrite D2 in B3.
    specialize (B2 Hpin). specialize (B3 Hpin).
    apply (issues_all _ _ _
      (issues_app _ _ _ _ _ (issues_frame cs S1D135XX_CMD_UPDATE_FULL _)
      (issues_app _ _ _ _ _ (issues_off_bus cs _ B1)
      (issues_app _ _ _ _ _ (issues_frame cs S1D135XX_CMD_WAIT_DSPE_TRG _)
      (issues_app _ _ _ _ _ (issues_off_bus cs _ B2)
      (issues_app _ _ _ _ _ (issues_frame cs S1D135XX_CMD_WAIT_DSPE_FREND _)
         (issues_off_bus cs _ B3))))))).
Qed.

Lemma update_then_wait_end_commands_witness :
  commands 2 false
    (emitted (update_then_wait_end msp430 2 (fun _ => 1) (fresh dev_pin)))
  = [0x33; 0x28; 0x29].
Proof.
  apply (update_then_wait_end_commands msp430 2 (fun _ => 1) (fresh dev_pin)).
  - vm_compute. reflexivity.
  - discriminate.
Defined.

(** A device without an HRDY pin whose status register always reads
    ready: every wait succeeds at its first check, and the bus carries six
    commands of four different codes. *)
Lemma update_then_wait_end_polls_status :
  let r := update_then_wait_end msp430 2 (fun _ => 0x20) (fresh dev_reg) in
  value r = (0, 0)
  /\ commands 2 false (emitted r) = [0x33; 0x10; 0x28; 0x10; 0x29; 0x10]
  /\ commands 2 false (emitted r) <> [0x33; 0x28; 0x29].
Proof. vm_compute. repeat split. discriminate. Qed.

(** ** Chip select on every path *)

Section Released.

Variables (pf : platform) (o : oracle).

Local Abbreviation bal d tr := (balanced (cs_levels (cs0 (data d)) tr)).

Lemma bal_app d t1 t2 : bal d t1 -> bal d t2 -> bal d (t1 ++ t2).
Proof. intros H1 H2. rewrite cs_levels_app. now apply balanced_app. Qed.

Lemma bal_frame d cmd params : bal d (frame (cs0 (data d)) cmd params).
Proof. rewrite cs_levels_frame. repeat constructor. Qed.

Lemma bal_wait d s : dev s = d -> bal d (emitted (s1d135xx_wait_idle pf o s)).
Proof. intros <-. apply wait_idle_balanced. Qed.

Lemma bal_read_reg d reg s :
  dev s = d -> bal d (emitted (s1d135xx_read_reg pf reg o s)).
Proof.
  intros <-. rewrite run_read_reg, emitted_mk. cbn [cs_levels].
  rewrite Z.eqb_refl. repeat constructor.
Qed.

Lemma bal_wait_dspe_trig d s :
  dev s = d -> bal d (emitted (s1d135xx_wait_dspe_trig pf o s)).
Proof.
  intros <-. rewrite run_wait_dspe_trig, emitted_prepend.
  apply bal_app; [apply bal_frame|now apply bal_wait].
Qed.

Lemma bal_handshake d s : dev s = d -> bal d (emitted (handshake pf o s)).
Proof.
  intros <-. rewrite run_handshake. cbv zeta. rewrite emitted_prepend.
  apply bal_app; [now apply bal_wait|].
  destruct (negb (value (s1d135xx_wait_idle pf o s) =? 0)).
  - rewrite run_ret, emitted_mk. constructor.
  - apply bal_wait_dspe_trig. apply wait_idle_dev.
Qed.

Lemma bal_set_power_state d st s :
  dev s = d -> bal d (emitted (s1d135xx_set_power_state pf st o s)).
Proof.
  intros <-. rewrite run_set_power_state.
  destruct st; [| | |rewrite emitted_mk; constructor]; cbv zeta;
    rewrite emitted_prepend;
    (apply bal_app; [now apply bal_wait|]);
    (destruct (negb (value (s1d135xx_wait_idle pf o s) =? 0));
     [rewrite run_ret, emitted_mk; constructor|]);
    rewrite emitted_prepend;
    (apply bal_app; [apply bal_frame|]);
    apply bal_wait; apply wait_idle_dev.
Qed.

Lemma bal_init_gate_drv s :
  bal (dev s) (emitted (s1d135xx_init_gate_drv pf o s)).
Proof.
  rewrite run_init_gate_drv. cbv zeta. rewrite emitted_prepend.
  apply bal_app; [now apply bal_set_power_state|].
  destruct (negb (value (s1d135xx_set_power_state pf PL_EPDC_RUN o s) =? 0)).
  - rewrite run_ret, emitted_mk. constructor.
  - rewrite emitted_prepend. apply bal_app; [apply bal_frame|].
    apply bal_wait. apply set_power_state_dev.
Qed.

Lemma bal_hard_reset s : bal (dev s) (emitted (s1d135xx_hard_reset pf o s)).
Proof.
  rewrite run_hard_reset, emitted_mk.
  destruct (reset (data (dev s)) =? PL_GPIO_NONE pf); [constructor|].
  cbn [cs_levels].
  destruct (reset (data (dev s)) =? cs0 (data (dev s))); repeat constructor.
Qed.

Lemma bal_transfer_window d w stat tail :
  bal d tail ->
  bal d ([GpioSet (cs0 (data d)) 0; SpiWrite w] ++ [TransferFile stat]
           ++ [GpioSet (cs0 (data d)) 1; FClose] ++ tail).
Proof.
  intros H. cbn [app cs_levels]. rewrite !Z.eqb_refl. now constructor.
Qed.

Lemma bal_load_sent s : bal (dev s) (load_sent pf o s).
Proof.
  destruct (load_stages_dev pf o s) as (D1 & DT & D2 & DC & D3).
  unfold load_sent.
  apply bal_app; [constructor|].
  apply bal_app; [now apply bal_wait|].
  unfold load_transfer at 1. rewrite run_transfer_file, emitted_mk.
  apply bal_transfer_window. apply bal_wait. exact DT.
Qed.

Lemma bal_load_init_code s :
  bal (dev s) (emitted (s1d135xx_load_init_code pf o s)).
Proof.
  destruct (load_stages_dev pf o s) as (D1 & DT & D2 & DC & D3).
  pose proof (bal_load_sent s) as Hs.
  rewrite run_load_init_code.
  destruct (negb (value (load_open o s) =? FR_OK));
    [rewrite emitted_mk; constructor|].
  destruct (negb (value (load_wait1 pf o s) =? 0)).
  { rewrite emitted_mk. apply bal_app; [constructor|now apply bal_wait]. }
  destruct (negb (value (load_wait2 pf o s) =? 0));
    [rewrite emitted_mk; exact Hs|].
  destruct (negb (value (load_transfer pf o s) =? 0)).
  { rewrite emitted_mk. apply bal_app; [exact Hs|constructor]. }
  destruct (Z.land (value (load_checksum pf o s))
              S1D135XX_INIT_CODE_CHECKSUM_OK =? 0);
    rewrite emitted_mk; (apply bal_app; [exact Hs|]);
    (apply bal_app; [now apply bal_read_reg|]).
  - constructor.
  - apply bal_app; [apply bal_frame|].
    apply (bal_app _ [Mdelay 100]); [constructor|].
    apply bal_wait. exact DC.
Qed.

Lemma bal_operation op s : bal (dev s) (emitted (run_operation pf op o s)).
Proof.
  destruct op; cbn [run_operation].
  - rewrite run_bind, emitted_prepend, run_ret, emitted_mk, app_nil_r.
    apply bal_hard_reset.
  - rewrite run_soft_reset, emitted_prepend.
    apply bal_app; [apply bal_frame|now apply bal_wait].
  - apply bal_load_init_code.
  - apply bal_init_gate_drv.
  - now apply bal_wait_dspe_trig.
  - rewrite run_update, emitted_prepend.
    apply bal_app; [apply bal_frame|now apply bal_handshake].
  - rewrite run_update_area, emitted_prepend.
    apply bal_app; [apply bal_frame|now apply bal_handshake].
  - rewrite run_wait_update_end, emitted_prepend.
    apply bal_app; [apply bal_frame|now apply bal_wait].
  - now apply bal_wait.
  - now apply bal_set_power_state.
  - rewrite run_bind, emitted_prepend, run_ret, emitted_mk, app_nil_r.
    rewrite run_cmd, emitted_mk. apply bal_frame.
  - now apply bal_read_reg.
  - rewrite run_bind, emitted_prepend, run_ret, emitted_mk, app_nil_r.
    rewrite run_write_reg, emitted_mk. apply bal_frame.
Qed.

End Released.

(** C9. Whatever public operation is run, from whatever state and
    whatever the outside world answers, so on every path through it, the
    levels driven on the chip-select pin come in pairs, asserted then
    deasserted.  So chip select is asserted as often as it is
    deasserted, a line that was deasserted before the call is deasserted
    after it, and if the operation drives the line at all it leaves it
    deasserted. *)
Theorem chip_select_released (pf : platform) (op : operation) (o : oracle)
    (s : state) :
  let cs := cs0 (data (dev s)) in
  let tr := emitted (run_operation pf op o s) in
  balanced (cs_levels cs tr)
  /\ cs_asserts cs tr = cs_deasserts cs tr
  /\ cs_line cs 1 tr = 1
  /\ (cs_levels cs tr <> [] -> forall init, cs_line cs init tr = 1).
Proof.
  intros cs tr. pose proof (bal_operation pf o op s) as H.
  fold cs tr in H. split; [exact H|]. split; [|split].
  - now apply balanced_counts.
  - apply balanced_last; auto.
  - intros Hne init. apply balanced_last; auto.
Qed.

(** The transfer of the init code fails, then the wait after it times
    out: the window of INIT_SET is closed all the same. *)
Lemma chip_select_released_witness :
  value (run_operation msp430 OpLoadInitCode oracle_transfer_fails
           (fresh dev_pin)) = -1
  /\ cs_levels 2
       (emitted (run_operation msp430 OpLoadInitCode oracle_transfer_fails
                   (fresh dev_pin))) = [0; 1]
  /\ cs_line 2 0
       (emitted (run_operation msp430 OpLoadInitCode oracle_transfer_fails
                   (fresh dev_pin))) = 1.
Proof.
  split; [vm_compute; reflexivity|].
  split; [vm_compute; reflexivity|].
  destruct (chip_select_released msp430 OpLoadInitCode oracle_transfer_fails
              (fresh dev_pin)) as (_ & _ & _ & H).
  apply (H ltac:(vm_compute; discriminate) 0).
Defined.

(** ** The scenarios, run *)

(** Standby on a device whose HRDY pin is high: one check, the command
    0x04 in its window, one more check. *)
Example scenario_standby :
  s1d135xx_set_power_state msp430 PL_EPDC_STANDBY (fun _ => 1) (fresh dev_pin)
  = {| value := 0;
       after := {| dev := dev_pin; tick := 2 |};
       emitted := [GpioGet 3 1; GpioSet 2 0; SpiWrite [0; 4]; GpioSet 2 1;
                   GpioGet 3 1] |}.
Proof. vm_compute. reflexivity. Qed.

(** The area (1000, 10, 50, 60) with waveform 2: left becomes 488. *)
Example scenario_update_area :
  emitted (s1d135xx_update_area msp430 2
             {| left := 1000; top := 10; width := 50; height := 60 |}
             (fun _ => 1) (fresh dev_pin))
  = [GpioSet 2 0; SpiWrite [0; 0x34]; SpiWrite [2; 0]; SpiWrite [1; 232];
     SpiWrite [0; 10]; SpiWrite [0; 50]; SpiWrite [0; 60]; GpioSet 2 1;
     GpioGet 3 1;
     GpioSet 2 0; SpiWrite [0; 0x28]; GpioSet 2 1;
     GpioGet 3 1].
Proof. vm_compute. reflexivity. Qed.

(** A full update and the wait for its end, with an HRDY pin. *)
Example scenario_update_full :
  emitted (update_then_wait_end msp430 2 (fun _ => 1) (fresh dev_pin))
  = [GpioSet 2 0; SpiWrite [0; 0x33]; SpiWrite [2; 0]; GpioSet 2 1;
     GpioGet 3 1;
     GpioSet 2 0; SpiWrite [0; 0x28]; GpioSet 2 1;
     GpioGet 3 1;
     GpioSet 2 0; SpiWrite [0; 0x29]; GpioSet 2 1;
     GpioGet 3 1].
Proof. vm_compute. reflexivity. Qed.

(** The same without an HRDY pin: every wait reads the status register. *)
Example scenario_update_full_polled :
  emitted (update_then_wait_end msp430 2 (fun _ => 0x20) (fresh dev_reg))
  = [GpioSet 2 0; SpiWrite [0; 0x33]; SpiWrite [2; 0]; GpioSet 2 1;
     GpioSet 2 0; SpiWrite [0; 0x10]; SpiWrite [0; 0x0A];
     SpiRead [0x20; 0x20]; SpiRead [0x20; 0x20]; GpioSet 2 1;
     GpioSet 2 0; SpiWrite [0; 0x28]; GpioSet 2 1;
     GpioSet 2 0; SpiWrite [0; 0x10]; SpiWrite [0; 0x0A];
     SpiRead [0x20; 0x20]; SpiRead [0x20; 0x20]; GpioSet 2 1;
     GpioSet 2 0; SpiWrite [0; 0x29]; GpioSet 2 1;
     GpioSet 2 0; SpiWrite [0; 0x10]; SpiWrite [0; 0x0A];
     SpiRead [0x20; 0x20]; SpiRead [0x20; 0x20]; GpioSet 2 1].
Proof. vm_compute. reflexivity. Qed.

(** A chip that never becomes ready: 3000 checks, 2999 delays, the log
    entry, and -1. *)
Example scenario_timeout :
  let r := s1d135xx_wait_idle msp430 (fun _ => 0) (fresh dev_pin) in
  value r = -1 /\ tick (after r) = 3000%nat
  /\ List.length (delays (emitted r)) = 2999%nat
  /\ last (emitted r) (Mdelay 0) = Log "HRDY timeout".
Proof. vm_compute. repeat split. Qed.

(** The init code is loaded and the checksum flag is set. *)
Example scenario_load_init_code :
  s1d135xx_load_init_code msp430 oracle_checksum_ok (fresh dev_pin)
  = {| value := 0;
       after := {| dev := dev_pin; tick := 9 |};
       emitted :=
         [FOpen "bin/Ecode.bin" 0; GpioGet 3 1;
          GpioSet 2 0; SpiWrite [0; 0]; TransferFile 0; GpioSet 2 1; FClose;
          GpioGet 3 1;
          GpioSet 2 0; SpiWrite [0; 0x10]; SpiWrite [2; 0xA8];
          SpiRead [1; 1]; SpiRead [0x80; 1]; GpioSet 2 1;
          GpioSet 2 0; SpiWrite [0; 6]; GpioSet 2 1; Mdelay 100;
          GpioGet 3 1] |}.
Proof. vm_compute. reflexivity. Qed.

(** * Further properties of the driver *)

(** ** What a wait returns, and when *)

Lemma wait_idle_when_ready pf o s k :
  (k < S1D135XX_HRDY_TIMEOUT)%nat ->
  (forall j, (j < k)%nat -> ready_check pf o s j = false) ->
  ready_check pf o s k = true ->
  value (s1d135xx_wait_idle pf o s) = 0
  /\ after (s1d135xx_wait_idle pf o s) = checked pf s (S k)
  /\ delays (emitted (s1d135xx_wait_idle pf o s)) = repeat 1 k.
Proof.
  intros Hk Hnot Hrdy. rewrite run_wait_idle. cbv zeta.
  destruct (hrdy_poll_ready pf o s k (Nat.pred S1D135XX_HRDY_TIMEOUT) 0%nat)
    as (Ev & Ea & Ed);
    [now apply Nat.lt_succ_r; rewrite <- hrdy_timeout_succ
    |exact Hnot|exact Hrdy|].
  rewrite checked_0 in Ev, Ea, Ed. revert Ev Ea Ed.
  generalize (hrdy_poll pf (Nat.pred S1D135XX_HRDY_TIMEOUT) o s).
  intros r Ev Ea Ed. rewrite Ev. cbn [value after emitted].
  rewrite Ea, Ed. auto.
Qed.

Lemma wait_idle_when_never pf o s :
  (forall j, (j < S1D135XX_HRDY_TIMEOUT)%nat ->
     ready_check pf o s j = false) ->
  value (s1d135xx_wait_idle pf o s) = -1
  /\ after (s1d135xx_wait_idle pf o s) = checked pf s S1D135XX_HRDY_TIMEOUT
  /\ delays (emitted (s1d135xx_wait_idle pf o s))
     = repeat 1 (Nat.pred S1D135XX_HRDY_TIMEOUT).
Proof.
  intros Hnot. rewrite run_wait_idle. cbv zeta.
  destruct (hrdy_poll_never pf o s (Nat.pred S1D135XX_HRDY_TIMEOUT) 0%nat)
    as (Ev & Ea & Ed).
  { intros j Hj. apply Hnot. rewrite hrdy_timeout_succ.
    now apply Nat.lt_succ_r. }
  rewrite checked_0 in Ev, Ea, Ed. revert Ev Ea Ed.
  generalize (hrdy_poll pf (Nat.pred S1D135XX_HRDY_TIMEOUT) o s).
  intros r Ev Ea Ed. rewrite Ev. cbn [value after emitted].
  rewrite Ea, delays_app, Ed, app_nil_r.
  cbn [Nat.add]. rewrite <- hrdy_timeout_succ. auto.
Qed.

(** Every wait is one of the two: ready at some first check, or never. *)
Lemma wait_idle_cases pf o s :
  (exists k, (k < S1D135XX_HRDY_TIMEOUT)%nat
     /\ ready_check pf o s k = true
     /\ value (s1d135xx_wait_idle pf o s) = 0
     /\ after (s1d135xx_wait_idle pf o s) = checked pf s (S k)
     /\ delays (emitted (s1d135xx_wait_idle pf o s)) = repeat 1 k)
  \/ ((forall j, (j < S1D135XX_HRDY_TIMEOUT)%nat ->
         ready_check pf o s j = false)
      /\ value (s1d135xx_wait_idle pf o s) = -1
      /\ after (s1d135xx_wait_idle pf o s)
         = checked pf s S1D135XX_HRDY_TIMEOUT
      /\ delays (emitted (s1d135xx_wait_idle pf o s))
         = repeat 1 (Nat.pred S1D135XX_HRDY_TIMEOUT)).
Proof.
  destruct (ready_search (ready_check pf o s) S1D135XX_HRDY_TIMEOUT)
    as [(k & Hk & Hb & Ht)|Hn].
  - left. exists k.
    destruct (wait_idle_when_ready pf o s k Hk Hb Ht) as (Ev & Ea & Ed).
    auto.
  - right. destruct (wait_idle_when_never pf o s Hn) as (Ev & Ea & Ed).
    auto.
Qed.

Lemma total_delay_app t1 t2 :
  total_delay (t1 ++ t2) = total_delay t1 + total_delay t2.
Proof.
  unfold total_delay. rewrite delays_app.
  induction (delays t1) as [|x l IH]; simpl; lia.
Qed.

Lemma total_delay_repeat n : fold_right Z.add 0 (repeat 1 n) = Z.of_nat n.
Proof.
  induction n as [|n IH]; [reflexivity|].
  cbn [repeat fold_right]. rewrite IH. lia.
Qed.

Lemma hrdy_timeout_Z : Z.of_nat (Nat.pred S1D135XX_HRDY_TIMEOUT) = 2999.
Proof. vm_compute. reflexivity. Qed.

(** X1. [s1d135xx_wait_idle] returns 0 exactly when one of the first 3000
    readiness checks holds and -1 exactly when none does; it returns
    nothing else, and whatever the chip does it spends at most 2999 ms in
    delays. *)
Theorem wait_idle_result_iff (pf : platform) (o : oracle) (s : state) :
  (value (s1d135xx_wait_idle pf o s) = 0 <->
   exists k, (k < S1D135XX_HRDY_TIMEOUT)%nat /\ ready_check pf o s k = true)
  /\ (value (s1d135xx_wait_idle pf o s) = -1 <->
      forall k, (k < S1D135XX_HRDY_TIMEOUT)%nat ->
        ready_check pf o s k = false)
  /\ (value (s1d135xx_wait_idle pf o s) = 0
      \/ value (s1d135xx_wait_idle pf o s) = -1)
  /\ 0 <= total_delay (emitted (s1d135xx_wait_idle pf o s)) <= 2999.
Proof.
  destruct (wait_idle_cases pf o s)
    as [(k & Hk & Ht & Ev & Ea & Ed)|(Hn & Ev & Ea & Ed)];
    unfold total_delay; rewrite Ev, Ed, total_delay_repeat.
  - repeat split; try (intros; discriminate); auto.
    + intros _. exists k. auto.
    + intros Hall. rewrite (Hall k Hk) in Ht. discriminate.
    + lia.
    + pose proof hrdy_timeout_Z. rewrite hrdy_timeout_succ in Hk. lia.
  - rewrite hrdy_timeout_Z. repeat split; try (intros; discriminate);
      auto; try lia.
    intros (k & Hk & Ht). rewrite (Hn k Hk) in Ht. discriminate.
Qed.

(** ** The shape of every trace *)

Lemma dt_one pf d b : block pf d b -> driver_trace pf d b.
Proof.
  intros H. rewrite <- (app_nil_r b). apply dt_block; [exact H|constructor].
Qed.

Lemma dt_app pf d t1 t2 :
  driver_trace pf d t1 -> driver_trace pf d t2 -> driver_trace pf d (t1 ++ t2).
Proof.
  induction 1 as [|b tr Hb Ht IH]; intros H2; [exact H2|].
  rewrite <- app_assoc. apply dt_block; [exact Hb|now apply IH].
Qed.

Lemma byte_range x : 0 <= x mod 256 < 256.
Proof. apply Z.mod_pos_bound. lia. Qed.

Section Shape.

Variables (pf : platform) (o : oracle).

Local Abbreviation DT d tr := (driver_trace pf d tr).

Lemma dt_read_reg d reg s :
  dev s = d -> DT d (emitted (s1d135xx_read_reg pf reg o s)).
Proof.
  intros <-. rewrite run_read_reg, emitted_mk.
  apply dt_one. apply blk_read; apply byte_range.
Qed.

Lemma dt_get_hrdy d s : dev s = d -> DT d (emitted (get_hrdy pf o s)).
Proof.
  intros <-. destruct (hrdy (data (dev s)) =? PL_GPIO_NONE pf) eqn:E.
  - rewrite run_get_hrdy_reg by exact E. cbv zeta. rewrite emitted_mk.
    now apply dt_read_reg.
  - rewrite run_get_hrdy_pin by exact E. rewrite emitted_mk.
    apply dt_one. apply blk_hrdy. now apply Z.eqb_neq.
Qed.

Lemma dt_wait d s : dev s = d -> DT d (emitted (s1d135xx_wait_idle pf o s)).
Proof.
  intros Hd.
  apply (wait_idle_inv pf o d (driver_trace pf d) (dt_app pf d)
           (dt_one pf d _ (blk_delay pf d 1 (or_introl eq_refl)))
           (dt_one pf d _ (blk_log pf d _))
           (dt_get_hrdy d) s Hd).
Qed.

Lemma dt_frame d cmd params : DT d (frame (cs0 (data d)) cmd params).
Proof. apply dt_one. apply blk_frame. Qed.

Lemma dt_wait_dspe_trig d s :
  dev s = d -> DT d (emitted (s1d135xx_wait_dspe_trig pf o s)).
Proof.
  intros <-. rewrite run_wait_dspe_trig, emitted_prepend.
  apply dt_app; [apply dt_frame|now apply dt_wait].
Qed.

Lemma dt_handshake d s : dev s = d -> DT d (emitted (handshake pf o s)).
Proof.
  intros <-. rewrite run_handshake. cbv zeta. rewrite emitted_prepend.
  apply dt_app; [now apply dt_wait|].
  destruct (negb (value (s1d135xx_wait_idle pf o s) =? 0)).
  - rewrite run_ret, emitted_mk. constructor.
  - apply dt_wait_dspe_trig. apply wait_idle_dev.
Qed.

Lemma dt_set_power_state d st s :
  dev s = d -> DT d (emitted (s1d135xx_set_power_state pf st o s)).
Proof.
  intros <-. rewrite run_set_power_state.
  destruct st;
    [| | |rewrite emitted_mk; apply dt_one; apply blk_log]; cbv zeta;
    rewrite emitted_prepend;
    (apply dt_app; [now apply dt_wait|]);
    (destruct (negb (value (s1d135xx_wait_idle pf o s) =? 0));
     [rewrite run_ret, emitted_mk; constructor|]);
    rewrite emitted_prepend;
    (apply dt_app; [apply dt_frame|]);
    apply dt_wait; apply wait_idle_dev.
Qed.

Lemma dt_init_gate_drv s :
  DT (dev s) (emitted (s1d135xx_init_gate_drv pf o s)).
Proof.
  rewrite run_init_gate_drv. cbv zeta. rewrite emitted_prepend.
  apply dt_app; [now apply dt_set_power_state|].
  destruct (negb (value (s1d135xx_set_power_state pf PL_EPDC_RUN o s) =? 0)).
  - rewrite run_ret, emitted_mk. constructor.
  - rewrite emitted_prepend. apply dt_app; [apply dt_frame|].
    apply dt_wait. apply set_power_state_dev.
Qed.

Lemma dt_hard_reset s : DT (dev s) (emitted (s1d135xx_hard_reset pf o s)).
Proof.
  rewrite run_hard_reset, emitted_mk.
  destruct (reset (data (dev s)) =? PL_GPIO_NONE pf) eqn:E.
  - apply dt_one. apply blk_log.
  - apply dt_one. apply blk_reset. now apply Z.eqb_neq.
Qed.

Lemma dt_transfer_window d stat tail :
  DT d tail ->
  DT d ([GpioSet (cs0 (data d)) 0; SpiWrite (wire S1D135XX_CMD_INIT_SET)]
          ++ [TransferFile stat]
          ++ [GpioSet (cs0 (data d)) 1; FClose] ++ tail).
Proof.
  intros H.
  apply (dt_block pf d _ ([FClose] ++ tail) (blk_transfer pf d stat)).
  apply (dt_block pf d _ tail (blk_close pf d)). exact H.
Qed.

Lemma dt_load_sent s : DT (dev s) (load_sent pf o s).
Proof.
  destruct (load_stages_dev pf o s) as (D1 & DT' & D2 & DC & D3).
  unfold load_sent.
  apply dt_app.
  { unfold load_open. rewrite run_f_open, emitted_mk.
    apply dt_one. apply blk_open. }
  apply dt_app; [now apply dt_wait|].
  unfold load_transfer at 1. rewrite run_transfer_file, emitted_mk.
  apply dt_transfer_window. apply dt_wait. exact DT'.
Qed.

Lemma dt_load_init_code s :
  DT (dev s) (emitted (s1d135xx_load_init_code pf o s)).
Proof.
  destruct (load_stages_dev pf o s) as (D1 & DT' & D2 & DC & D3).
  pose proof (dt_load_sent s) as Hs.
  assert (Ho : DT (dev s) (emitted (load_open o s))).
  { unfold load_open. rewrite run_f_open, emitted_mk.
    apply dt_one. apply blk_open. }
  rewrite run_load_init_code.
  destruct (negb (value (load_open o s) =? FR_OK));
    [rewrite emitted_mk; exact Ho|].
  destruct (negb (value (load_wait1 pf o s) =? 0)).
  { rewrite emitted_mk. apply dt_app; [exact Ho|now apply dt_wait]. }
  destruct (negb (value (load_wait2 pf o s) =? 0));
    [rewrite emitted_mk; exact Hs|].
  destruct (negb (value (load_transfer pf o s) =? 0)).
  { rewrite emitted_mk. apply dt_app; [exact Hs|].
    apply dt_one. apply blk_log. }
  destruct (Z.land (value (load_checksum pf o s))
              S1D135XX_INIT_CODE_CHECKSUM_OK =? 0);
    rewrite emitted_mk; (apply dt_app; [exact Hs|]);
    (apply dt_app; [now apply dt_read_reg|]).
  - apply dt_one. apply blk_log.
  - apply dt_app; [apply dt_frame|].
    apply (dt_app _ _ [Mdelay 100]);
      [apply dt_one; apply blk_delay; auto|].
    apply dt_wait. exact DC.
Qed.

Lemma dt_operation op s : DT (dev s) (emitted (run_operation pf op o s)).
Proof.
  destruct op; cbn [run_operation].
  - rewrite run_bind, emitted_prepend, run_ret, emitted_mk, app_nil_r.
    apply dt_hard_reset.
  - rewrite run_soft_reset, emitted_prepend.
    apply dt_app; [apply dt_frame|now apply dt_wait].
  - apply dt_load_init_code.
  - apply dt_init_gate_drv.
  - now apply dt_wait_dspe_trig.
  - rewrite run_update, emitted_prepend.
    apply dt_app; [apply dt_frame|now apply dt_handshake].
  - rewrite run_update_area, emitted_prepend.
    apply dt_app; [apply dt_frame|now apply dt_handshake].
  - rewrite run_wait_update_end, emitted_prepend.
    apply dt_app; [apply dt_frame|now apply dt_wait].
  - now apply dt_wait.
  - now apply dt_set_power_state.
  - rewrite run_bind, emitted_prepend, run_ret, emitted_mk, app_nil_r.
    rewrite run_cmd, emitted_mk. apply dt_frame.
  - now apply dt_read_reg.
  - rewrite run_bind, emitted_prepend, run_ret, emitted_mk, app_nil_r.
    rewrite run_write_reg, emitted_mk. apply dt_frame.
Qed.

End Shape.

(** X2. Whatever operation is run and whatever the chip answers, the
    trace is a sequence of nine kinds of pieces and nothing else: a
    command frame, a READ_REG frame with its two reads, the INIT_SET
    window with the file transfer, a read of the HRDY pin, the reset
    pulse, a delay of 1 or 100 ms, a log entry, the opening and the
    closing of the init code file. *)
Theorem operation_trace_shape (pf : platform) (op : operation) (o : oracle)
    (s : state) :
  driver_trace pf (dev s) (emitted (run_operation pf op o s)).
Proof. apply dt_operation. Qed.

(** ** Pins, transfers and windows *)

Lemma wire_allowed v :
  List.length (wire v) = 2%nat /\ Forall (fun b => 0 <= b < 256) (wire v).
Proof.
  unfold wire. pose proof (u16_range v) as Hv. split; [reflexivity|].
  repeat constructor.
  - apply Z.div_pos; lia.
  - apply Z.div_lt_upper_bound; lia.
  - apply Z.mod_pos_bound; lia.
  - apply Z.mod_pos_bound; lia.
Qed.

Lemma words_allowed pf d params :
  Forall (allowed pf d) (map (fun x => SpiWrite (wire x)) params).
Proof.
  induction params as [|x rest IH]; constructor; [apply wire_allowed|exact IH].
Qed.

(** One event after the other. *)
Ltac each_event :=
  repeat match goal with
         | |- Forall _ (_ :: _) => apply Forall_cons
         | |- Forall _ [] => apply Forall_nil
         end.

Lemma block_allowed pf d b : block pf d b -> Forall (allowed pf d) b.
Proof.
  destruct 1 as [cmd params|reg b0 b1 b2 b3 H0 H1 H2 H3|stat|level Hh|Hr
                 |ms Hms| | |].
  - unfold frame. constructor; [cbn; auto|].
    constructor; [apply wire_allowed|].
    apply Forall_app. split; [apply words_allowed|].
    constructor; [cbn; auto|constructor].
  - each_event; cbn [allowed]; try apply wire_allowed; auto;
      (split; [reflexivity|each_event; assumption]).
  - each_event; cbn [allowed]; try apply wire_allowed; auto.
  - each_event; cbn [allowed]; auto.
  - each_event; cbn [allowed]; auto 6.
  - each_event. cbn [allowed]. destruct Hms; auto.
  - each_event. exact I.
  - each_event. reflexivity.
  - each_event. exact I.
Qed.

(** X3. No operation ever drives a pin other than chip select and reset
    (so never HDC), nor to a level other than 0 or 1; the only pin read
    is HRDY, and only when there is one; every write and every read that
    the driver itself makes on the SPI bus, with [spi_write_bytes] and
    [spi_read_bytes], is of exactly two bytes, each from 0 to 255; and
    the only delays are of 1, 4, 10 and 100 ms.  The init code that
    [transfer_file] streams is an event of its own, whose length is not
    looked at. *)
Theorem operation_events_allowed (pf : platform) (op : operation)
    (o : oracle) (s : state) :
  Forall (allowed pf (dev s)) (emitted (run_operation pf op o s)).
Proof.
  induction (dt_operation pf o op s) as [|b tr Hb Ht IH]; [constructor|].
  apply Forall_app. split; [now apply block_allowed|exact IH].
Qed.

Lemma window_scan_app cs sel t1 t2 :
  window_scan cs sel (t1 ++ t2)
  = match window_scan cs sel t1 with
    | Some sel' => window_scan cs sel' t2
    | None => None
    end.
Proof.
  revert sel. induction t1 as [|e t1 IH]; intros sel; [reflexivity|].
  destruct e; cbn [app window_scan]; try apply IH.
  - destruct (pin =? cs); [|apply IH].
    destruct (level =? 0), sel; try reflexivity; apply IH.
  - destruct sel; [apply IH|reflexivity].
  - destruct sel; [apply IH|reflexivity].
  - destruct sel; [apply IH|reflexivity].
Qed.

Lemma window_scan_words cs (ws : list Z) rest :
  window_scan cs true (map (fun x => SpiWrite (wire x)) ws ++ rest)
  = window_scan cs true rest.
Proof. induction ws; cbn [map app window_scan]; auto. Qed.

Lemma block_window pf d b :
  block pf d b -> window_scan (cs0 (data d)) false b = Some false.
Proof.
  destruct 1 as [cmd params|reg b0 b1 b2 b3 H0 H1 H2 H3|stat|level Hh|Hr
                 |ms Hms| | |]; try reflexivity.
  - unfold frame. cbn [window_scan]. rewrite Z.eqb_refl. cbn [Z.eqb].
    rewrite window_scan_words. cbn [window_scan]. now rewrite Z.eqb_refl.
  - cbn [window_scan]. now rewrite !Z.eqb_refl.
  - cbn [window_scan]. now rewrite !Z.eqb_refl.
  - cbn [window_scan].
    destruct (reset (data d) =? cs0 (data d)); reflexivity.
Qed.

(** X4. In every operation, on every path, chip select is asserted and
    deasserted in strict alternation, starting and ending deasserted,
    and no byte is written, read or transferred from the file while it
    is deasserted. *)
Theorem transfers_inside_window (pf : platform) (op : operation)
    (o : oracle) (s : state) :
  window_scan (cs0 (data (dev s))) false (emitted (run_operation pf op o s))
  = Some false.
Proof.
  induction (dt_operation pf o op s) as [|b tr Hb Ht IH]; [reflexivity|].
  now rewrite window_scan_app, (block_window _ _ _ Hb).
Qed.

(** ** Time spent waiting *)

Lemma delays_words (ws : list Z) :
  delays (map (fun x => SpiWrite (wire x)) ws) = [].
Proof. induction ws; cbn [map delays]; auto. Qed.

Lemma total_delay_frame cs cmd params : total_delay (frame cs cmd params) = 0.
Proof.
  unfold total_delay, frame. cbn [delays].
  now rewrite delays_app, delays_words.
Qed.

Lemma total_delay_wait pf o s :
  0 <= total_delay (emitted (s1d135xx_wait_idle pf o s)) <= 2999.
Proof.
  destruct (wait_idle_cases pf o s)
    as [(k & Hk & Ht & Ev & Ea & Ed)|(Hn & Ev & Ea & Ed)];
    unfold total_delay; rewrite Ed, total_delay_repeat.
  - pose proof hrdy_timeout_Z. rewrite hrdy_timeout_succ in Hk. lia.
  - rewrite hrdy_timeout_Z. lia.
Qed.

Lemma total_delay_read_reg pf reg o s :
  total_delay (emitted (s1d135xx_read_reg pf reg o s)) = 0.
Proof. now rewrite run_read_reg, emitted_mk. Qed.

Section Delay.

Variables (pf : platform) (o : oracle).

Lemma total_delay_wait_dspe_trig s :
  0 <= total_delay (emitted (s1d135xx_wait_dspe_trig pf o s)) <= 2999.
Proof.
  rewrite run_wait_dspe_trig, emitted_prepend, total_delay_app,
    total_delay_frame.
  pose proof (total_delay_wait pf o s). lia.
Qed.

Lemma total_delay_handshake s :
  0 <= total_delay (emitted (handshake pf o s)) <= 2 * 2999.
Proof.
  rewrite run_handshake. cbv zeta. rewrite emitted_prepend, total_delay_app.
  pose proof (total_delay_wait pf o s).
  destruct (negb (value (s1d135xx_wait_idle pf o s) =? 0)).
  - rewrite run_ret, emitted_mk. change (total_delay []) with 0. lia.
  - pose proof (total_delay_wait_dspe_trig
                  (after (s1d135xx_wait_idle pf o s))). lia.
Qed.

Lemma total_delay_set_power_state st s :
  0 <= total_delay (emitted (s1d135xx_set_power_state pf st o s)) <= 2 * 2999.
Proof.
  rewrite run_set_power_state.
  pose proof (total_delay_wait pf o s).
  pose proof (total_delay_wait pf o (after (s1d135xx_wait_idle pf o s))).
  destruct st;
    [| | |rewrite emitted_mk; change (total_delay [Log _]) with 0; lia];
    cbv zeta; rewrite emitted_prepend, total_delay_app;
    (destruct (negb (value (s1d135xx_wait_idle pf o s) =? 0));
     [rewrite run_ret, emitted_mk; change (total_delay []) with 0; lia|]);
    rewrite emitted_prepend, total_delay_app, total_delay_frame; lia.
Qed.

Lemma total_delay_init_gate_drv s :
  0 <= total_delay (emitted (s1d135xx_init_gate_drv pf o s)) <= 3 * 2999.
Proof.
  rewrite run_init_gate_drv. cbv zeta. rewrite emitted_prepend, total_delay_app.
  pose proof (total_delay_set_power_state PL_EPDC_RUN s).
  destruct (negb (value (s1d135xx_set_power_state pf PL_EPDC_RUN o s) =? 0)).
  - rewrite run_ret, emitted_mk. change (total_delay []) with 0. lia.
  - rewrite emitted_prepend, total_delay_app, total_delay_frame.
    pose proof (total_delay_wait pf o
                  (after (s1d135xx_set_power_state pf PL_EPDC_RUN o s))).
    lia.
Qed.

Lemma total_delay_load_sent s :
  0 <= total_delay (load_sent pf o s) <= 2 * 2999.
Proof.
  assert (Ho : total_delay (emitted (load_open o s)) = 0)
    by (unfold load_open; now rewrite run_f_open, emitted_mk).
  assert (Ht : total_delay (emitted (load_transfer pf o s)) = 0)
    by (unfold load_transfer; now rewrite run_transfer_file, emitted_mk).
  pose proof (total_delay_wait pf o (after (load_open o s))) as H1.
  pose proof (total_delay_wait pf o (after (load_transfer pf o s))) as H2.
  unfold load_sent. rewrite !total_delay_app, Ho, Ht.
  unfold load_wait1, load_wait2.
  change (total_delay [GpioSet (cs0 (data (dev s))) 0;
                       SpiWrite (wire S1D135XX_CMD_INIT_SET)]) with 0.
  change (total_delay [GpioSet (cs0 (data (dev s))) 1; FClose]) with 0.
  lia.
Qed.

Lemma total_delay_load_init_code s :
  0 <= total_delay (emitted (s1d135xx_load_init_code pf o s))
  <= 3 * 2999 + 100.
Proof.
  pose proof (total_delay_load_sent s) as Hs.
  pose proof (total_delay_wait pf o (after (load_open o s))) as H1.
  pose proof (total_delay_wait pf o (after (load_checksum pf o s))) as H3.
  assert (Hc : total_delay (emitted (load_checksum pf o s)) = 0)
    by (unfold load_checksum; apply total_delay_read_reg).
  assert (Ho : total_delay (emitted (load_open o s)) = 0)
    by (unfold load_open; now rewrite run_f_open, emitted_mk).
  rewrite run_load_init_code.
  destruct (negb (value (load_open o s) =? FR_OK));
    [rewrite emitted_mk; lia|].
  destruct (negb (value (load_wait1 pf o s) =? 0));
    [rewrite emitted_mk, total_delay_app; unfold load_wait1; lia|].
  destruct (negb (value (load_wait2 pf o s) =? 0));
    [rewrite emitted_mk; lia|].
  destruct (negb (value (load_transfer pf o s) =? 0)).
  { rewrite emitted_mk, total_delay_app.
    change (total_delay [Log "Failed to transfer init code file"]) with 0.
    lia. }
  destruct (Z.land (value (load_checksum pf o s))
              S1D135XX_INIT_CODE_CHECKSUM_OK =? 0);
    rewrite emitted_mk, !total_delay_app, ?total_delay_frame, Hc.
  - change (total_delay [Log "Init code checksum error"]) with 0. lia.
  - change (total_delay [Mdelay 100]) with 100. unfold load_wait3. lia.
Qed.

Lemma total_delay_operation op s :
  0 <= total_delay (emitted (run_operation pf op o s)) <= delay_bound op.
Proof.
  pose proof (total_delay_wait pf o s) as Hw.
  destruct op; cbn [run_operation delay_bound].
  - rewrite run_bind, emitted_prepend, run_ret, emitted_mk, app_nil_r.
    rewrite run_hard_reset, emitted_mk.
    destruct (reset (data (dev s)) =? PL_GPIO_NONE pf).
    + change (total_delay [Log _]) with 0. lia.
    + change (total_delay [GpioSet _ 0; Mdelay 4; GpioSet _ 1; Mdelay 10])
        with 14. lia.
  - rewrite run_soft_reset, emitted_prepend, total_delay_app,
      total_delay_frame. lia.
  - apply total_delay_load_init_code.
  - apply total_delay_init_gate_drv.
  - apply total_delay_wait_dspe_trig.
  - rewrite run_update, emitted_prepend, total_delay_app, total_delay_frame.
    pose proof (total_delay_handshake s). lia.
  - rewrite run_update_area, emitted_prepend, total_delay_app,
      total_delay_frame.
    pose proof (total_delay_handshake s). lia.
  - rewrite run_wait_update_end, emitted_prepend, total_delay_app,
      total_delay_frame. lia.
  - lia.
  - apply total_delay_set_power_state.
  - rewrite run_bind, emitted_prepend, run_ret, emitted_mk, app_nil_r.
    rewrite run_cmd, emitted_mk, total_delay_frame. lia.
  - rewrite total_delay_read_reg. lia.
  - rewrite run_bind, emitted_prepend, run_ret, emitted_mk, app_nil_r.
    rewrite run_write_reg, emitted_mk, total_delay_frame. lia.
Qed.

End Delay.

(** X5. Every operation returns after a bounded time in delays, whatever
    the chip does: at most 2999 ms for each wait it makes plus its fixed
    delays, so 14 ms for the hard reset, 5998 ms for an update or a
    change of power state, 8997 ms for the gate driver initialisation and
    at most 9097 ms, for loading the init code. *)
Theorem operation_delay_bounded (pf : platform) (op : operation)
    (o : oracle) (s : state) :
  0 <= total_delay (emitted (run_operation pf op o s)) <= delay_bound op
  /\ delay_bound op <= 9097.
Proof.
  split; [apply total_delay_operation|].
  destruct op; cbn [delay_bound]; lia.
Qed.

(** ** What the operations return *)

Lemma status_cases (v : Z) : v = 0 \/ v = -1 -> (v =? 0) = true \/ v = -1.
Proof. intros [->| ->]; auto. Qed.

Section Status.

Variables (pf : platform) (o : oracle).

Local Abbreviation status r := (value r = 0 \/ value r = -1).

Lemma wait_dspe_trig_status s : status (s1d135xx_wait_dspe_trig pf o s).
Proof.
  rewrite run_wait_dspe_trig, value_prepend. apply wait_idle_value.
Qed.

Lemma handshake_status s : status (handshake pf o s).
Proof.
  rewrite run_handshake. cbv zeta. rewrite value_prepend.
  destruct (negb (value (s1d135xx_wait_idle pf o s) =? 0)).
  - rewrite run_ret, value_mk. auto.
  - apply wait_dspe_trig_status.
Qed.

Lemma set_power_state_status st s :
  status (s1d135xx_set_power_state pf st o s).
Proof.
  rewrite run_set_power_state.
  destruct st; [| | |rewrite value_mk; auto]; cbv zeta;
    rewrite value_prepend;
    (destruct (negb (value (s1d135xx_wait_idle pf o s) =? 0));
     [rewrite run_ret, value_mk; auto|]);
    rewrite value_prepend; apply wait_idle_value.
Qed.

Lemma init_gate_drv_status s : status (s1d135xx_init_gate_drv pf o s).
Proof.
  rewrite run_init_gate_drv. cbv zeta. rewrite value_prepend.
  destruct (negb (value (s1d135xx_set_power_state pf PL_EPDC_RUN o s) =? 0)).
  - rewrite run_ret, value_mk. auto.
  - rewrite value_prepend. apply wait_idle_value.
Qed.

Lemma load_init_code_status s : status (s1d135xx_load_init_code pf o s).
Proof.
  rewrite run_load_init_code.
  repeat match goal with
         | |- context [if ?c then _ else _] => destruct c
         end; rewrite value_mk; auto.
  unfold load_wait3. apply wait_idle_value.
Qed.

Lemma read_reg_range reg s :
  0 <= value (s1d135xx_read_reg pf reg o s) < 65536.
Proof.
  rewrite run_read_reg, value_mk. unfold be_word.
  pose proof (byte_range (o (2 + tick s)%nat)).
  pose proof (byte_range (o (3 + tick s)%nat)). lia.
Qed.

End Status.

(** X6. Every operation of the driver that reports a result reports 0 or
    -1 and nothing else, whatever the chip answers; a register read gives
    a value of 16 bits. *)
Theorem operation_result_range (pf : platform) (op : operation) (o : oracle)
    (s : state) :
  match op with
  | OpReadReg _ => 0 <= value (run_operation pf op o s) < 65536
  | _ => value (run_operation pf op o s) = 0
         \/ value (run_operation pf op o s) = -1
  end.
Proof.
  destruct op; cbn [run_operation];
    try (rewrite run_bind, value_prepend, run_ret, value_mk; auto; fail).
  - rewrite run_soft_reset, value_prepend. apply wait_idle_value.
  - apply load_init_code_status.
  - apply init_gate_drv_status.
  - apply wait_dspe_trig_status.
  - rewrite run_update, value_prepend. apply handshake_status.
  - rewrite run_update_area, value_prepend. apply handshake_status.
  - rewrite run_wait_update_end, value_prepend. apply wait_idle_value.
  - apply wait_idle_value.
  - apply set_power_state_status.
  - apply read_reg_range.
Qed.

(** ** Which commands reach the bus *)

Lemma without_polls_issues cs tr cmds :
  issues cs tr cmds -> without_polls (commands cs false tr) = without_polls cmds.
Proof. intros H. now rewrite (issues_all _ _ _ H). Qed.

Lemma issues_polls_at pf o s d :
  dev s = d ->
  exists n, issues (cs0 (data d)) (emitted (s1d135xx_wait_idle pf o s))
              (repeat S1D135XX_CMD_READ_REG n).
Proof. intros <-. apply wait_idle_polls_only. Qed.

Lemma value_not_0 (v : Z) : negb (v =? 0) = false -> v = 0.
Proof. intros H. apply negb_false_iff in H. now apply Z.eqb_eq. Qed.

(** X7. The wait of [s1d135xx_wait_idle] puts nothing on the bus but
    READ_REG commands, and with a dedicated HRDY pin nothing at all: no
    pin is driven and no byte is moved. *)
Theorem wait_idle_bus_traffic (pf : platform) (o : oracle) (s : state) :
  (exists n,
     commands (cs0 (data (dev s))) false (emitted (s1d135xx_wait_idle pf o s))
     = repeat S1D135XX_CMD_READ_REG n)
  /\ (hrdy (data (dev s)) <> PL_GPIO_NONE pf ->
      forallb off_bus (emitted (s1d135xx_wait_idle pf o s)) = true).
Proof.
  split.
  - destruct (wait_idle_polls_only pf o s) as [n Hn].
    exists n. now apply issues_all.
  - intros H. apply wait_idle_off_bus. now apply Z.eqb_neq.
Qed.

Lemma wait_idle_bus_traffic_witness :
  forallb off_bus
    (emitted (s1d135xx_wait_idle msp430 (fun _ => 1) (fresh dev_pin))) = true.
Proof.
  apply (proj2 (wait_idle_bus_traffic msp430 (fun _ => 1) (fresh dev_pin))).
  discriminate.
Defined.

Section Commands.

Variables (pf : platform) (o : oracle) (s : state).

Local Abbreviation cs := (cs0 (data (dev s))).
Local Abbreviation W1 := (s1d135xx_wait_idle pf o s).
Local Abbreviation W2 := (s1d135xx_wait_idle pf o (after W1)).

(** The commands of a change of power state, READ_REG polls apart. *)
Lemma set_power_state_commands st :
  st <> PL_EPDC_OFF ->
  let r := s1d135xx_set_power_state pf st o s in
  if value W1 =? 0
  then without_polls (commands cs false (emitted r)) = [power_command st]
       /\ value r = value W2
  else without_polls (commands cs false (emitted r)) = [] /\ value r = -1.
Proof.
  intros Hst r. subst r.
  destruct (issues_polls_at pf o s (dev s) eq_refl) as [n1 P1].
  destruct (issues_polls_at pf o (after W1) (dev s) (wait_idle_dev pf o s))
    as [n2 P2].
  rewrite run_set_power_state.
  destruct st; try congruence; cbv zeta;
    (destruct (value W1 =? 0); cbn [negb]; proj;
     [split; [|same];
      rewrite (without_polls_issues _ _ _
                 (issues_app _ _ _ _ _ P1
                    (issues_app _ _ _ _ _ (issues_frame cs _ []) P2)));
      rewrite !without_polls_app, !without_polls_repeat; reflexivity
     |split; [|same];
      rewrite app_nil_r, (without_polls_issues _ _ _ P1);
      apply without_polls_repeat]).
Qed.

(** The commands of the two updates, READ_REG polls apart. *)
Lemma handshake_commands cmd params :
  let tr := frame cs cmd params ++ emitted (handshake pf o s) in
  if value W1 =? 0
  then without_polls (commands cs false tr)
       = without_polls [u16 cmd; S1D135XX_CMD_WAIT_DSPE_TRG]
       /\ value (handshake pf o s) = value W2
  else without_polls (commands cs false tr) = without_polls [u16 cmd]
       /\ value (handshake pf o s) = -1.
Proof.
  intros tr. subst tr.
  destruct (issues_polls_at pf o s (dev s) eq_refl) as [n1 P1].
  destruct (issues_polls_at pf o (after W1) (dev s) (wait_idle_dev pf o s))
    as [n2 P2].
  rewrite run_handshake. cbv zeta.
  destruct (value W1 =? 0); cbn [negb]; proj.
  - rewrite run_wait_dspe_trig, wait_idle_dev. proj. split; [|same].
    rewrite (without_polls_issues _ _ _
               (issues_app _ _ _ _ _ (issues_frame cs cmd params)
                  (issues_app _ _ _ _ _ P1
                     (issues_app _ _ _ _ _
                        (issues_frame cs S1D135XX_CMD_WAIT_DSPE_TRG []) P2)))).
    change [u16 cmd; S1D135XX_CMD_WAIT_DSPE_TRG]
      with ([u16 cmd] ++ [u16 S1D135XX_CMD_WAIT_DSPE_TRG]).
    rewrite !without_polls_app, !without_polls_repeat, !app_nil_r.
    reflexivity.
  - split; [|same]. rewrite app_nil_r.
    rewrite (without_polls_issues _ _ _
               (issues_app _ _ _ _ _ (issues_frame cs cmd params) P1)).
    rewrite !without_polls_app, !without_polls_repeat, !app_nil_r.
    reflexivity.
Qed.

End Commands.

(** X8. For Run, Standby and Sleep, [s1d135xx_set_power_state] sends the
    command of its table (0x02, 0x04, 0x05) and returns what the wait
    after it returns, if the wait before it succeeds; if that wait fails
    it returns -1 and no command of its own reaches the bus.  For Off it
    returns 0 at once: a warning in the log, nothing on the bus, nothing
    asked of the chip. *)
Theorem set_power_state_by_state (pf : platform)
    (st : pl_epdc_power_state) (o : oracle) (s : state) :
  let cs := cs0 (data (dev s)) in
  let w1 := s1d135xx_wait_idle pf o s in
  let w2 := s1d135xx_wait_idle pf o (after w1) in
  let r := s1d135xx_set_power_state pf st o s in
  match st with
  | PL_EPDC_OFF =>
      r = {| value := 0; after := s;
             emitted := [Log "Warning: OFF mode not supported"] |}
  | _ =>
      if value w1 =? 0
      then without_polls (commands cs false (emitted r)) = [power_command st]
           /\ value r = value w2
      else without_polls (commands cs false (emitted r)) = []
           /\ value r = -1
  end
  /\ [power_command PL_EPDC_RUN; power_command PL_EPDC_STANDBY;
      power_command PL_EPDC_SLEEP] = [0x02; 0x04; 0x05].
Proof.
  intros cs w1 w2 r. split; [|reflexivity].
  destruct st eqn:E.
  4: { subst r. now rewrite run_set_power_state. }
  all: apply (set_power_state_commands pf o s); discriminate.
Qed.

(** X9. [s1d135xx_update] and [s1d135xx_update_area] send WAIT_DSPE_TRG
    only if the wait after the update command succeeds, and then return
    what the wait after WAIT_DSPE_TRG returns; otherwise they return -1
    and the update command is the only one of theirs on the bus. *)
Theorem update_trigger_only_when_idle (pf : platform) (wfid : Z)
    (area : pl_area) (o : oracle) (s : state) :
  let cs := cs0 (data (dev s)) in
  let w1 := s1d135xx_wait_idle pf o s in
  let w2 := s1d135xx_wait_idle pf o (after w1) in
  let r := s1d135xx_update pf wfid o s in
  let ra := s1d135xx_update_area pf wfid area o s in
  if value w1 =? 0
  then without_polls (commands cs false (emitted r)) = [0x33; 0x28]
       /\ without_polls (commands cs false (emitted ra)) = [0x34; 0x28]
       /\ value r = value w2 /\ value ra = value w2
  else without_polls (commands cs false (emitted r)) = [0x33]
       /\ without_polls (commands cs false (emitted ra)) = [0x34]
       /\ value r = -1 /\ value ra = -1.
Proof.
  intros cs w1 w2 r ra. subst r ra.
  rewrite run_update, run_update_area. proj.
  pose proof (handshake_commands pf o s S1D135XX_CMD_UPDATE_FULL
                [S1D135XX_WF_MODE wfid]) as H1.
  pose proof (handshake_commands pf o s S1D135XX_CMD_UPDATE_FULL_AREA
                [S1D135XX_WF_MODE wfid;
                 Z.land (left area) S1D135XX_XMASK;
                 Z.land (top area) S1D135XX_YMASK;
                 Z.land (width area) S1D135XX_XMASK;
                 Z.land (height area) S1D135XX_YMASK]) as H2.
  cbv zeta in H1, H2. fold cs w1 w2 in H1, H2. fold cs.
  destruct (value w1 =? 0); destruct H1 as [H1 V1], H2 as [H2 V2];
    rewrite H1, H2; auto.
Qed.

(** ** Loading the init code, on every path *)


Section LoadPaths.

Variables (pf : platform) (o : oracle) (s : state).

Local Abbreviation cs := (cs0 (data (dev s))).



Lemma file_closes_app t1 t2 :
  file_closes (t1 ++ t2) = (file_closes t1 + file_closes t2)%nat.
Proof. unfold file_closes. now rewrite filter_app, length_app. Qed.

Lemma file_closes_wait s' :
  file_closes (emitted (s1d135xx_wait_idle pf o s')) = 0%nat.
Proof.
  apply (wait_idle_inv pf o (dev s') (fun tr => file_closes tr = 0%nat));
    auto.
  - intros t1 t2 H1 H2. now rewrite file_closes_app, H1, H2.
  - intros s2 _.
    destruct (hrdy (data (dev s2)) =? PL_GPIO_NONE pf) eqn:E.
    + rewrite run_get_hrdy_reg by exact E. cbv zeta.
      now rewrite emitted_mk, run_read_reg, emitted_mk.
    + now rewrite run_get_hrdy_pin by exact E.
Qed.

Lemma file_closes_frame cs' cmd params :
  file_closes (frame cs' cmd params) = 0%nat.
Proof.
  unfold frame, file_closes. cbn [filter is_fclose].
  rewrite filter_app. cbn [filter is_fclose].
  rewrite length_app, Nat.add_0_r.
  induction params as [|x rest IH]; [reflexivity|exact IH].
Qed.

Lemma file_closes_load_sent : file_closes (load_sent pf o s) = 1%nat.
Proof.
  unfold load_sent. rewrite !file_closes_app.
  unfold load_wait1, load_wait2. rewrite !file_closes_wait.
  unfold load_open, load_transfer.
  now rewrite run_f_open, run_transfer_file, !emitted_mk.
Qed.

(** X12. [s1d135xx_load_init_code] closes the init code file exactly
    once if the file opened and the wait before the transfer succeeded,
    whatever happens afterwards, and never otherwise: when the file
    opened and that first wait fails, the call returns with the file
    still open. *)
Theorem load_init_code_file_closed :
  file_closes (emitted (s1d135xx_load_init_code pf o s))
  = if (value (load_open o s) =? FR_OK)
       && (value (load_wait1 pf o s) =? 0)
    then 1%nat else 0%nat.
Proof.
  pose proof file_closes_load_sent as Hs.
  assert (Hc : file_closes (emitted (load_checksum pf o s)) = 0%nat)
    by (unfold load_checksum; now rewrite run_read_reg, emitted_mk).
  assert (Ho : file_closes (emitted (load_open o s)) = 0%nat)
    by (unfold load_open; now rewrite run_f_open, emitted_mk).
  rewrite run_load_init_code.
  destruct (value (load_open o s) =? FR_OK); cbn [negb andb];
    [|now rewrite emitted_mk].
  destruct (value (load_wait1 pf o s) =? 0); cbn [negb andb].
  2: { rewrite emitted_mk, file_closes_app, Ho.
       unfold load_wait1. now rewrite file_closes_wait. }
  destruct (negb (value (load_wait2 pf o s) =? 0));
    [now rewrite emitted_mk|].
  destruct (negb (value (load_transfer pf o s) =? 0));
    [now rewrite emitted_mk, file_closes_app, Hs|].
  destruct (Z.land (value (load_checksum pf o s))
              S1D135XX_INIT_CODE_CHECKSUM_OK =? 0);
    rewrite emitted_mk, !file_closes_app, Hs, Hc; [reflexivity|].
  rewrite file_closes_frame. unfold load_wait3.
  now rewrite file_closes_wait.
Qed.

End LoadPaths.

(** The file opens, HRDY stays low: -1, and no FClose on the trace. *)
Example scenario_file_left_open :
  let r := s1d135xx_load_init_code msp430 (fun _ => 0) (fresh dev_pin) in
  value r = -1
  /\ hd FClose (emitted r) = FOpen "bin/Ecode.bin" 0
  /\ file_closes (emitted r) = 0%nat.
Proof. vm_compute. repeat split. Qed.

(** ** The gate driver *)

(** X13. [s1d135xx_init_gate_drv] sends EPD_GDRV_CLR only after a change
    to Run that succeeded, and then returns what the wait after it
    returns.  If the wait before RUN fails nothing of its own is sent; if
    the wait after RUN fails RUN is the only command sent; in both cases
    it returns -1. *)
Theorem init_gate_drv_commands (pf : platform) (o : oracle) (s : state) :
  let cs := cs0 (data (dev s)) in
  let w1 := s1d135xx_wait_idle pf o s in
  let w2 := s1d135xx_wait_idle pf o (after w1) in
  let w3 := s1d135xx_wait_idle pf o (after w2) in
  let r := s1d135xx_init_gate_drv pf o s in
  if negb (value w1 =? 0) then
    without_polls (commands cs false (emitted r)) = [] /\ value r = -1
  else if negb (value w2 =? 0) then
    without_polls (commands cs false (emitted r)) = [S1D135XX_CMD_RUN]
    /\ value r = -1
  else
    without_polls (commands cs false (emitted r))
    = [S1D135XX_CMD_RUN; S1D135XX_CMD_EPD_GDRV_CLR]
    /\ value r = value w3.
Proof.
  intros cs w1 w2 w3 r. subst r.
  assert (D1 : dev (after w1) = dev s) by apply wait_idle_dev.
  assert (D2 : dev (after w2) = dev s)
    by (unfold w2; rewrite wait_idle_dev; exact D1).
  destruct (issues_polls_at pf o s (dev s) eq_refl) as [n1 P1].
  destruct (issues_polls_at pf o (after w1) (dev s) D1) as [n2 P2].
  destruct (issues_polls_at pf o (after w2) (dev s) D2) as [n3 P3].
  fold cs w1 in P1. fold cs w2 in P2. fold cs w3 in P3.
  rewrite run_init_gate_drv, run_set_power_state. cbv zeta.
  fold w1. fold w2. proj.
  change (nth (power_state_index PL_EPDC_RUN) pwr_cmds 0)
    with S1D135XX_CMD_RUN.
  destruct (value w1 =? 0) eqn:E1; cbn [negb]; proj.
  - destruct (value w2 =? 0) eqn:E2; cbn [negb].
    + proj. fold w3. split; [|same].
      rewrite <- !app_assoc. fold cs.
      rewrite (without_polls_issues _ _ _
        (issues_app _ _ _ _ _ P1
        (issues_app _ _ _ _ _ (issues_frame cs S1D135XX_CMD_RUN [])
        (issues_app _ _ _ _ _ P2
        (issues_app _ _ _ _ _ (issues_frame cs S1D135XX_CMD_EPD_GDRV_CLR [])
           P3))))).
      rewrite !without_polls_app, !without_polls_repeat. reflexivity.
    + proj. split; [|same].
      rewrite <- !app_assoc, !app_nil_r. fold cs.
      rewrite (without_polls_issues _ _ _
        (issues_app _ _ _ _ _ P1
        (issues_app _ _ _ _ _ (issues_frame cs S1D135XX_CMD_RUN []) P2))).
      rewrite !without_polls_app, !without_polls_repeat. reflexivity.
  - cbn [Z.eqb negb]. proj. split; [|same].
    rewrite !app_nil_r. rewrite (without_polls_issues _ _ _ P1).
    apply without_polls_repeat.
Qed.

(** ** Frames through the raw command *)

(** X14. [s1d135xx_cmd] sends its command and its parameters, each
    reduced to 16 bits, as one frame of as many words plus one, and asks
    nothing of the chip.  The other frames of the driver are instances of
    it: a register write is the raw command WRITE_REG with the register
    and the value, and the soft reset, the two waits for the display
    engine and the full update are a raw command followed by their
    wait. *)
Theorem frames_through_cmd (pf : platform) (cmd : Z) (params : list Z)
    (reg val wfid : Z) (o : oracle) (s : state) :
  s1d135xx_cmd pf cmd params o s
  = {| value := tt; after := s;
       emitted := frame (cs0 (data (dev s))) cmd params |}
  /\ List.length (frame (cs0 (data (dev s))) cmd params)
     = (List.length params + 3)%nat
  /\ s1d135xx_cmd pf (cmd + 65536) (map (fun x => x + 65536) params) o s
     = s1d135xx_cmd pf cmd params o s
  /\ s1d135xx_write_reg pf reg val o s
     = s1d135xx_cmd pf S1D135XX_CMD_WRITE_REG [reg; val] o s
  /\ s1d135xx_soft_reset pf o s
     = (s1d135xx_cmd pf S1D135XX_CMD_WRITE_REG
          [S1D135XX_REG_SOFTWARE_RESET pf; 0] ;;
        s1d135xx_wait_idle pf)%io o s
  /\ s1d135xx_wait_dspe_trig pf o s
     = (s1d135xx_cmd pf S1D135XX_CMD_WAIT_DSPE_TRG [] ;;
        s1d135xx_wait_idle pf)%io o s
  /\ s1d135xx_wait_update_end pf o s
     = (s1d135xx_cmd pf S1D135XX_CMD_WAIT_DSPE_FREND [] ;;
        s1d135xx_wait_idle pf)%io o s
  /\ s1d135xx_update pf wfid o s
     = (s1d135xx_cmd pf S1D135XX_CMD_UPDATE_FULL [S1D135XX_WF_MODE wfid] ;;
        handshake pf)%io o s.
Proof.
  assert (Hw : forall x, wire (x + 65536) = wire x).
  { intros x. unfold wire, u16.
    replace (x + 65536) with (x + 1 * 65536) by lia.
    now rewrite Z.mod_add by lia. }
  split; [apply run_cmd|].
  split.
  { unfold frame. cbn [List.length].
    rewrite length_app, length_map. cbn [List.length]. lia. }
  split.
  { rewrite !run_cmd. unfold frame. rewrite Hw, map_map.
    do 4 f_equal. apply map_ext. intros x. now rewrite Hw. }
  split; [rewrite run_write_reg, run_cmd; same|].
  split.
  { rewrite run_soft_reset, (bind_quiet _ _ _ _ _ _ (run_cmd _ _ _ _ _)).
    same. }
  split.
  { rewrite run_wait_dspe_trig,
      (bind_quiet _ _ _ _ _ _ (run_cmd _ _ _ _ _)). same. }
  split.
  { rewrite run_wait_update_end,
      (bind_quiet _ _ _ _ _ _ (run_cmd _ _ _ _ _)). same. }
  rewrite run_update, (bind_quiet _ _ _ _ _ _ (run_cmd _ _ _ _ _)). same.
Qed.

(** * Properties of the probe functions *)

Import Probe.

(** Run a probe function to the end: every test on a status is split. *)
Ltac probe_cases :=
  repeat match goal with
         | |- context [if negb (?x =? ?y) then _ else _] =>
             let E := fresh "E" in destruct (Z.eqb_spec x y) as [E|E];
             cbn [negb]
         | |- context [if (?x =? ?y) then _ else _] =>
             let E := fresh "E" in destruct (Z.eqb_spec x y) as [E|E]
         | |- context [if String.eqb ?x ?y then _ else _] =>
             destruct (String.eqb x y)
         end.

(** X15. [probe_i2c] aborts exactly for the mode NONE and for a mode it
    does not know, before any call.  Otherwise it makes at most one
    call, leaves the hardware info alone, and: in the modes DISP and
    S1D13524 the platform uses the display bus afterwards even when
    [epson_i2c_init] failed and its status is returned; in the mode HOST
    it uses the host bus and the result is 0; in the mode SC18IS6XX the
    result is -1 and the platform is as before. *)
Theorem probe_i2c_bus (host_i2c disp_i2c : Z) (o : oracle) (p : pstate) :
  let mode := i2c_mode (hwinfo (plat p)) in
  match probe_i2c host_i2c disp_i2c o p with
  | Done stat p' tr =>
      (List.length (statuses tr) <= 1)%nat
      /\ hwinfo (plat p') = hwinfo (plat p)
      /\ match mode with
         | I2C_MODE_HOST => stat = 0 /\ i2c (plat p') = host_i2c
         | I2C_MODE_DISP | I2C_MODE_S1D13524 =>
             statuses tr = [stat] /\ i2c (plat p') = disp_i2c
         | I2C_MODE_SC18IS6XX => stat = -1 /\ plat p' = plat p
         | _ => False
         end
  | Abort _ tr =>
      tr = []
      /\ (mode = I2C_MODE_NONE \/ exists n, mode = I2C_MODE_other n)
  end.
Proof.
  intros mode. subst mode. unfold probe_i2c, pbind, get_plat.
  destruct p as [[h b v e] n]. cbn [plat hwinfo].
  destruct (i2c_mode h) eqn:Em; cbn; eauto 6.
Qed.







(** X19. [probe_hwinfo] makes one call, [pl_hwinfo_init], and never
    aborts.  When that call succeeds the result is 0 and the platform
    uses the hardware info of the EEPROM.  When it fails: with the
    default compiled in, the result is still 0 and the platform uses the
    default hardware info; without it, the result is -1 and the platform
    is as before.  Bus, VCOM and EPDC of the platform are never
    touched. *)
Theorem probe_hwinfo_fallback (with_default : bool)
    (hwinfo_eeprom hwinfo_default : pl_hwinfo) (o : oracle) (p : pstate) :
  match probe_hwinfo with_default hwinfo_eeprom hwinfo_default o p with
  | Done stat p' tr =>
      i2c (plat p') = i2c (plat p)
      /\ vcom (plat p') = vcom (plat p)
      /\ epdc (plat p') = epdc (plat p)
      /\ exists r,
           statuses tr = [r]
           /\ if r =? 0
              then stat = 0 /\ hwinfo (plat p') = hwinfo_eeprom
              else if with_default
                   then stat = 0 /\ hwinfo (plat p') = hwinfo_default
                   else stat = -1 /\ plat p' = plat p
  | Abort _ _ => False
  end.
Proof.
  unfold probe_hwinfo, pbind, calls, does, pret, set_hwinfo.
  destruct p as [[h b v e] n]. cbn [plat asked i2c vcom epdc hwinfo].
  destruct with_default; cbn -[Z.eqb];
    destruct (o n =? 0) eqn:E; cbn -[Z.eqb];
    (split; [reflexivity|]); (split; [reflexivity|]);
    (split; [reflexivity|]); exists (o n); rewrite E; auto.
Qed.

(** ** The probe functions, run *)

(** Every call succeeds: the PMIC is set up on the bus of the platform
    and the EPDC is complete. *)
Example scenario_probe_hvpmic_ok :
  probe_hvpmic all_ok (at_reset raven)
  = Done 0 {| plat := plat (at_reset raven); asked := 3 |}
      [Log "EPD PSU: EPDC"; pl_epdpsu_epdc_init 0; vcom_init;
       Log "HV-PMIC: TPS65185";
       tps65185_init 0 I2C_PMIC_ADDR_TPS65185 0;
       tps65185_set_vcom_voltage 4000 0].
Proof. vm_compute. reflexivity. Qed.

(** The PSU fails with status 5: the result is -1 and nothing more is
    called. *)
Example scenario_probe_hvpmic_psu_fails :
  probe_hvpmic (fails_at 0 5) (at_reset raven)
  = Done (-1) {| plat := plat (at_reset raven); asked := 1 |}
      [Log "EPD PSU: EPDC"; pl_epdpsu_epdc_init 5;
       Log "Failed to initialise EPD PSU"].
Proof. vm_compute. reflexivity. Qed.

(** The init call succeeds but leaves the EPDC empty: the run is
    aborted. *)
Example scenario_probe_epdc_incomplete :
  probe_epdc false no_epdc all_ok (at_reset raven)
  = Abort "Assertion failed"
      [Log "EPDC: S1D13541"; epson_epdc_init EPSON_EPDC_S1D13541 0].
Proof. vm_compute. reflexivity. Qed.

Example scenario_probe_epdc_ok :
  match probe_epdc false full_epdc all_ok (at_reset raven) with
  | Done stat p' _ => stat = 0 /\ epdc (plat p') = full_epdc
  | Abort _ _ => False
  end.
Proof. vm_compute. split; reflexivity. Qed.

(** The display info of the EEPROM cannot be read, that of the SD card
    can: the waveform library is read from the SD card. *)
Example scenario_probe_dispinfo_falls_back :
  probe_dispinfo CONFIG_DISP_DATA_EEPROM_SD "Type18" (fails_at 0 1)
    (at_reset raven)
  = Done 0 {| plat := plat (at_reset raven); asked := 5 |}
      [pl_dispinfo_init_eeprom 1; pl_dispinfo_init_fatfs 0;
       pl_wflib_init_fatfs 0; join_path "0:" "Type18" 0; f_chdir 0].
Proof. vm_compute. reflexivity. Qed.

(** Without the default, a failed EEPROM read leaves the platform as it
    was; with it, the default hardware info is used and the result
    is 0. *)
Example scenario_probe_hwinfo_default :
  probe_hwinfo true raven
    {| board_type := "HB"; i2c_mode := I2C_MODE_HOST;
       hv_pmic := HV_PMIC_MAX17135; epdc_ref := EPDC_S1D13524 |}
    (fails_at 0 (-1)) (at_reset raven)
  = Done 0
      {| plat := {| hwinfo :=
                      {| board_type := "HB"; i2c_mode := I2C_MODE_HOST;
                         hv_pmic := HV_PMIC_MAX17135;
                         epdc_ref := EPDC_S1D13524 |};
                    i2c := 0; vcom := 4000; epdc := no_epdc |};
         asked := 1 |}
      [pl_hwinfo_init (-1);
       Log "WARNING: EEPROM failed, using default HW info"].
Proof. vm_compute. reflexivity. Qed.
